(** * Project Neon: the native boundary (neon_jni.c)

    A shallow embedding of [src/main/native/neon_jni.c]: the JNI entry points
    of [NeonClientJNI] and [NeonHostJNI], the C API of [project_neon.h] built
    on top of them, the thread-local error buffer, and the [sscanf] call that
    splits a relay address. *)

From Stdlib Require Import ZArith Ascii String Lia.
From stdpp Require Import base option list gmap strings.

Local Open Scope Z_scope.

(** ** C strings and the characters [sscanf] looks at *)

(** A [const char *] is modelled by the bytes in front of its terminator. *)

Definition isspace (c : ascii) : bool :=
  let n := nat_of_ascii c in
  Nat.eqb n 32 || (Nat.leb 9 n && Nat.leb n 13).

Definition isdigit (c : ascii) : bool :=
  let n := nat_of_ascii c in
  Nat.leb 48 n && Nat.leb n 57.

Definition digit_value (c : ascii) : Z := Z.of_nat (nat_of_ascii c) - 48.

Definition INT_MIN : Z := - 2 ^ 31.
Definition INT_MAX : Z := 2 ^ 31 - 1.
Definition fits_int (z : Z) : bool := (INT_MIN <=? z) && (z <=? INT_MAX).

(** ** [sscanf]

    The three kinds of directive that occur in the format of the source,
    ["%255[^:]:%d"], with the semantics of C17 7.21.6.2. *)

Inductive directive : Type :=
  | Scanset (width : nat) (excluded : list ascii)   (* %<width>[^<excluded>] *)
  | Literal (c : ascii)                             (* an ordinary character  *)
  | Decimal.                                        (* %d                     *)

Inductive item : Type :=
  | Chars (s : string)
  | Int (z : Z).

(** What a scan leaves behind: the items assigned so far, and whether it
    stopped because the input ran out.  The behaviour is undefined when a
    converted number cannot be represented in its [int]. *)
Inductive scanned : Type :=
  | Undefined
  | Stopped (items : list item) (input_failure : bool).

Definition assign (i : item) (r : scanned) : scanned :=
  match r with
  | Undefined => Undefined
  | Stopped items f => Stopped (i :: items) f
  end.

(** The longest run of at most [width] characters outside [excluded]. *)
Fixpoint scan_set (width : nat) (excluded : list ascii) (input : string)
  : string * string :=
  match width, input with
  | S n, String c rest =>
      if bool_decide (c ∈ excluded) then (EmptyString, input)
      else let '(h, r) := scan_set n excluded rest in (String c h, r)
  | _, _ => (EmptyString, input)
  end.

Fixpoint skip_space (input : string) : string :=
  match input with
  | String c rest => if isspace c then skip_space rest else input
  | EmptyString => input
  end.

Fixpoint scan_digits (acc : Z) (input : string) : Z * string :=
  match input with
  | String c rest =>
      if isdigit c then scan_digits (10 * acc + digit_value c) rest
      else (acc, input)
  | EmptyString => (acc, input)
  end.

Definition scan_sign (input : string) : bool * string :=
  match input with
  | String c rest =>
      if bool_decide (c = "-"%char) then (true, rest)
      else if bool_decide (c = "+"%char) then (false, rest)
      else (false, input)
  | EmptyString => (false, input)
  end.

(** An optionally signed, non-empty run of decimal digits. *)
Definition scan_int (input : string) : option (Z * string) :=
  let '(neg, body) := scan_sign input in
  match body with
  | String c _ =>
      if isdigit c then
        let '(v, rest) := scan_digits 0 body in
        Some (if neg then - v else v, rest)
      else None
  | EmptyString => None
  end.

Fixpoint scan (fmt : list directive) (input : string) : scanned :=
  match fmt with
  | [] => Stopped [] false
  | Literal c :: fmt' =>
      match input with
      | EmptyString => Stopped [] true
      | String c' rest =>
          if bool_decide (c = c') then scan fmt' rest else Stopped [] false
      end
  | Scanset w ex :: fmt' =>
      match input with
      | EmptyString => Stopped [] true
      | String _ _ =>
          match scan_set w ex input with
          | (EmptyString, _) => Stopped [] false
          | (h, rest) => assign (Chars h) (scan fmt' rest)
          end
      end
  | Decimal :: fmt' =>
      match skip_space input with
      | EmptyString => Stopped [] true
      | String _ _ as input' =>
          match scan_int input' with
          | None => Stopped [] false
          | Some (z, rest) =>
              if fits_int z then assign (Int z) (scan fmt' rest) else Undefined
          end
      end
  end.

Definition EOF : Z := -1.

(** The return value of [sscanf] with the items it assigned; [None] when the
    behaviour is undefined. *)
Definition sscanf (input : string) (fmt : list directive)
  : option (Z * list item) :=
  match scan fmt input with
  | Undefined => None
  | Stopped [] true => Some (EOF, [])
  | Stopped items _ => Some (Z.of_nat (length items), items)
  end.

(** ["%255[^:]:%d"] *)
Definition relay_format : list directive :=
  [Scanset 255 [":"%char]; Literal ":"; Decimal].

(** [sscanf(addrStr, "%255[^:]:%d", host, &port)]: the return value and the
    two output variables.  An output that was not assigned is never read by
    the source; it shows here as [""] and [0]. *)
Definition sscanf_host_port (addrStr : string) : option (Z * string * Z) :=
  match sscanf addrStr relay_format with
  | None => None
  | Some (n, items) =>
      Some (n,
            match items with Chars h :: _ => h | _ => EmptyString end,
            match items with _ :: Int p :: _ => p | _ => 0 end)
  end.


(** ** Integer types of the boundary *)

Definition JNI_TRUE : Z := 1.
Definition JNI_FALSE : Z := 0.
Definition JNI_OK : Z := 0.
Definition JNI_ERR : Z := -1.
Definition JNI_EDETACHED : Z := -2.
Definition JNI_VERSION_1_8 : Z := 65544.   (* 0x00010008 *)

(** Conversions to [jint], [uint8_t], [uint32_t] and (LP64) [size_t]. *)
Definition to_jint (z : Z) : Z := (z + 2 ^ 31) mod 2 ^ 32 - 2 ^ 31.
Definition to_uint8_t (z : Z) : Z := z mod 2 ^ 8.
Definition to_uint32_t (z : Z) : Z := z mod 2 ^ 32.
Definition to_size_t (z : Z) : Z := z mod 2 ^ 64.

(** ** The two handle structs *)

(** Pointers are addresses; [0] is [NULL]. *)
Record NeonClientHandle : Type := {
  client_javaObject : Z;
  pongCallback : Z;
  sessionConfigCallback : Z;
  packetTypeRegistryCallback : Z;
  client_unhandledPacketCallback : Z;
  wrongDestinationCallback : Z;
}.

Record NeonHostHandle : Type := {
  host_javaObject : Z;
  clientConnectCallback : Z;
  clientDenyCallback : Z;
  pingReceivedCallback : Z;
  host_unhandledPacketCallback : Z;
}.

(** What [malloc] handed out. *)
Inductive block : Type :=
  | ClientBlock (h : NeonClientHandle)
  | HostBlock (h : NeonHostHandle).

(** ** The managed side, as the boundary sees it *)

Definition tid : Type := nat.                 (* a native thread and its [JNIEnv] *)
Definition jstring : Type := option string.   (* [None] is the [NULL] reference *)

Record jmethodID : Type := { method_name : string; method_sig : string }.

Inductive jvalue : Type :=
  | JInt (z : Z)
  | JBoolean (z : Z)
  | JString (s : jstring).

(** What the boundary asked the managed side to run. *)
Inductive invocation : Type :=
  | Construct (cls : Z) (ctor : jmethodID) (args : list jvalue)
  | Invoke (obj : Z) (method : jmethodID) (args : list jvalue).

(** The Java virtual machine and the C allocator are outside the repository:
    their state is a type [J] of which nothing is known, and every answer
    they give is read from it. *)
Class Platform (J : Type) : Type := {
  GetEnv_answer : J → tid → Z;
  AttachCurrentThread_answer : J → tid → J * Z;
  FindClass_answer : J → string → Z;
  NewGlobalRef_answer : J → Z → Z;
  GetStringUTFChars_ok : J → string → bool;
  NewStringUTF_ok : J → string → bool;
  GetMethodID_ok : J → Z → string → string → bool;
  (* the constructor runs: the new state and the object, [0] when it threw *)
  NewObject_answer : J → Z → jmethodID → list jvalue → J * Z;
  (* the method runs: the new state, what it returned, whether it threw *)
  CallMethod_answer : J → Z → jmethodID → list jvalue → J * (Z * bool);
  malloc_ok : J → bool;
}.

(** How a function was left: through a guard, or through its last [return]. *)
Inductive outcome (R : Type) : Type :=
  | Failed (r : R)
  | Completed (r : R).
Arguments Failed {R} r.
Arguments Completed {R} r.

Definition returned {R} (o : outcome R) : R :=
  match o with Failed r | Completed r => r end.

(** ** The state *)

Definition NUL : ascii := "000"%char.

Section Boundary.
Context {J : Type} {vm : Platform J}.

Record world : Type := {
  outside : J;
  g_jvm : bool;                               (* [g_jvm != NULL] *)
  g_error_buffer : gmap tid (list ascii);     (* thread-local, [char[512]] *)
  g_neonClientClass : Z;
  g_neonHostClass : Z;
  pending : gset tid;         (* threads whose [JNIEnv] has an exception pending *)
  heap : gmap Z block;
  invoked : list invocation;
}.

Definition set_outside (j : J) (w : world) : world :=
  {| outside := j; g_jvm := g_jvm w; g_error_buffer := g_error_buffer w;
     g_neonClientClass := g_neonClientClass w; g_neonHostClass := g_neonHostClass w;
     pending := pending w; heap := heap w; invoked := invoked w |}.

Definition set_g_jvm (b : bool) (w : world) : world :=
  {| outside := outside w; g_jvm := b; g_error_buffer := g_error_buffer w;
     g_neonClientClass := g_neonClientClass w; g_neonHostClass := g_neonHostClass w;
     pending := pending w; heap := heap w; invoked := invoked w |}.

Definition set_g_error_buffer (m : gmap tid (list ascii)) (w : world) : world :=
  {| outside := outside w; g_jvm := g_jvm w; g_error_buffer := m;
     g_neonClientClass := g_neonClientClass w; g_neonHostClass := g_neonHostClass w;
     pending := pending w; heap := heap w; invoked := invoked w |}.

Definition set_g_neonClientClass (c : Z) (w : world) : world :=
  {| outside := outside w; g_jvm := g_jvm w; g_error_buffer := g_error_buffer w;
     g_neonClientClass := c; g_neonHostClass := g_neonHostClass w;
     pending := pending w; heap := heap w; invoked := invoked w |}.

Definition set_g_neonHostClass (c : Z) (w : world) : world :=
  {| outside := outside w; g_jvm := g_jvm w; g_error_buffer := g_error_buffer w;
     g_neonClientClass := g_neonClientClass w; g_neonHostClass := c;
     pending := pending w; heap := heap w; invoked := invoked w |}.

Definition set_pending (p : gset tid) (w : world) : world :=
  {| outside := outside w; g_jvm := g_jvm w; g_error_buffer := g_error_buffer w;
     g_neonClientClass := g_neonClientClass w; g_neonHostClass := g_neonHostClass w;
     pending := p; heap := heap w; invoked := invoked w |}.

Definition set_heap (h : gmap Z block) (w : world) : world :=
  {| outside := outside w; g_jvm := g_jvm w; g_error_buffer := g_error_buffer w;
     g_neonClientClass := g_neonClientClass w; g_neonHostClass := g_neonHostClass w;
     pending := pending w; heap := h; invoked := invoked w |}.

Definition set_invoked (l : list invocation) (w : world) : world :=
  {| outside := outside w; g_jvm := g_jvm w; g_error_buffer := g_error_buffer w;
     g_neonClientClass := g_neonClientClass w; g_neonHostClass := g_neonHostClass w;
     pending := pending w; heap := heap w; invoked := l |}.

(** ** Function bodies

    A body either faults (undefined behaviour: [None]), leaves through a
    [return] inside one of its guards ([inl]), or goes on ([inr]). *)

Definition fn (R A : Type) : Type := world → option ((R + A) * world).

#[export] Instance fn_ret {R} : MRet (fn R) := λ A a w, Some (inr a, w).

#[export] Instance fn_bind {R} : MBind (fn R) := λ A B k m w,
  match m w with
  | None => None
  | Some (inl r, w') => Some (inl r, w')
  | Some (inr a, w') => k a w'
  end.

Definition bail {R A} (r : R) : fn R A := λ w, Some (inl r, w).
Definition fault {R A} : fn R A := λ _, None.
Definition when {R} (b : bool) (m : fn R unit) : fn R unit :=
  if b then m else mret tt.
Definition read {R A} (f : world → A) : fn R A := λ w, Some (inr (f w), w).
Definition update {R} (f : world → world) : fn R unit := λ w, Some (inr tt, f w).

Definition run {R} (body : fn R R) (w : world) : option (outcome R * world) :=
  match body w with
  | None => None
  | Some (inl r, w') => Some (Failed r, w')
  | Some (inr r, w') => Some (Completed r, w')
  end.

(** A call of one function of the file from another. *)
Definition call {R R'} (body : fn R R) : fn R' (outcome R) := λ w,
  match run body w with
  | None => None
  | Some (o, w') => Some (inr o, w')
  end.

(** [return f(result);] at the end of a wrapper: the wrapper is left the way
    the function it forwards to was. *)
Definition forward {R R'} (o : outcome R) (f : R → R') : fn R' R' :=
  match o with
  | Failed r => bail (f r)
  | Completed r => mret (f r)
  end.

(** ** The error buffer *)

(** [static THREAD_LOCAL char g_error_buffer[512] = {0}]: a thread that has
    not written its buffer yet finds it zeroed. *)
Definition zero_buffer : list ascii := replicate 512 NUL.

Definition error_buffer (t : tid) (w : world) : list ascii :=
  default zero_buffer (g_error_buffer w !! t).

(** [strncpy(dst, src, n)]: the first [n] bytes of [src], padded with [NUL]
    when [src] is shorter; [dst] is untouched from index [n] on. *)
Definition strncpy (dst : list ascii) (src : string) (n : nat) : list ascii :=
  take n (list_ascii_of_string src ++ replicate n NUL) ++ drop n dst.

(** The C string that starts at [buf]. *)
Fixpoint c_str (buf : list ascii) : string :=
  match buf with
  | [] => EmptyString
  | c :: rest => if bool_decide (c = NUL) then EmptyString else String c (c_str rest)
  end.

(** The state after the two statements of [set_error] have run in thread [t]. *)
Definition error_written (t : tid) (msg : string) (w : world) : world :=
  let buf := strncpy (error_buffer t w) msg (512 - 1) in
  let buf := <[(512 - 1)%nat := NUL]> buf in
  set_g_error_buffer (<[t := buf]> (g_error_buffer w)) w.

Definition set_error {R} (t : tid) (msg : string) : fn R unit :=
  update (error_written t msg).

(** ** The JNI functions the file calls

    [env] is the calling thread.  Functions that only release a temporary
    (a local reference, the bytes of a string) leave no mark on the state. *)

Definition GetEnv {R} (env : tid) : fn R Z :=
  read (λ w, GetEnv_answer (outside w) env).

Definition AttachCurrentThread {R} (env : tid) : fn R Z := λ w,
  let '(j, result) := AttachCurrentThread_answer (outside w) env in
  Some (inr result, set_outside j w).

Definition throw {R} (env : tid) : fn R unit :=
  update (λ w, set_pending ({[env]} ∪ pending w) w).

Definition ExceptionCheck {R} (env : tid) : fn R bool :=
  read (λ w, bool_decide (env ∈ pending w)).

Definition ExceptionDescribe {R} (env : tid) : fn R unit := mret tt.

Definition ExceptionClear {R} (env : tid) : fn R unit :=
  update (λ w, set_pending (pending w ∖ {[env]}) w).

(** [NULL] with [NoClassDefFoundError] pending when the class is not found. *)
Definition FindClass {R} (env : tid) (name : string) : fn R Z :=
  cls ← read (λ w, FindClass_answer (outside w) name);
  when (cls =? 0) (throw env);;
  mret cls.

Definition NewGlobalRef {R} (env : tid) (obj : Z) : fn R Z :=
  read (λ w, NewGlobalRef_answer (outside w) obj).

Definition DeleteGlobalRef {R} (env : tid) (obj : Z) : fn R unit := mret tt.
Definition DeleteLocalRef {R} (env : tid) : fn R unit := mret tt.

(** The bytes of a Java string, or [NULL]; the string must not be [NULL]. *)
Definition GetStringUTFChars {R} (env : tid) (s : jstring) : fn R (option string) :=
  match s with
  | None => fault
  | Some chars =>
      ok ← read (λ w, GetStringUTFChars_ok (outside w) chars);
      mret (if ok : bool then Some chars else None)
  end.

Definition ReleaseStringUTFChars {R} (env : tid) : fn R unit := mret tt.

(** A new Java string, or [NULL] with [OutOfMemoryError] pending. *)
Definition NewStringUTF {R} (env : tid) (chars : string) : fn R jstring :=
  ok ← read (λ w, NewStringUTF_ok (outside w) chars);
  if ok : bool then mret (Some chars) else throw env;; mret None.

(** A method of [cls], or [NULL] with [NoSuchMethodError] pending; [cls] must
    not be [NULL]. *)
Definition GetMethodID {R} (env : tid) (cls : Z) (name sig : string)
  : fn R (option jmethodID) :=
  when (cls =? 0) fault;;
  ok ← read (λ w, GetMethodID_ok (outside w) cls name sig);
  if ok : bool then mret (Some {| method_name := name; method_sig := sig |})
  else throw env;; mret None.

(** Runs a constructor; [NULL] with its exception pending when it threw. *)
Definition NewObject {R} (env : tid) (cls : Z) (ctor : jmethodID)
    (args : list jvalue) : fn R Z :=
  when (cls =? 0) fault;;
  obj ← (λ w,
    let '(j, obj) := NewObject_answer (outside w) cls ctor args in
    Some (inr obj,
          set_invoked (invoked w ++ [Construct cls ctor args]) (set_outside j w)));
  when (obj =? 0) (throw env);;
  mret obj.

(** Runs a method of [obj], which must not be [NULL]; an exception it throws
    stays pending in [env]. *)
Definition CallMethod {R} (env : tid) (obj : Z) (method : jmethodID)
    (args : list jvalue) : fn R Z :=
  when (obj =? 0) fault;;
  '(result, threw) ← (λ w,
    let '(j, answer) := CallMethod_answer (outside w) obj method args in
    Some (inr answer,
          set_invoked (invoked w ++ [Invoke obj method args]) (set_outside j w)));
  when threw (throw env);;
  mret result.

Definition CallVoidMethod {R} (env : tid) (obj : Z) (method : jmethodID)
    (args : list jvalue) : fn R unit :=
  CallMethod env obj method args;; mret tt.

Definition CallIntMethod {R} (env : tid) (obj : Z) (method : jmethodID)
    (args : list jvalue) : fn R Z :=
  result ← CallMethod env obj method args; mret (to_jint result).

Definition CallBooleanMethod {R} (env : tid) (obj : Z) (method : jmethodID)
    (args : list jvalue) : fn R Z :=
  result ← CallMethod env obj method args; mret (to_uint8_t result).

(** ** The C heap *)

Definition fresh_address (h : gmap Z block) : Z := fresh ({[0]} ∪ dom h).

(** [malloc(sizeof(NeonClientHandle))]: [NULL], or a block whose fields the
    caller goes on to assign. *)
Definition malloc {R} (b : block) : fn R Z := λ w,
  if malloc_ok (outside w) then
    let p := fresh_address (heap w) in
    Some (inr p, set_heap (<[p := b]> (heap w)) w)
  else Some (inr 0, w).

Definition free {R} (p : Z) : fn R unit := λ w,
  match heap w !! p with
  | Some _ => Some (inr tt, set_heap (delete p (heap w)) w)
  | None => None
  end.

(** [*handle], for a [NeonClientHandle *handle]. *)
Definition load_client {R} (p : Z) : fn R NeonClientHandle := λ w,
  match heap w !! p with
  | Some (ClientBlock h) => Some (inr h, w)
  | _ => None
  end.

Definition store_client {R} (p : Z) (h : NeonClientHandle) : fn R unit := λ w,
  match heap w !! p with
  | Some (ClientBlock _) => Some (inr tt, set_heap (<[p := ClientBlock h]> (heap w)) w)
  | _ => None
  end.

Definition load_host {R} (p : Z) : fn R NeonHostHandle := λ w,
  match heap w !! p with
  | Some (HostBlock h) => Some (inr h, w)
  | _ => None
  end.

Definition store_host {R} (p : Z) (h : NeonHostHandle) : fn R unit := λ w,
  match heap w !! p with
  | Some (HostBlock _) => Some (inr tt, set_heap (<[p := HostBlock h]> (heap w)) w)
  | _ => None
  end.

(** Assignments to one field, [handle->field = v]. *)
Definition with_client_javaObject (v : Z) (h : NeonClientHandle) :=
  {| client_javaObject := v; pongCallback := pongCallback h;
     sessionConfigCallback := sessionConfigCallback h;
     packetTypeRegistryCallback := packetTypeRegistryCallback h;
     client_unhandledPacketCallback := client_unhandledPacketCallback h;
     wrongDestinationCallback := wrongDestinationCallback h |}.

Definition with_pongCallback (v : Z) (h : NeonClientHandle) :=
  {| client_javaObject := client_javaObject h; pongCallback := v;
     sessionConfigCallback := sessionConfigCallback h;
     packetTypeRegistryCallback := packetTypeRegistryCallback h;
     client_unhandledPacketCallback := client_unhandledPacketCallback h;
     wrongDestinationCallback := wrongDestinationCallback h |}.

Definition with_sessionConfigCallback (v : Z) (h : NeonClientHandle) :=
  {| client_javaObject := client_javaObject h; pongCallback := pongCallback h;
     sessionConfigCallback := v;
     packetTypeRegistryCallback := packetTypeRegistryCallback h;
     client_unhandledPacketCallback := client_unhandledPacketCallback h;
     wrongDestinationCallback := wrongDestinationCallback h |}.

Definition with_packetTypeRegistryCallback (v : Z) (h : NeonClientHandle) :=
  {| client_javaObject := client_javaObject h; pongCallback := pongCallback h;
     sessionConfigCallback := sessionConfigCallback h;
     packetTypeRegistryCallback := v;
     client_unhandledPacketCallback := client_unhandledPacketCallback h;
     wrongDestinationCallback := wrongDestinationCallback h |}.

Definition with_client_unhandledPacketCallback (v : Z) (h : NeonClientHandle) :=
  {| client_javaObject := client_javaObject h; pongCallback := pongCallback h;
     sessionConfigCallback := sessionConfigCallback h;
     packetTypeRegistryCallback := packetTypeRegistryCallback h;
     client_unhandledPacketCallback := v;
     wrongDestinationCallback := wrongDestinationCallback h |}.

Definition with_wrongDestinationCallback (v : Z) (h : NeonClientHandle) :=
  {| client_javaObject := client_javaObject h; pongCallback := pongCallback h;
     sessionConfigCallback := sessionConfigCallback h;
     packetTypeRegistryCallback := packetTypeRegistryCallback h;
     client_unhandledPacketCallback := client_unhandledPacketCallback h;
     wrongDestinationCallback := v |}.

Definition with_host_javaObject (v : Z) (h : NeonHostHandle) :=
  {| host_javaObject := v; clientConnectCallback := clientConnectCallback h;
     clientDenyCallback := clientDenyCallback h;
     pingReceivedCallback := pingReceivedCallback h;
     host_unhandledPacketCallback := host_unhandledPacketCallback h |}.

Definition with_clientConnectCallback (v : Z) (h : NeonHostHandle) :=
  {| host_javaObject := host_javaObject h; clientConnectCallback := v;
     clientDenyCallback := clientDenyCallback h;
     pingReceivedCallback := pingReceivedCallback h;
     host_unhandledPacketCallback := host_unhandledPacketCallback h |}.

Definition with_clientDenyCallback (v : Z) (h : NeonHostHandle) :=
  {| host_javaObject := host_javaObject h;
     clientConnectCallback := clientConnectCallback h;
     clientDenyCallback := v;
     pingReceivedCallback := pingReceivedCallback h;
     host_unhandledPacketCallback := host_unhandledPacketCallback h |}.

Definition with_pingReceivedCallback (v : Z) (h : NeonHostHandle) :=
  {| host_javaObject := host_javaObject h;
     clientConnectCallback := clientConnectCallback h;
     clientDenyCallback := clientDenyCallback h;
     pingReceivedCallback := v;
     host_unhandledPacketCallback := host_unhandledPacketCallback h |}.

Definition with_host_unhandledPacketCallback (v : Z) (h : NeonHostHandle) :=
  {| host_javaObject := host_javaObject h;
     clientConnectCallback := clientConnectCallback h;
     clientDenyCallback := clientDenyCallback h;
     pingReceivedCallback := pingReceivedCallback h;
     host_unhandledPacketCallback := v |}.

Definition assign_client {R} (p : Z)
    (field : Z → NeonClientHandle → NeonClientHandle) (v : Z) : fn R unit :=
  h ← load_client p; store_client p (field v h).

Definition assign_host {R} (p : Z)
    (field : Z → NeonHostHandle → NeonHostHandle) (v : Z) : fn R unit :=
  h ← load_host p; store_host p (field v h).

(** The content of a block fresh from [malloc] is indeterminate; every field
    is assigned before it is read. *)
Definition fresh_client : block := ClientBlock
  {| client_javaObject := 0; pongCallback := 0; sessionConfigCallback := 0;
     packetTypeRegistryCallback := 0; client_unhandledPacketCallback := 0;
     wrongDestinationCallback := 0 |}.

Definition fresh_host : block := HostBlock
  {| host_javaObject := 0; clientConnectCallback := 0; clientDenyCallback := 0;
     pingReceivedCallback := 0; host_unhandledPacketCallback := 0 |}.

(** [if (p == NULL) { ...; return ...; }] for a pointer the model keeps as an
    option. *)
Definition non_null {R A} (p : option A) (otherwise : fn R A) : fn R A :=
  match p with
  | Some a => mret a
  | None => otherwise
  end.

Definition is_null {A} (p : option A) : bool :=
  match p with Some _ => false | None => true end.

(** The call of [sscanf] in [neonClientConnect] and [neonHostNew]. *)
Definition sscanf_relay {R} (addrStr : string) : fn R (Z * string * Z) :=
  match sscanf_host_port addrStr with
  | None => fault
  | Some r => mret r
  end.

(** ** Start-up *)

Definition get_jni_env (t : tid) : fn (option tid) (option tid) :=
  jvm ← read g_jvm;
  when (negb jvm) (set_error t "JVM not initialized";; bail None);;
  result ← GetEnv t;
  (if result =? JNI_EDETACHED then
     result ← AttachCurrentThread t;
     when (negb (result =? JNI_OK))
       (set_error t "Failed to attach thread to JVM";; bail None)
   else
     when (negb (result =? JNI_OK))
       (set_error t "Failed to get JNI environment";; bail None));;
  mret (Some t).

Definition JNI_OnLoad (env : tid) : fn Z Z :=
  update (set_g_jvm true);;
  result ← GetEnv env;
  when (negb (result =? JNI_OK)) (bail JNI_ERR);;
  localClientClass ← FindClass env "com/quietterminal/projectneon/client/NeonClient";
  when (localClientClass =? 0) (bail JNI_ERR);;
  ref ← NewGlobalRef env localClientClass;
  update (set_g_neonClientClass ref);;
  DeleteLocalRef env;;
  localHostClass ← FindClass env "com/quietterminal/projectneon/host/NeonHost";
  when (localHostClass =? 0) (bail JNI_ERR);;
  ref ← NewGlobalRef env localHostClass;
  update (set_g_neonHostClass ref);;
  DeleteLocalRef env;;
  mret JNI_VERSION_1_8.

Definition JNI_OnUnload (env : tid) : fn unit unit :=
  result ← GetEnv env;
  when (result =? JNI_OK)
    (cls ← read g_neonClientClass;
     when (negb (cls =? 0))
       (DeleteGlobalRef env cls;; update (set_g_neonClientClass 0));;
     cls ← read g_neonHostClass;
     when (negb (cls =? 0))
       (DeleteGlobalRef env cls;; update (set_g_neonHostClass 0)));;
  update (set_g_jvm false).

(** ** The entry points of [NeonClientJNI] *)

Definition Java_com_quietterminal_projectneon_jni_NeonClientJNI_neonClientNew (env : tid) (name : jstring) : fn Z Z :=
  when (is_null name) (set_error env "Client name cannot be null";; bail 0);;
  nameStr ← GetStringUTFChars env name;
  when (is_null nameStr)
    (set_error env "Failed to get client name string";; bail 0);;
  cls ← read g_neonClientClass;
  constructor ← GetMethodID env cls "<init>" "(Ljava/lang/String;)V";
  constructor ← non_null constructor
    (ReleaseStringUTFChars env;;
     set_error env "Failed to find NeonClient constructor";; bail 0);
  clientObj ← NewObject env cls constructor [JString name];
  when (clientObj =? 0)
    (ReleaseStringUTFChars env;;
     set_error env "Failed to create NeonClient instance";; bail 0);;
  handle ← malloc fresh_client;
  when (handle =? 0)
    (DeleteLocalRef env;; ReleaseStringUTFChars env;;
     set_error env "Failed to allocate client handle";; bail 0);;
  ref ← NewGlobalRef env clientObj;
  assign_client handle with_client_javaObject ref;;
  assign_client handle with_pongCallback 0;;
  assign_client handle with_sessionConfigCallback 0;;
  assign_client handle with_packetTypeRegistryCallback 0;;
  assign_client handle with_client_unhandledPacketCallback 0;;
  assign_client handle with_wrongDestinationCallback 0;;
  DeleteLocalRef env;;
  ReleaseStringUTFChars env;;
  mret handle.

Definition Java_com_quietterminal_projectneon_jni_NeonClientJNI_neonClientConnect (env : tid) (clientPtr sessionId : Z)
    (relayAddr : jstring) : fn Z Z :=
  when (clientPtr =? 0) (set_error env "Invalid client handle";; bail JNI_FALSE);;
  let handle := clientPtr in
  addrStr ← GetStringUTFChars env relayAddr;
  addrStr ← non_null addrStr
    (set_error env "Failed to get relay address string";; bail JNI_FALSE);
  '(n, host, port) ← sscanf_relay addrStr;
  when (negb (n =? 2))
    (ReleaseStringUTFChars env;;
     set_error env "Invalid relay address format (expected host:port)";;
     bail JNI_FALSE);;
  cls ← read g_neonClientClass;
  connectMethod ← GetMethodID env cls "connect" "(ILjava/lang/String;I)V";
  connectMethod ← non_null connectMethod
    (ReleaseStringUTFChars env;;
     set_error env "Failed to find connect method";; bail JNI_FALSE);
  hostStr ← NewStringUTF env host;
  when (is_null hostStr)
    (ReleaseStringUTFChars env;;
     set_error env "Failed to create host string";; bail JNI_FALSE);;
  h ← load_client handle;
  CallVoidMethod env (client_javaObject h) connectMethod
    [JInt sessionId; JString hostStr; JInt port];;
  DeleteLocalRef env;;
  ReleaseStringUTFChars env;;
  exc ← ExceptionCheck env;
  when exc
    (ExceptionDescribe env;; ExceptionClear env;;
     set_error env "Exception during connect";; bail JNI_FALSE);;
  mret JNI_TRUE.

Definition Java_com_quietterminal_projectneon_jni_NeonClientJNI_neonClientProcessPackets (env : tid) (clientPtr : Z)
  : fn Z Z :=
  when (clientPtr =? 0) (set_error env "Invalid client handle";; bail (-1));;
  let handle := clientPtr in
  cls ← read g_neonClientClass;
  processMethod ← GetMethodID env cls "processPackets" "()I";
  processMethod ← non_null processMethod
    (set_error env "Failed to find processPackets method";; bail (-1));
  h ← load_client handle;
  result ← CallIntMethod env (client_javaObject h) processMethod [];
  exc ← ExceptionCheck env;
  when exc
    (ExceptionDescribe env;; ExceptionClear env;;
     set_error env "Exception during processPackets";; bail (-1));;
  mret result.

Definition Java_com_quietterminal_projectneon_jni_NeonClientJNI_neonClientGetId (env : tid) (clientPtr : Z) : fn Z Z :=
  when (clientPtr =? 0) (set_error env "Invalid client handle";; bail (-1));;
  let handle := clientPtr in
  cls ← read g_neonClientClass;
  getIdMethod ← GetMethodID env cls "getClientId" "()I";
  getIdMethod ← non_null getIdMethod
    (set_error env "Failed to find getClientId method";; bail (-1));
  h ← load_client handle;
  CallIntMethod env (client_javaObject h) getIdMethod [].

Definition Java_com_quietterminal_projectneon_jni_NeonClientJNI_neonClientGetSessionId (env : tid) (clientPtr : Z)
  : fn Z Z :=
  when (clientPtr =? 0) (set_error env "Invalid client handle";; bail (-1));;
  let handle := clientPtr in
  cls ← read g_neonClientClass;
  getSessionMethod ← GetMethodID env cls "getSessionId" "()I";
  getSessionMethod ← non_null getSessionMethod
    (set_error env "Failed to find getSessionId method";; bail (-1));
  h ← load_client handle;
  CallIntMethod env (client_javaObject h) getSessionMethod [].

Definition Java_com_quietterminal_projectneon_jni_NeonClientJNI_neonClientIsConnected (env : tid) (clientPtr : Z)
  : fn Z Z :=
  when (clientPtr =? 0) (bail JNI_FALSE);;
  let handle := clientPtr in
  cls ← read g_neonClientClass;
  isConnectedMethod ← GetMethodID env cls "isConnected" "()Z";
  isConnectedMethod ← non_null isConnectedMethod (bail JNI_FALSE);
  h ← load_client handle;
  CallBooleanMethod env (client_javaObject h) isConnectedMethod [].

Definition Java_com_quietterminal_projectneon_jni_NeonClientJNI_neonClientSendPing (env : tid) (clientPtr : Z)
  : fn Z Z :=
  when (clientPtr =? 0) (set_error env "Invalid client handle";; bail JNI_FALSE);;
  let handle := clientPtr in
  cls ← read g_neonClientClass;
  sendPingMethod ← GetMethodID env cls "sendPing" "()V";
  sendPingMethod ← non_null sendPingMethod
    (set_error env "Failed to find sendPing method";; bail JNI_FALSE);
  h ← load_client handle;
  CallVoidMethod env (client_javaObject h) sendPingMethod [];;
  exc ← ExceptionCheck env;
  when exc
    (ExceptionDescribe env;; ExceptionClear env;;
     set_error env "Exception during sendPing";; bail JNI_FALSE);;
  mret JNI_TRUE.

Definition Java_com_quietterminal_projectneon_jni_NeonClientJNI_neonClientSetAutoPing (env : tid) (clientPtr enabled : Z)
  : fn unit unit :=
  when (clientPtr =? 0) (set_error env "Invalid client handle";; bail tt);;
  let handle := clientPtr in
  cls ← read g_neonClientClass;
  setAutoPingMethod ← GetMethodID env cls "setAutoPing" "(Z)V";
  setAutoPingMethod ← non_null setAutoPingMethod
    (set_error env "Failed to find setAutoPing method";; bail tt);
  h ← load_client handle;
  CallVoidMethod env (client_javaObject h) setAutoPingMethod [JBoolean enabled].

Definition Java_com_quietterminal_projectneon_jni_NeonClientJNI_neonClientSetPongCallback (env : tid)
    (clientPtr callback : Z) : fn unit unit :=
  when (clientPtr =? 0) (set_error env "Invalid client handle";; bail tt);;
  let handle := clientPtr in
  assign_client handle with_pongCallback callback.

Definition Java_com_quietterminal_projectneon_jni_NeonClientJNI_neonClientSetSessionConfigCallback (env : tid)
    (clientPtr callback : Z) : fn unit unit :=
  when (clientPtr =? 0) (set_error env "Invalid client handle";; bail tt);;
  let handle := clientPtr in
  assign_client handle with_sessionConfigCallback callback.

Definition Java_com_quietterminal_projectneon_jni_NeonClientJNI_neonClientSetPacketTypeRegistryCallback (env : tid)
    (clientPtr callback : Z) : fn unit unit :=
  when (clientPtr =? 0) (set_error env "Invalid client handle";; bail tt);;
  let handle := clientPtr in
  assign_client handle with_packetTypeRegistryCallback callback.

Definition Java_com_quietterminal_projectneon_jni_NeonClientJNI_neonClientSetUnhandledPacketCallback (env : tid)
    (clientPtr callback : Z) : fn unit unit :=
  when (clientPtr =? 0) (set_error env "Invalid client handle";; bail tt);;
  let handle := clientPtr in
  assign_client handle with_client_unhandledPacketCallback callback.

Definition Java_com_quietterminal_projectneon_jni_NeonClientJNI_neonClientSetWrongDestinationCallback (env : tid)
    (clientPtr callback : Z) : fn unit unit :=
  when (clientPtr =? 0) (set_error env "Invalid client handle";; bail tt);;
  let handle := clientPtr in
  assign_client handle with_wrongDestinationCallback callback.

Definition Java_com_quietterminal_projectneon_jni_NeonClientJNI_neonClientFree (env : tid) (clientPtr : Z)
  : fn unit unit :=
  when (clientPtr =? 0) (bail tt);;
  let handle := clientPtr in
  cls ← read g_neonClientClass;
  closeMethod ← GetMethodID env cls "close" "()V";
  match closeMethod with
  | Some closeMethod =>
      h ← load_client handle;
      CallVoidMethod env (client_javaObject h) closeMethod [];;
      exc ← ExceptionCheck env;
      when exc (ExceptionClear env)
  | None => mret tt
  end;;
  h ← load_client handle;
  DeleteGlobalRef env (client_javaObject h);;
  free handle.

Definition first_byte (buf : list ascii) : ascii := default NUL (buf !! 0%nat).

Definition Java_com_quietterminal_projectneon_jni_NeonClientJNI_neonGetLastError (env : tid) : fn jstring jstring :=
  buf ← read (error_buffer env);
  when (bool_decide (first_byte buf = NUL)) (bail None);;
  NewStringUTF env (c_str buf).

(** ** The entry points of [NeonHostJNI] *)

Definition Java_com_quietterminal_projectneon_jni_NeonHostJNI_neonHostNew (env : tid) (sessionId : Z)
    (relayAddr : jstring) : fn Z Z :=
  when (is_null relayAddr) (set_error env "Relay address cannot be null";; bail 0);;
  addrStr ← GetStringUTFChars env relayAddr;
  addrStr ← non_null addrStr
    (set_error env "Failed to get relay address string";; bail 0);
  '(n, host, port) ← sscanf_relay addrStr;
  when (negb (n =? 2))
    (ReleaseStringUTFChars env;;
     set_error env "Invalid relay address format (expected host:port)";;
     bail 0);;
  cls ← read g_neonHostClass;
  constructor ← GetMethodID env cls "<init>" "(ILjava/lang/String;I)V";
  constructor ← non_null constructor
    (ReleaseStringUTFChars env;;
     set_error env "Failed to find NeonHost constructor";; bail 0);
  hostStr ← NewStringUTF env host;
  when (is_null hostStr)
    (ReleaseStringUTFChars env;;
     set_error env "Failed to create host string";; bail 0);;
  hostObj ← NewObject env cls constructor
    [JInt sessionId; JString hostStr; JInt port];
  DeleteLocalRef env;;
  ReleaseStringUTFChars env;;
  when (hostObj =? 0)
    (set_error env "Failed to create NeonHost instance";; bail 0);;
  handle ← malloc fresh_host;
  when (handle =? 0)
    (DeleteLocalRef env;;
     set_error env "Failed to allocate host handle";; bail 0);;
  ref ← NewGlobalRef env hostObj;
  assign_host handle with_host_javaObject ref;;
  assign_host handle with_clientConnectCallback 0;;
  assign_host handle with_clientDenyCallback 0;;
  assign_host handle with_pingReceivedCallback 0;;
  assign_host handle with_host_unhandledPacketCallback 0;;
  DeleteLocalRef env;;
  mret handle.

Definition Java_com_quietterminal_projectneon_jni_NeonHostJNI_neonHostStart (env : tid) (hostPtr : Z) : fn Z Z :=
  when (hostPtr =? 0) (set_error env "Invalid host handle";; bail JNI_FALSE);;
  let handle := hostPtr in
  cls ← read g_neonHostClass;
  startMethod ← GetMethodID env cls "start" "()V";
  startMethod ← non_null startMethod
    (set_error env "Failed to find start method";; bail JNI_FALSE);
  h ← load_host handle;
  CallVoidMethod env (host_javaObject h) startMethod [];;
  exc ← ExceptionCheck env;
  when exc
    (ExceptionDescribe env;; ExceptionClear env;;
     set_error env "Exception during start";; bail JNI_FALSE);;
  mret JNI_TRUE.

Definition Java_com_quietterminal_projectneon_jni_NeonHostJNI_neonHostProcessPackets (env : tid) (hostPtr : Z)
  : fn Z Z :=
  when (hostPtr =? 0) (set_error env "Invalid host handle";; bail (-1));;
  let handle := hostPtr in
  cls ← read g_neonHostClass;
  processMethod ← GetMethodID env cls "processPackets" "()I";
  processMethod ← non_null processMethod
    (set_error env "Failed to find processPackets method";; bail (-1));
  h ← load_host handle;
  result ← CallIntMethod env (host_javaObject h) processMethod [];
  exc ← ExceptionCheck env;
  when exc
    (ExceptionDescribe env;; ExceptionClear env;;
     set_error env "Exception during processPackets";; bail (-1));;
  mret result.

Definition Java_com_quietterminal_projectneon_jni_NeonHostJNI_neonHostGetSessionId (env : tid) (hostPtr : Z)
  : fn Z Z :=
  when (hostPtr =? 0) (set_error env "Invalid host handle";; bail (-1));;
  let handle := hostPtr in
  cls ← read g_neonHostClass;
  getSessionMethod ← GetMethodID env cls "getSessionId" "()I";
  getSessionMethod ← non_null getSessionMethod
    (set_error env "Failed to find getSessionId method";; bail (-1));
  h ← load_host handle;
  CallIntMethod env (host_javaObject h) getSessionMethod [].

Definition Java_com_quietterminal_projectneon_jni_NeonHostJNI_neonHostGetClientCount (env : tid) (hostPtr : Z)
  : fn Z Z :=
  when (hostPtr =? 0) (set_error env "Invalid host handle";; bail 0);;
  let handle := hostPtr in
  cls ← read g_neonHostClass;
  getClientCountMethod ← GetMethodID env cls "getClientCount" "()I";
  getClientCountMethod ← non_null getClientCountMethod
    (set_error env "Failed to find getClientCount method";; bail 0);
  h ← load_host handle;
  CallIntMethod env (host_javaObject h) getClientCountMethod [].

Definition Java_com_quietterminal_projectneon_jni_NeonHostJNI_neonHostSetClientConnectCallback (env : tid)
    (hostPtr callback : Z) : fn unit unit :=
  when (hostPtr =? 0) (set_error env "Invalid host handle";; bail tt);;
  let handle := hostPtr in
  assign_host handle with_clientConnectCallback callback.

Definition Java_com_quietterminal_projectneon_jni_NeonHostJNI_neonHostSetClientDenyCallback (env : tid)
    (hostPtr callback : Z) : fn unit unit :=
  when (hostPtr =? 0) (set_error env "Invalid host handle";; bail tt);;
  let handle := hostPtr in
  assign_host handle with_clientDenyCallback callback.

Definition Java_com_quietterminal_projectneon_jni_NeonHostJNI_neonHostSetPingReceivedCallback (env : tid)
    (hostPtr callback : Z) : fn unit unit :=
  when (hostPtr =? 0) (set_error env "Invalid host handle";; bail tt);;
  let handle := hostPtr in
  assign_host handle with_pingReceivedCallback callback.

Definition Java_com_quietterminal_projectneon_jni_NeonHostJNI_neonHostSetUnhandledPacketCallback (env : tid)
    (hostPtr callback : Z) : fn unit unit :=
  when (hostPtr =? 0) (set_error env "Invalid host handle";; bail tt);;
  let handle := hostPtr in
  assign_host handle with_host_unhandledPacketCallback callback.

Definition Java_com_quietterminal_projectneon_jni_NeonHostJNI_neonHostFree (env : tid) (hostPtr : Z) : fn unit unit :=
  when (hostPtr =? 0) (bail tt);;
  let handle := hostPtr in
  cls ← read g_neonHostClass;
  closeMethod ← GetMethodID env cls "close" "()V";
  match closeMethod with
  | Some closeMethod =>
      h ← load_host handle;
      CallVoidMethod env (host_javaObject h) closeMethod [];;
      exc ← ExceptionCheck env;
      when exc (ExceptionClear env)
  | None => mret tt
  end;;
  h ← load_host handle;
  DeleteGlobalRef env (host_javaObject h);;
  free handle.

(** ** The C API of [project_neon.h]

    [t] is the thread that makes the call; the [JNIEnv] that [get_jni_env]
    returns is its own. *)

Definition neon_client_new (t : tid) (name : string) : fn Z Z :=
  env ← call (get_jni_env t);
  when (is_null (returned env)) (bail 0);;
  nameStr ← NewStringUTF t name;
  when (is_null nameStr) (set_error t "Failed to create name string";; bail 0);;
  ptr ← call (Java_com_quietterminal_projectneon_jni_NeonClientJNI_neonClientNew t nameStr);
  DeleteLocalRef t;;
  forward ptr id.

Definition neon_client_connect (t : tid) (client session_id : Z)
    (relay_addr : string) : fn bool bool :=
  when (client =? 0) (set_error t "Invalid client handle";; bail false);;
  env ← call (get_jni_env t);
  when (is_null (returned env)) (bail false);;
  addrStr ← NewStringUTF t relay_addr;
  when (is_null addrStr)
    (set_error t "Failed to create relay address string";; bail false);;
  result ← call (Java_com_quietterminal_projectneon_jni_NeonClientJNI_neonClientConnect t client (to_jint session_id) addrStr);
  DeleteLocalRef t;;
  forward result (λ r, r =? JNI_TRUE).

Definition neon_client_process_packets (t : tid) (client : Z) : fn Z Z :=
  when (client =? 0) (set_error t "Invalid client handle";; bail (-1));;
  env ← call (get_jni_env t);
  when (is_null (returned env)) (bail (-1));;
  result ← call (Java_com_quietterminal_projectneon_jni_NeonClientJNI_neonClientProcessPackets t client);
  forward result id.

Definition neon_client_get_id (t : tid) (client : Z) : fn Z Z :=
  when (client =? 0) (bail 0);;
  env ← call (get_jni_env t);
  when (is_null (returned env)) (bail 0);;
  result ← call (Java_com_quietterminal_projectneon_jni_NeonClientJNI_neonClientGetId t client);
  forward result to_uint8_t.

Definition neon_client_get_session_id (t : tid) (client : Z) : fn Z Z :=
  when (client =? 0) (bail 0);;
  env ← call (get_jni_env t);
  when (is_null (returned env)) (bail 0);;
  result ← call (Java_com_quietterminal_projectneon_jni_NeonClientJNI_neonClientGetSessionId t client);
  forward result to_uint32_t.

Definition neon_client_is_connected (t : tid) (client : Z) : fn bool bool :=
  when (client =? 0) (bail false);;
  env ← call (get_jni_env t);
  when (is_null (returned env)) (bail false);;
  result ← call (Java_com_quietterminal_projectneon_jni_NeonClientJNI_neonClientIsConnected t client);
  forward result (λ r, r =? JNI_TRUE).

Definition neon_client_send_ping (t : tid) (client : Z) : fn bool bool :=
  when (client =? 0) (set_error t "Invalid client handle";; bail false);;
  env ← call (get_jni_env t);
  when (is_null (returned env)) (bail false);;
  result ← call (Java_com_quietterminal_projectneon_jni_NeonClientJNI_neonClientSendPing t client);
  forward result (λ r, r =? JNI_TRUE).

Definition neon_client_set_auto_ping (t : tid) (client : Z) (enabled : bool)
  : fn unit unit :=
  when (client =? 0) (bail tt);;
  env ← call (get_jni_env t);
  when (is_null (returned env)) (bail tt);;
  result ← call (Java_com_quietterminal_projectneon_jni_NeonClientJNI_neonClientSetAutoPing t client
                   (if enabled then JNI_TRUE else JNI_FALSE));
  forward result id.

Definition neon_client_set_pong_callback (t : tid) (client callback : Z)
  : fn unit unit :=
  when (client =? 0) (bail tt);;
  env ← call (get_jni_env t);
  when (is_null (returned env)) (bail tt);;
  result ← call (Java_com_quietterminal_projectneon_jni_NeonClientJNI_neonClientSetPongCallback t client callback);
  forward result id.

Definition neon_client_set_session_config_callback (t : tid)
    (client callback : Z) : fn unit unit :=
  when (client =? 0) (bail tt);;
  env ← call (get_jni_env t);
  when (is_null (returned env)) (bail tt);;
  result ← call (Java_com_quietterminal_projectneon_jni_NeonClientJNI_neonClientSetSessionConfigCallback t client callback);
  forward result id.

Definition neon_client_set_packet_type_registry_callback (t : tid)
    (client callback : Z) : fn unit unit :=
  when (client =? 0) (bail tt);;
  env ← call (get_jni_env t);
  when (is_null (returned env)) (bail tt);;
  result ← call (Java_com_quietterminal_projectneon_jni_NeonClientJNI_neonClientSetPacketTypeRegistryCallback t client callback);
  forward result id.

Definition neon_client_set_unhandled_packet_callback (t : tid)
    (client callback : Z) : fn unit unit :=
  when (client =? 0) (bail tt);;
  env ← call (get_jni_env t);
  when (is_null (returned env)) (bail tt);;
  result ← call (Java_com_quietterminal_projectneon_jni_NeonClientJNI_neonClientSetUnhandledPacketCallback t client callback);
  forward result id.

Definition neon_client_set_wrong_destination_callback (t : tid)
    (client callback : Z) : fn unit unit :=
  when (client =? 0) (bail tt);;
  env ← call (get_jni_env t);
  when (is_null (returned env)) (bail tt);;
  result ← call (Java_com_quietterminal_projectneon_jni_NeonClientJNI_neonClientSetWrongDestinationCallback t client callback);
  forward result id.

Definition neon_client_free (t : tid) (client : Z) : fn unit unit :=
  when (client =? 0) (bail tt);;
  env ← call (get_jni_env t);
  when (is_null (returned env)) (bail tt);;
  result ← call (Java_com_quietterminal_projectneon_jni_NeonClientJNI_neonClientFree t client);
  forward result id.

Definition neon_host_new (t : tid) (session_id : Z) (relay_addr : string)
  : fn Z Z :=
  env ← call (get_jni_env t);
  when (is_null (returned env)) (bail 0);;
  addrStr ← NewStringUTF t relay_addr;
  when (is_null addrStr)
    (set_error t "Failed to create relay address string";; bail 0);;
  ptr ← call (Java_com_quietterminal_projectneon_jni_NeonHostJNI_neonHostNew t (to_jint session_id) addrStr);
  DeleteLocalRef t;;
  forward ptr id.

Definition neon_host_start (t : tid) (host : Z) : fn bool bool :=
  when (host =? 0) (set_error t "Invalid host handle";; bail false);;
  env ← call (get_jni_env t);
  when (is_null (returned env)) (bail false);;
  result ← call (Java_com_quietterminal_projectneon_jni_NeonHostJNI_neonHostStart t host);
  forward result (λ r, r =? JNI_TRUE).

Definition neon_host_process_packets (t : tid) (host : Z) : fn Z Z :=
  when (host =? 0) (set_error t "Invalid host handle";; bail (-1));;
  env ← call (get_jni_env t);
  when (is_null (returned env)) (bail (-1));;
  result ← call (Java_com_quietterminal_projectneon_jni_NeonHostJNI_neonHostProcessPackets t host);
  forward result id.

Definition neon_host_get_session_id (t : tid) (host : Z) : fn Z Z :=
  when (host =? 0) (bail 0);;
  env ← call (get_jni_env t);
  when (is_null (returned env)) (bail 0);;
  result ← call (Java_com_quietterminal_projectneon_jni_NeonHostJNI_neonHostGetSessionId t host);
  forward result to_uint32_t.

Definition neon_host_get_client_count (t : tid) (host : Z) : fn Z Z :=
  when (host =? 0) (bail 0);;
  env ← call (get_jni_env t);
  when (is_null (returned env)) (bail 0);;
  result ← call (Java_com_quietterminal_projectneon_jni_NeonHostJNI_neonHostGetClientCount t host);
  forward result to_size_t.

Definition neon_host_set_client_connect_callback (t : tid) (host callback : Z)
  : fn unit unit :=
  when (host =? 0) (bail tt);;
  env ← call (get_jni_env t);
  when (is_null (returned env)) (bail tt);;
  result ← call (Java_com_quietterminal_projectneon_jni_NeonHostJNI_neonHostSetClientConnectCallback t host callback);
  forward result id.

Definition neon_host_set_client_deny_callback (t : tid) (host callback : Z)
  : fn unit unit :=
  when (host =? 0) (bail tt);;
  env ← call (get_jni_env t);
  when (is_null (returned env)) (bail tt);;
  result ← call (Java_com_quietterminal_projectneon_jni_NeonHostJNI_neonHostSetClientDenyCallback t host callback);
  forward result id.

Definition neon_host_set_ping_received_callback (t : tid) (host callback : Z)
  : fn unit unit :=
  when (host =? 0) (bail tt);;
  env ← call (get_jni_env t);
  when (is_null (returned env)) (bail tt);;
  result ← call (Java_com_quietterminal_projectneon_jni_NeonHostJNI_neonHostSetPingReceivedCallback t host callback);
  forward result id.

Definition neon_host_set_unhandled_packet_callback (t : tid)
    (host callback : Z) : fn unit unit :=
  when (host =? 0) (bail tt);;
  env ← call (get_jni_env t);
  when (is_null (returned env)) (bail tt);;
  result ← call (Java_com_quietterminal_projectneon_jni_NeonHostJNI_neonHostSetUnhandledPacketCallback t host callback);
  forward result id.

Definition neon_host_free (t : tid) (host : Z) : fn unit unit :=
  when (host =? 0) (bail tt);;
  env ← call (get_jni_env t);
  when (is_null (returned env)) (bail tt);;
  result ← call (Java_com_quietterminal_projectneon_jni_NeonHostJNI_neonHostFree t host);
  forward result id.

(** The pointer that is returned aims at the caller's own buffer: what is
    read through it is the C string the buffer holds. *)
Definition neon_get_last_error (t : tid) : fn (option string) (option string) :=
  buf ← read (error_buffer t);
  when (bool_decide (first_byte buf = NUL)) (bail None);;
  mret (Some (c_str buf)).

(** ** Every operation of the file, run by a thread *)

Inductive value : Type :=
  | VVoid
  | VInt (z : Z)
  | VBool (b : bool)
  | VString (s : option string).

Inductive operation : Type :=
  | OnLoad
  | OnUnload
  | JniClientNew (name : jstring)
  | JniClientConnect (clientPtr sessionId : Z) (relayAddr : jstring)
  | JniClientProcessPackets (clientPtr : Z)
  | JniClientGetId (clientPtr : Z)
  | JniClientGetSessionId (clientPtr : Z)
  | JniClientIsConnected (clientPtr : Z)
  | JniClientSendPing (clientPtr : Z)
  | JniClientSetAutoPing (clientPtr enabled : Z)
  | JniClientSetPongCallback (clientPtr callback : Z)
  | JniClientSetSessionConfigCallback (clientPtr callback : Z)
  | JniClientSetPacketTypeRegistryCallback (clientPtr callback : Z)
  | JniClientSetUnhandledPacketCallback (clientPtr callback : Z)
  | JniClientSetWrongDestinationCallback (clientPtr callback : Z)
  | JniClientFree (clientPtr : Z)
  | JniGetLastError
  | JniHostNew (sessionId : Z) (relayAddr : jstring)
  | JniHostStart (hostPtr : Z)
  | JniHostProcessPackets (hostPtr : Z)
  | JniHostGetSessionId (hostPtr : Z)
  | JniHostGetClientCount (hostPtr : Z)
  | JniHostSetClientConnectCallback (hostPtr callback : Z)
  | JniHostSetClientDenyCallback (hostPtr callback : Z)
  | JniHostSetPingReceivedCallback (hostPtr callback : Z)
  | JniHostSetUnhandledPacketCallback (hostPtr callback : Z)
  | JniHostFree (hostPtr : Z)
  | ClientNew (name : string)
  | ClientConnect (client session_id : Z) (relay_addr : string)
  | ClientProcessPackets (client : Z)
  | ClientGetId (client : Z)
  | ClientGetSessionId (client : Z)
  | ClientIsConnected (client : Z)
  | ClientSendPing (client : Z)
  | ClientSetAutoPing (client : Z) (enabled : bool)
  | ClientSetPongCallback (client callback : Z)
  | ClientSetSessionConfigCallback (client callback : Z)
  | ClientSetPacketTypeRegistryCallback (client callback : Z)
  | ClientSetUnhandledPacketCallback (client callback : Z)
  | ClientSetWrongDestinationCallback (client callback : Z)
  | ClientFree (client : Z)
  | HostNew (session_id : Z) (relay_addr : string)
  | HostStart (host : Z)
  | HostProcessPackets (host : Z)
  | HostGetSessionId (host : Z)
  | HostGetClientCount (host : Z)
  | HostSetClientConnectCallback (host callback : Z)
  | HostSetClientDenyCallback (host callback : Z)
  | HostSetPingReceivedCallback (host callback : Z)
  | HostSetUnhandledPacketCallback (host callback : Z)
  | HostFree (host : Z)
  | GetLastError.

Definition run_as {R} (inj : R → value) (body : fn R R) (w : world)
  : option (outcome value * world) :=
  match run body w with
  | None => None
  | Some (Failed r, w') => Some (Failed (inj r), w')
  | Some (Completed r, w') => Some (Completed (inj r), w')
  end.

Definition void (_ : unit) : value := VVoid.

Definition exec (t : tid) (op : operation) : world → option (outcome value * world) :=
  match op with
  | OnLoad => run_as VInt (JNI_OnLoad t)
  | OnUnload => run_as void (JNI_OnUnload t)
  | JniClientNew name => run_as VInt (Java_com_quietterminal_projectneon_jni_NeonClientJNI_neonClientNew t name)
  | JniClientConnect p s a => run_as VInt (Java_com_quietterminal_projectneon_jni_NeonClientJNI_neonClientConnect t p s a)
  | JniClientProcessPackets p => run_as VInt (Java_com_quietterminal_projectneon_jni_NeonClientJNI_neonClientProcessPackets t p)
  | JniClientGetId p => run_as VInt (Java_com_quietterminal_projectneon_jni_NeonClientJNI_neonClientGetId t p)
  | JniClientGetSessionId p => run_as VInt (Java_com_quietterminal_projectneon_jni_NeonClientJNI_neonClientGetSessionId t p)
  | JniClientIsConnected p => run_as VInt (Java_com_quietterminal_projectneon_jni_NeonClientJNI_neonClientIsConnected t p)
  | JniClientSendPing p => run_as VInt (Java_com_quietterminal_projectneon_jni_NeonClientJNI_neonClientSendPing t p)
  | JniClientSetAutoPing p e => run_as void (Java_com_quietterminal_projectneon_jni_NeonClientJNI_neonClientSetAutoPing t p e)
  | JniClientSetPongCallback p c =>
      run_as void (Java_com_quietterminal_projectneon_jni_NeonClientJNI_neonClientSetPongCallback t p c)
  | JniClientSetSessionConfigCallback p c =>
      run_as void (Java_com_quietterminal_projectneon_jni_NeonClientJNI_neonClientSetSessionConfigCallback t p c)
  | JniClientSetPacketTypeRegistryCallback p c =>
      run_as void (Java_com_quietterminal_projectneon_jni_NeonClientJNI_neonClientSetPacketTypeRegistryCallback t p c)
  | JniClientSetUnhandledPacketCallback p c =>
      run_as void (Java_com_quietterminal_projectneon_jni_NeonClientJNI_neonClientSetUnhandledPacketCallback t p c)
  | JniClientSetWrongDestinationCallback p c =>
      run_as void (Java_com_quietterminal_projectneon_jni_NeonClientJNI_neonClientSetWrongDestinationCallback t p c)
  | JniClientFree p => run_as void (Java_com_quietterminal_projectneon_jni_NeonClientJNI_neonClientFree t p)
  | JniGetLastError => run_as VString (Java_com_quietterminal_projectneon_jni_NeonClientJNI_neonGetLastError t)
  | JniHostNew s a => run_as VInt (Java_com_quietterminal_projectneon_jni_NeonHostJNI_neonHostNew t s a)
  | JniHostStart p => run_as VInt (Java_com_quietterminal_projectneon_jni_NeonHostJNI_neonHostStart t p)
  | JniHostProcessPackets p => run_as VInt (Java_com_quietterminal_projectneon_jni_NeonHostJNI_neonHostProcessPackets t p)
  | JniHostGetSessionId p => run_as VInt (Java_com_quietterminal_projectneon_jni_NeonHostJNI_neonHostGetSessionId t p)
  | JniHostGetClientCount p => run_as VInt (Java_com_quietterminal_projectneon_jni_NeonHostJNI_neonHostGetClientCount t p)
  | JniHostSetClientConnectCallback p c =>
      run_as void (Java_com_quietterminal_projectneon_jni_NeonHostJNI_neonHostSetClientConnectCallback t p c)
  | JniHostSetClientDenyCallback p c =>
      run_as void (Java_com_quietterminal_projectneon_jni_NeonHostJNI_neonHostSetClientDenyCallback t p c)
  | JniHostSetPingReceivedCallback p c =>
      run_as void (Java_com_quietterminal_projectneon_jni_NeonHostJNI_neonHostSetPingReceivedCallback t p c)
  | JniHostSetUnhandledPacketCallback p c =>
      run_as void (Java_com_quietterminal_projectneon_jni_NeonHostJNI_neonHostSetUnhandledPacketCallback t p c)
  | JniHostFree p => run_as void (Java_com_quietterminal_projectneon_jni_NeonHostJNI_neonHostFree t p)
  | ClientNew name => run_as VInt (neon_client_new t name)
  | ClientConnect p s a => run_as VBool (neon_client_connect t p s a)
  | ClientProcessPackets p => run_as VInt (neon_client_process_packets t p)
  | ClientGetId p => run_as VInt (neon_client_get_id t p)
  | ClientGetSessionId p => run_as VInt (neon_client_get_session_id t p)
  | ClientIsConnected p => run_as VBool (neon_client_is_connected t p)
  | ClientSendPing p => run_as VBool (neon_client_send_ping t p)
  | ClientSetAutoPing p e => run_as void (neon_client_set_auto_ping t p e)
  | ClientSetPongCallback p c => run_as void (neon_client_set_pong_callback t p c)
  | ClientSetSessionConfigCallback p c =>
      run_as void (neon_client_set_session_config_callback t p c)
  | ClientSetPacketTypeRegistryCallback p c =>
      run_as void (neon_client_set_packet_type_registry_callback t p c)
  | ClientSetUnhandledPacketCallback p c =>
      run_as void (neon_client_set_unhandled_packet_callback t p c)
  | ClientSetWrongDestinationCallback p c =>
      run_as void (neon_client_set_wrong_destination_callback t p c)
  | ClientFree p => run_as void (neon_client_free t p)
  | HostNew s a => run_as VInt (neon_host_new t s a)
  | HostStart p => run_as VBool (neon_host_start t p)
  | HostProcessPackets p => run_as VInt (neon_host_process_packets t p)
  | HostGetSessionId p => run_as VInt (neon_host_get_session_id t p)
  | HostGetClientCount p => run_as VInt (neon_host_get_client_count t p)
  | HostSetClientConnectCallback p c =>
      run_as void (neon_host_set_client_connect_callback t p c)
  | HostSetClientDenyCallback p c =>
      run_as void (neon_host_set_client_deny_callback t p c)
  | HostSetPingReceivedCallback p c =>
      run_as void (neon_host_set_ping_received_callback t p c)
  | HostSetUnhandledPacketCallback p c =>
      run_as void (neon_host_set_unhandled_packet_callback t p c)
  | HostFree p => run_as void (neon_host_free t p)
  | GetLastError => run_as VString (neon_get_last_error t)
  end.

(** A schedule: which thread runs which operation, in order.  [None] when
    some step faults. *)
Fixpoint play (schedule : list (tid * operation)) (w : world) : option world :=
  match schedule with
  | [] => Some w
  | (t, op) :: rest =>
      match exec t op w with
      | Some (_, w') => play rest w'
      | None => None
      end
  end.

(** The process before the library is loaded. *)
Definition initial (j : J) : world :=
  {| outside := j; g_jvm := false; g_error_buffer := ∅;
     g_neonClientClass := 0; g_neonHostClass := 0;
     pending := ∅; heap := ∅; invoked := [] |}.

End Boundary.

Arguments world J : clear implicits.
Arguments fn J R A : clear implicits.
Arguments error_written : simpl never.

(** ** Vocabulary of the statements *)

(** *** Relay addresses *)

Fixpoint string_forall (P : ascii → bool) (s : string) : bool :=
  match s with
  | EmptyString => true
  | String c rest => P c && string_forall P rest
  end.

Definition starts_with (P : ascii → bool) (s : string) : bool :=
  match s with
  | EmptyString => false
  | String c _ => P c
  end.

Definition is_colon (c : ascii) : bool := bool_decide (c = ":"%char).

(** The number a run of decimal digits denotes. *)
Definition decimal (digits : string) : Z :=
  fold_left (λ acc c, 10 * acc + digit_value c) (list_ascii_of_string digits) 0.

Definition signed (sign digits : string) : Z :=
  if bool_decide (sign = "-") then - decimal digits else decimal digits.

(** What the call of [sscanf] takes for an address: a host of 1 to 255 bytes
    without a colon, a colon, any white space, an optional sign, a run of
    digits, and then whatever follows the last digit. *)
Definition relay_syntax (s host : string) (port : Z) : Prop :=
  ∃ ws sign digits rest : string,
    s = host +:+ ":" +:+ ws +:+ sign +:+ digits +:+ rest ∧
    host ≠ "" ∧ (String.length host ≤ 255)%nat ∧
    string_forall (λ c, negb (is_colon c)) host = true ∧
    string_forall isspace ws = true ∧
    (sign = "" ∨ sign = "+" ∨ sign = "-") ∧
    digits ≠ "" ∧ string_forall isdigit digits = true ∧
    starts_with isdigit rest = false ∧
    port = signed sign digits.

Fixpoint split_colon (s : string) : string * option string :=
  match s with
  | EmptyString => (EmptyString, None)
  | String c rest =>
      if is_colon c then (EmptyString, Some rest)
      else let '(h, p) := split_colon rest in (String c h, p)
  end.

(** The address syntax in the words of the specification: exactly
    [host:port], the host non-empty, of at most 255 bytes and without a
    colon, the port a decimal integer of the range 0-65535, nothing else. *)
Definition spec_relay_address (s : string) : bool :=
  match split_colon s with
  | (host, Some port) =>
      negb (bool_decide (host = "")) && (String.length host <=? 255)%nat &&
      negb (bool_decide (port = "")) && string_forall isdigit port &&
      (decimal port <=? 65535)
  | (_, None) => false
  end.
(** *** The error channel *)

(** What [neon_get_last_error] returns in thread [t]. *)
Definition last_error {J} (t : tid) (w : world J) : option string :=
  match run (neon_get_last_error t) w with
  | Some (o, _) => returned o
  | None => None
  end.

(** A message that fits the buffer whole: not empty, shorter than 511
    bytes, no [NUL] inside. *)
Definition diagnostic (msg : string) : bool :=
  negb (bool_decide (msg = "")) && (String.length msg <? 511)%nat &&
  string_forall (λ c, negb (bool_decide (c = NUL))) msg.

(** What one operation, run by [t], may do to the buffers: nothing, or, on
    its way out through a guard, one [set_error] of a diagnostic. *)
Definition channel_effect {J} (t : tid) (w : world J) (o : outcome value)
    (w' : world J) : Prop :=
  g_error_buffer w' = g_error_buffer w ∨
  ((∃ v, o = Failed v) ∧
   ∃ msg, diagnostic msg = true ∧
          g_error_buffer w' = g_error_buffer (error_written t msg w)).

(** The states reached from [w] by runs in which no operation of thread [B]
    leaves through a guard. *)
Inductive reached_without_failure {J} {vm : Platform J} (B : tid)
  : world J → world J → Prop :=
  | reached_here w : reached_without_failure B w w
  | reached_step w t op o w1 w2 :
      exec t op w = Some (o, w1) →
      (t = B → ∃ v, o = Completed v) →
      reached_without_failure B w1 w2 →
      reached_without_failure B w w2.

(** *** The callback setters *)

Inductive client_event : Type :=
  | EvPong | EvSessionConfig | EvPacketTypeRegistry | EvUnhandledPacket
  | EvWrongDestination.

Inductive host_event : Type :=
  | EvClientConnect | EvClientDeny | EvPingReceived | EvHostUnhandledPacket.

Definition client_slot (e : client_event) (h : NeonClientHandle) : Z :=
  match e with
  | EvPong => pongCallback h
  | EvSessionConfig => sessionConfigCallback h
  | EvPacketTypeRegistry => packetTypeRegistryCallback h
  | EvUnhandledPacket => client_unhandledPacketCallback h
  | EvWrongDestination => wrongDestinationCallback h
  end.

Definition host_slot (e : host_event) (h : NeonHostHandle) : Z :=
  match e with
  | EvClientConnect => clientConnectCallback h
  | EvClientDeny => clientDenyCallback h
  | EvPingReceived => pingReceivedCallback h
  | EvHostUnhandledPacket => host_unhandledPacketCallback h
  end.

(** The setter of an event, as JNI entry point and as C function. *)
Definition jni_client_setter (e : client_event) : Z → Z → operation :=
  match e with
  | EvPong => JniClientSetPongCallback
  | EvSessionConfig => JniClientSetSessionConfigCallback
  | EvPacketTypeRegistry => JniClientSetPacketTypeRegistryCallback
  | EvUnhandledPacket => JniClientSetUnhandledPacketCallback
  | EvWrongDestination => JniClientSetWrongDestinationCallback
  end.

Definition c_client_setter (e : client_event) : Z → Z → operation :=
  match e with
  | EvPong => ClientSetPongCallback
  | EvSessionConfig => ClientSetSessionConfigCallback
  | EvPacketTypeRegistry => ClientSetPacketTypeRegistryCallback
  | EvUnhandledPacket => ClientSetUnhandledPacketCallback
  | EvWrongDestination => ClientSetWrongDestinationCallback
  end.

Definition jni_host_setter (e : host_event) : Z → Z → operation :=
  match e with
  | EvClientConnect => JniHostSetClientConnectCallback
  | EvClientDeny => JniHostSetClientDenyCallback
  | EvPingReceived => JniHostSetPingReceivedCallback
  | EvHostUnhandledPacket => JniHostSetUnhandledPacketCallback
  end.

Definition c_host_setter (e : host_event) : Z → Z → operation :=
  match e with
  | EvClientConnect => HostSetClientConnectCallback
  | EvClientDeny => HostSetClientDenyCallback
  | EvPingReceived => HostSetPingReceivedCallback
  | EvHostUnhandledPacket => HostSetUnhandledPacketCallback
  end.

(** *** Exceptions *)

(** The entry points that end in [ExceptionCheck], [ExceptionDescribe],
    [ExceptionClear]. *)
Definition checks_exceptions (op : operation) : bool :=
  match op with
  | JniClientConnect _ _ _ | JniClientProcessPackets _ | JniClientSendPing _
  | JniHostStart _ | JniHostProcessPackets _ => true
  | _ => false
  end.

(** *** Two small platforms to run the code on *)

(** Everything is found and allocated; a managed method returns [result]
    and throws when [throws] says so. *)
Definition scripted (result : Z) (throws : bool) : Platform unit := {|
  GetEnv_answer _ _ := JNI_OK;
  AttachCurrentThread_answer j _ := (j, JNI_OK);
  FindClass_answer _ _ := 100;
  NewGlobalRef_answer _ obj := obj;
  GetStringUTFChars_ok _ _ := true;
  NewStringUTF_ok _ _ := true;
  GetMethodID_ok _ _ _ _ := true;
  NewObject_answer j _ _ _ := (j, 7);
  CallMethod_answer j _ _ _ := (j, (result, throws));
  malloc_ok _ := true;
|}.

Definition obliging : Platform unit := scripted 0 false.
Definition throwing : Platform unit := scripted 0 true.

(** The library loaded and one client created, by thread [0]; the client's
    handle is at address [1]. *)
Definition one_client : world unit :=
  default (initial tt)
    (play (vm := obliging)
       [(0%nat, OnLoad); (0%nat, JniClientNew (Some "Alice"))] (initial tt)).

(** The same with a host, created for session 42. *)
Definition one_host : world unit :=
  default (initial tt)
    (play (vm := obliging)
       [(0%nat, OnLoad); (0%nat, JniHostNew 42 (Some "0.0.0.0:7777"))]
       (initial tt)).

(** *** Preconditions of the C API *)

(** The calling thread already has its [JNIEnv]: [get_jni_env] finds it
    without attaching. *)
Definition attached {J} {vm : Platform J} (t : tid) (w : world J) : Prop :=
  g_jvm w = true ∧ GetEnv_answer (outside w) t = JNI_OK.

(** The message of the two address checks. *)
Definition format_error : string :=
  "Invalid relay address format (expected host:port)".

(** The library loaded by thread [1], nothing else done. *)
Definition loaded : world unit :=
  default (initial tt) (play (vm := obliging) [(1%nat, OnLoad)] (initial tt)).

(** *** The error buffers *)

(** A buffer of the declared size whose last byte is the terminator. *)
Definition buffer_ok (buf : list ascii) : Prop :=
  length buf = 512%nat ∧ buf !! 511%nat = Some NUL.

Definition buffers_ok {J} (w : world J) : Prop :=
  map_Forall (λ _ buf, buffer_ok buf) (g_error_buffer w).

(** The first [n] bytes of a string. *)
Definition first_bytes (n : nat) (s : string) : string :=
  string_of_list_ascii (take n (list_ascii_of_string s)).

(** *** Handles and the operations that take one *)

(** The handle an operation is given, if it takes one. *)
Definition handle_of (op : operation) : option Z :=
  match op with
  | JniClientConnect p _ _ | JniClientProcessPackets p | JniClientGetId p
  | JniClientGetSessionId p | JniClientIsConnected p | JniClientSendPing p
  | JniClientSetAutoPing p _ | JniClientSetPongCallback p _
  | JniClientSetSessionConfigCallback p _
  | JniClientSetPacketTypeRegistryCallback p _
  | JniClientSetUnhandledPacketCallback p _
  | JniClientSetWrongDestinationCallback p _ | JniClientFree p
  | JniHostStart p | JniHostProcessPackets p | JniHostGetSessionId p
  | JniHostGetClientCount p | JniHostSetClientConnectCallback p _
  | JniHostSetClientDenyCallback p _ | JniHostSetPingReceivedCallback p _
  | JniHostSetUnhandledPacketCallback p _ | JniHostFree p
  | ClientConnect p _ _ | ClientProcessPackets p | ClientGetId p
  | ClientGetSessionId p | ClientIsConnected p | ClientSendPing p
  | ClientSetAutoPing p _ | ClientSetPongCallback p _
  | ClientSetSessionConfigCallback p _
  | ClientSetPacketTypeRegistryCallback p _
  | ClientSetUnhandledPacketCallback p _
  | ClientSetWrongDestinationCallback p _ | ClientFree p
  | HostStart p | HostProcessPackets p | HostGetSessionId p
  | HostGetClientCount p | HostSetClientConnectCallback p _
  | HostSetClientDenyCallback p _ | HostSetPingReceivedCallback p _
  | HostSetUnhandledPacketCallback p _ | HostFree p => Some p
  | _ => None
  end.

(** The functions of [project_neon.h] that start with [get_jni_env], with
    the value each returns when it gives up. *)
Definition c_sentinel (op : operation) : option value :=
  match op with
  | ClientNew _ | HostNew _ _ => Some (VInt 0)
  | ClientConnect _ _ _ | ClientIsConnected _ | ClientSendPing _
  | HostStart _ => Some (VBool false)
  | ClientProcessPackets _ | HostProcessPackets _ => Some (VInt (-1))
  | ClientGetId _ | ClientGetSessionId _ | HostGetSessionId _
  | HostGetClientCount _ => Some (VInt 0)
  | ClientSetAutoPing _ _ | ClientSetPongCallback _ _
  | ClientSetSessionConfigCallback _ _
  | ClientSetPacketTypeRegistryCallback _ _
  | ClientSetUnhandledPacketCallback _ _
  | ClientSetWrongDestinationCallback _ _ | ClientFree _
  | HostSetClientConnectCallback _ _ | HostSetClientDenyCallback _ _
  | HostSetPingReceivedCallback _ _ | HostSetUnhandledPacketCallback _ _
  | HostFree _ => Some VVoid
  | _ => None
  end.

(** The operations with an error return that records nothing: [JNI_OnLoad],
    the two forms of [isConnected], and the accessor of the message itself. *)
Definition quiet (op : operation) : bool :=
  match op with
  | OnLoad | JniClientIsConnected _ | ClientIsConnected _
  | JniGetLastError | GetLastError => true
  | _ => false
  end.

(** The exit of an operation through the guard on its handle: the value it
    returns there and the message it records, if it records one. *)
Definition null_exit (op : operation) : option (value * option string) :=
  match op with
  | JniClientConnect _ _ _ | JniClientSendPing _ =>
      Some (VInt JNI_FALSE, Some "Invalid client handle")
  | JniClientProcessPackets _ | JniClientGetId _ | JniClientGetSessionId _ =>
      Some (VInt (-1), Some "Invalid client handle")
  | JniClientIsConnected _ => Some (VInt JNI_FALSE, None)
  | JniClientSetAutoPing _ _ | JniClientSetPongCallback _ _
  | JniClientSetSessionConfigCallback _ _
  | JniClientSetPacketTypeRegistryCallback _ _
  | JniClientSetUnhandledPacketCallback _ _
  | JniClientSetWrongDestinationCallback _ _ =>
      Some (VVoid, Some "Invalid client handle")
  | JniClientFree _ | JniHostFree _ => Some (VVoid, None)
  | JniHostStart _ => Some (VInt JNI_FALSE, Some "Invalid host handle")
  | JniHostProcessPackets _ | JniHostGetSessionId _ =>
      Some (VInt (-1), Some "Invalid host handle")
  | JniHostGetClientCount _ => Some (VInt 0, Some "Invalid host handle")
  | JniHostSetClientConnectCallback _ _ | JniHostSetClientDenyCallback _ _
  | JniHostSetPingReceivedCallback _ _
  | JniHostSetUnhandledPacketCallback _ _ =>
      Some (VVoid, Some "Invalid host handle")
  | ClientConnect _ _ _ | ClientSendPing _ =>
      Some (VBool false, Some "Invalid client handle")
  | ClientProcessPackets _ => Some (VInt (-1), Some "Invalid client handle")
  | ClientGetId _ | ClientGetSessionId _ | HostGetSessionId _
  | HostGetClientCount _ => Some (VInt 0, None)
  | ClientIsConnected _ => Some (VBool false, None)
  | ClientSetAutoPing _ _ | ClientSetPongCallback _ _
  | ClientSetSessionConfigCallback _ _
  | ClientSetPacketTypeRegistryCallback _ _
  | ClientSetUnhandledPacketCallback _ _
  | ClientSetWrongDestinationCallback _ _ | ClientFree _
  | HostSetClientConnectCallback _ _ | HostSetClientDenyCallback _ _
  | HostSetPingReceivedCallback _ _ | HostSetUnhandledPacketCallback _ _
  | HostFree _ => Some (VVoid, None)
  | HostStart _ => Some (VBool false, Some "Invalid host handle")
  | HostProcessPackets _ => Some (VInt (-1), Some "Invalid host handle")
  | _ => None
  end.

(** The state after that exit. *)
Definition after_null_exit {J} (t : tid) (said : option string)
    (w : world J) : world J :=
  match said with
  | Some m => error_written t m w
  | None => w
  end.

(** The calls with an error exit that records nothing: the [quiet]
    operations, and the operations whose guard on the handle returns
    without a message, when the handle is null. *)
Definition silent (op : operation) : bool :=
  quiet op ||
  match handle_of op, null_exit op with
  | Some p, Some (_, None) => p =? 0
  | _, _ => false
  end.

(** [JNI_OnLoad] and [JNI_OnUnload]. *)
Definition startup (op : operation) : bool :=
  match op with OnLoad | OnUnload => true | _ => false end.

(** The operations that allocate, assign to or release a handle. *)
Definition touches_heap (op : operation) : bool :=
  match op with
  | JniClientNew _ | JniHostNew _ _ | ClientNew _ | HostNew _ _
  | JniClientSetPongCallback _ _ | JniClientSetSessionConfigCallback _ _
  | JniClientSetPacketTypeRegistryCallback _ _
  | JniClientSetUnhandledPacketCallback _ _
  | JniClientSetWrongDestinationCallback _ _
  | JniHostSetClientConnectCallback _ _ | JniHostSetClientDenyCallback _ _
  | JniHostSetPingReceivedCallback _ _ | JniHostSetUnhandledPacketCallback _ _
  | ClientSetPongCallback _ _ | ClientSetSessionConfigCallback _ _
  | ClientSetPacketTypeRegistryCallback _ _
  | ClientSetUnhandledPacketCallback _ _
  | ClientSetWrongDestinationCallback _ _
  | HostSetClientConnectCallback _ _ | HostSetClientDenyCallback _ _
  | HostSetPingReceivedCallback _ _ | HostSetUnhandledPacketCallback _ _
  | JniClientFree _ | JniHostFree _ | ClientFree _ | HostFree _ => true
  | _ => false
  end.

(** What one operation of thread [t] leaves alone. *)
Definition footprint {J} (t : tid) (op : operation) (w w' : world J) : Prop :=
  (startup op = false →
   g_jvm w' = g_jvm w ∧ g_neonClientClass w' = g_neonClientClass w ∧
   g_neonHostClass w' = g_neonHostClass w) ∧
  (invoked w' = invoked w ∨ ∃ i, invoked w' = invoked w ++ [i]) ∧
  (∀ t', t' ≠ t → (t' ∈ pending w' ↔ t' ∈ pending w)) ∧
  (∀ q, q ≠ default (fresh_address (heap w)) (handle_of op) →
        heap w' !! q = heap w !! q) ∧
  (touches_heap op = false → heap w' = heap w).

(** *** The two layers *)

(** The outcome of a call seen through a conversion of its result. *)
Definition map_outcome {A B} (f : A → B) (o : outcome A) : outcome B :=
  match o with
  | Failed a => Failed (f a)
  | Completed a => Completed (f a)
  end.

(** Conversions of a [jint] or [jboolean] result at the end of a wrapper. *)
Definition cast (f : Z → Z) (v : value) : value :=
  match v with VInt z => VInt (f z) | _ => v end.

Definition is_JNI_TRUE (v : value) : value :=
  match v with VInt z => VBool (z =? JNI_TRUE) | _ => v end.

(** The entry point a function of the C API forwards to once it has its
    [JNIEnv], and what it does to the result; for the functions that take a
    handle and nothing that needs marshalling. *)
Definition jni_of (op : operation) : option (operation * (value → value)) :=
  match op with
  | ClientProcessPackets p => Some (JniClientProcessPackets p, id)
  | ClientGetId p => Some (JniClientGetId p, cast to_uint8_t)
  | ClientGetSessionId p => Some (JniClientGetSessionId p, cast to_uint32_t)
  | ClientIsConnected p => Some (JniClientIsConnected p, is_JNI_TRUE)
  | ClientSendPing p => Some (JniClientSendPing p, is_JNI_TRUE)
  | ClientSetAutoPing p e =>
      Some (JniClientSetAutoPing p (if e then JNI_TRUE else JNI_FALSE), id)
  | ClientSetPongCallback p c => Some (JniClientSetPongCallback p c, id)
  | ClientSetSessionConfigCallback p c =>
      Some (JniClientSetSessionConfigCallback p c, id)
  | ClientSetPacketTypeRegistryCallback p c =>
      Some (JniClientSetPacketTypeRegistryCallback p c, id)
  | ClientSetUnhandledPacketCallback p c =>
      Some (JniClientSetUnhandledPacketCallback p c, id)
  | ClientSetWrongDestinationCallback p c =>
      Some (JniClientSetWrongDestinationCallback p c, id)
  | ClientFree p => Some (JniClientFree p, id)
  | HostStart p => Some (JniHostStart p, is_JNI_TRUE)
  | HostProcessPackets p => Some (JniHostProcessPackets p, id)
  | HostGetSessionId p => Some (JniHostGetSessionId p, cast to_uint32_t)
  | HostGetClientCount p => Some (JniHostGetClientCount p, cast to_size_t)
  | HostSetClientConnectCallback p c =>
      Some (JniHostSetClientConnectCallback p c, id)
  | HostSetClientDenyCallback p c => Some (JniHostSetClientDenyCallback p c, id)
  | HostSetPingReceivedCallback p c =>
      Some (JniHostSetPingReceivedCallback p c, id)
  | HostSetUnhandledPacketCallback p c =>
      Some (JniHostSetUnhandledPacketCallback p c, id)
  | HostFree p => Some (JniHostFree p, id)
  | _ => None
  end.

(** *** Start-up *)

(** The two classes [JNI_OnLoad] looks up. *)
Definition client_class_name : string :=
  "com/quietterminal/projectneon/client/NeonClient".
Definition host_class_name : string :=
  "com/quietterminal/projectneon/host/NeonHost".

(** The three messages of [get_jni_env]. *)
Definition env_errors : list string :=
  ["JVM not initialized"; "Failed to attach thread to JVM";
   "Failed to get JNI environment"].

(** *** Methods of the managed side *)

Definition close_method : jmethodID :=
  {| method_name := "close"; method_sig := "()V" |}.

Definition client_constructor : jmethodID :=
  {| method_name := "<init>"; method_sig := "(Ljava/lang/String;)V" |}.

Definition connect_method : jmethodID :=
  {| method_name := "connect"; method_sig := "(ILjava/lang/String;I)V" |}.

Definition host_constructor : jmethodID :=
  {| method_name := "<init>"; method_sig := "(ILjava/lang/String;I)V" |}.

(** The managed side lets a call with a relay address through to the method:
    the strings are created and read, the method is found. *)
Definition marshals {J} {vm : Platform J} (w : world J) (cls : Z)
    (method : jmethodID) (s host : string) : Prop :=
  cls ≠ 0 ∧
  NewStringUTF_ok (outside w) s = true ∧
  GetStringUTFChars_ok (outside w) s = true ∧
  GetMethodID_ok (outside w) cls (method_name method) (method_sig method) = true ∧
  NewStringUTF_ok (outside w) host = true.

(** What the error value [-1] of a JNI entry point becomes in [uint8_t] and
    in [uint32_t]. *)
Definition UINT8_MAX : Z := 255.
Definition UINT32_MAX : Z := 4294967295.

Definition getSessionId_method : jmethodID :=
  {| method_name := "getSessionId"; method_sig := "()I" |}.

(** *** The array [host] of the scan *)

(** What the array [host] can hold after the scan: at most 255 bytes before
    the terminator, none of them a colon, all of them the beginning of the
    input. *)
Definition host_of (s host : string) : Prop :=
  (String.length host ≤ 255)%nat ∧
  string_forall (λ c, negb (is_colon c)) host = true ∧
  ∃ rest, s = host +:+ rest.

(** *** More runs *)

(** The platform of [obliging], except that no method is ever found. *)
Definition methodless : Platform unit := {|
  GetEnv_answer _ _ := JNI_OK;
  AttachCurrentThread_answer j _ := (j, JNI_OK);
  FindClass_answer _ _ := 100;
  NewGlobalRef_answer _ obj := obj;
  GetStringUTFChars_ok _ _ := true;
  NewStringUTF_ok _ _ := true;
  GetMethodID_ok _ _ _ _ := false;
  NewObject_answer j _ _ _ := (j, 7);
  CallMethod_answer j _ _ _ := (j, (0, false));
  malloc_ok _ := true;
|}.

(** A message of 600 bytes. *)
Definition long_message : string :=
  string_of_list_ascii (replicate 600 "a"%char).

Definition alice : NeonClientHandle :=
  {| client_javaObject := 7; pongCallback := 0; sessionConfigCallback := 0;
     packetTypeRegistryCallback := 0; client_unhandledPacketCallback := 0;
     wrongDestinationCallback := 0 |}.

(** * Properties *)

(** ** Runs of the scan *)

Example sscanf_localhost :
  sscanf_host_port "127.0.0.1:7777" = Some (2, "127.0.0.1", 7777).
Proof. reflexivity. Qed.

Example sscanf_no_colon : sscanf_host_port "bad-address" = Some (1, "bad-address", 0).
Proof. reflexivity. Qed.

Example sscanf_empty : sscanf_host_port "" = Some (EOF, "", 0).
Proof. reflexivity. Qed.

Example sscanf_trailing : sscanf_host_port "h:80x" = Some (2, "h", 80).
Proof. reflexivity. Qed.

Example sscanf_negative : sscanf_host_port "h: -5" = Some (2, "h", -5).
Proof. reflexivity. Qed.

Example sscanf_huge : sscanf_host_port "h:99999999999" = None.
Proof. reflexivity. Qed.


(** ** The scan of a relay address *)

Lemma string_app_nil (b : string) : "" +:+ b = b.
Proof. reflexivity. Qed.

Lemma string_app_cons (x : ascii) (a b : string) :
  String x a +:+ b = String x (a +:+ b).
Proof. reflexivity. Qed.

Ltac unfold_app := rewrite ?string_app_cons, ?string_app_nil in *.

Lemma string_app_assoc (a b c : string) : (a +:+ b) +:+ c = a +:+ b +:+ c.
Proof. induction a as [|x a IH]; unfold_app; [reflexivity | by f_equal]. Qed.

Lemma isdigit_not_space c : isdigit c = true → isspace c = false.
Proof.
  unfold isdigit, isspace. generalize (nat_of_ascii c). intros n Hd.
  apply andb_prop in Hd as [H1 H2].
  apply Nat.leb_le in H1. apply Nat.leb_le in H2.
  apply orb_false_intro.
  - apply Nat.eqb_neq. lia.
  - apply andb_false_intro2. apply Nat.leb_gt. lia.
Qed.

Lemma scan_set_sound w ex s h r :
  scan_set w ex s = (h, r) →
  s = h +:+ r ∧ (String.length h ≤ w)%nat ∧
  string_forall (λ c, negb (bool_decide (c ∈ ex))) h = true.
Proof.
  revert s h r. induction w as [|w IH]; intros s h r.
  - simpl. intros [= <- <-]. simpl. auto with lia.
  - destruct s as [|c s]; simpl.
    + intros [= <- <-]. simpl. auto with lia.
    + destruct (bool_decide (c ∈ ex)) eqn:Hc.
      * intros [= <- <-]. simpl. auto with lia.
      * destruct (scan_set w ex s) as [h' r'] eqn:Hs.
        intros [= <- <-]. destruct (IH _ _ _ Hs) as (-> & Hl & Hf).
        unfold_app. simpl. rewrite Hc, Hf. auto with lia.
Qed.

Lemma scan_set_stop w ex h c rest :
  (String.length h ≤ w)%nat →
  string_forall (λ c, negb (bool_decide (c ∈ ex))) h = true →
  c ∈ ex →
  scan_set w ex (h +:+ String c rest) = (h, String c rest).
Proof.
  revert h. induction w as [|w IH]; intros h Hl Hf Hc.
  - destruct h; simpl in *; [reflexivity | lia].
  - destruct h as [|x h]; unfold_app; simpl in *.
    + by rewrite bool_decide_eq_true_2.
    + apply andb_prop in Hf as [Hx Hf].
      apply negb_true_iff in Hx. rewrite Hx.
      rewrite IH by (auto with lia). reflexivity.
Qed.

Lemma skip_space_sound s :
  ∃ ws, s = ws +:+ skip_space s ∧ string_forall isspace ws = true ∧
        starts_with isspace (skip_space s) = false.
Proof.
  induction s as [|c s (ws & Hs & Hw & Hn)]; simpl.
  - by exists "".
  - destruct (isspace c) eqn:Hc.
    + exists (String c ws). unfold_app. simpl. rewrite Hc, Hw. by rewrite <- Hs.
    + exists "". simpl. auto.
Qed.

Lemma skip_space_stop ws r :
  string_forall isspace ws = true → starts_with isspace r = false →
  skip_space (ws +:+ r) = r.
Proof.
  intros Hw Hr. induction ws as [|c ws IH]; unfold_app; simpl in *.
  - destruct r as [|c r]; simpl in *; [reflexivity | by rewrite Hr].
  - apply andb_prop in Hw as [-> Hw]. auto.
Qed.

Lemma scan_digits_sound s : ∀ acc v r,
  scan_digits acc s = (v, r) →
  ∃ digits, s = digits +:+ r ∧ string_forall isdigit digits = true ∧
    starts_with isdigit r = false ∧
    v = fold_left (λ acc c, 10 * acc + digit_value c)
          (list_ascii_of_string digits) acc.
Proof.
  induction s as [|c s IH]; intros acc v r; simpl.
  - intros [= <- <-]. by exists "".
  - destruct (isdigit c) eqn:Hc.
    + intros Hs. destruct (IH _ _ _ Hs) as (d & -> & Hd & Hr & ->).
      exists (String c d). unfold_app. simpl. by rewrite Hc, Hd.
    + intros [= <- <-]. exists "". simpl. auto.
Qed.

Lemma scan_digits_stop digits r : ∀ acc,
  string_forall isdigit digits = true → starts_with isdigit r = false →
  scan_digits acc (digits +:+ r) =
    (fold_left (λ acc c, 10 * acc + digit_value c)
       (list_ascii_of_string digits) acc, r).
Proof.
  induction digits as [|c d IH]; intros acc Hd Hr; unfold_app; simpl in *.
  - destruct r as [|c r]; simpl in *; [reflexivity | by rewrite Hr].
  - apply andb_prop in Hd as [-> Hd]. auto.
Qed.

Lemma scan_int_sound s z r :
  scan_int s = Some (z, r) →
  ∃ sign digits, s = sign +:+ digits +:+ r ∧
    (sign = "" ∨ sign = "+" ∨ sign = "-") ∧
    digits ≠ "" ∧ string_forall isdigit digits = true ∧
    starts_with isdigit r = false ∧ z = signed sign digits.
Proof.
  unfold scan_int. destruct (scan_sign s) as [neg body] eqn:Hsign.
  destruct body as [|d body]; [discriminate|].
  destruct (isdigit d) eqn:Hd; [|discriminate].
  destruct (scan_digits 0 (String d body)) as [v r'] eqn:Hdig.
  intros [= <- <-].
  destruct (scan_digits_sound _ _ _ _ Hdig) as (digits & Hb & Hall & Hr & ->).
  assert (digits ≠ "") as Hne.
  { intros ->. unfold_app. subst r'. simpl in Hr. congruence. }
  assert (∃ sign, s = sign +:+ String d body ∧
            (sign = "" ∨ sign = "+" ∨ sign = "-") ∧
            neg = bool_decide (sign = "-")) as (sign & -> & Hs & ->).
  { unfold scan_sign in Hsign. destruct s as [|c s]; [discriminate|].
    repeat case_bool_decide; simplify_eq.
    - exists "-". auto.
    - exists "+". auto.
    - exists "". auto. }
  exists sign, digits. rewrite <- Hb. unfold signed, decimal. auto 10.
Qed.

Lemma scan_int_complete sign digits r :
  (sign = "" ∨ sign = "+" ∨ sign = "-") →
  digits ≠ "" → string_forall isdigit digits = true →
  starts_with isdigit r = false →
  scan_int (sign +:+ digits +:+ r) = Some (signed sign digits, r).
Proof.
  intros Hs Hne Hall Hr.
  destruct digits as [|d digits]; [done|]. clear Hne.
  assert (isdigit d = true) as Hd.
  { simpl in Hall. by apply andb_prop in Hall as [? _]. }
  assert (scan_sign (sign +:+ String d digits +:+ r) =
            (bool_decide (sign = "-"), String d digits +:+ r)) as Hsign.
  { destruct Hs as [-> | [-> | ->]]; unfold_app; try reflexivity.
    unfold scan_sign. repeat case_bool_decide; simplify_eq; try done. }
  unfold scan_int. rewrite Hsign. unfold_app. rewrite Hd.
  rewrite <- string_app_cons. rewrite scan_digits_stop by done.
  reflexivity.
Qed.

Lemma no_colon_scanset h :
  string_forall (λ c, negb (bool_decide (c ∈ [":"%char]))) h =
  string_forall (λ c, negb (is_colon c)) h.
Proof.
  induction h as [|c h IH]; simpl; [reflexivity|]. rewrite IH. f_equal.
  unfold is_colon. f_equal. apply bool_decide_ext, list_elem_of_singleton.
Qed.

Lemma sign_digits_not_space sign digits r :
  (sign = "" ∨ sign = "+" ∨ sign = "-") →
  digits ≠ "" → string_forall isdigit digits = true →
  starts_with isspace (sign +:+ digits +:+ r) = false.
Proof.
  intros Hs Hne Hall. destruct digits as [|d digits]; [done|].
  simpl in Hall. apply andb_prop in Hall as [Hd _].
  destruct Hs as [-> | [-> | ->]]; unfold_app; simpl; try reflexivity.
  by apply isdigit_not_space.
Qed.

(** An address of the syntax is scanned into its host and port, unless the
    port does not fit an [int]. *)
Lemma scan_relay_complete s host port :
  relay_syntax s host port →
  scan relay_format s =
    if fits_int port then Stopped [Chars host; Int port] false else Undefined.
Proof.
  intros (ws & sign & digits & rest & -> & Hne & Hlen & Hcol & Hws & Hsign
          & Hdne & Hdig & Hrest & ->).
  pose proof (sign_digits_not_space sign digits rest Hsign Hdne Hdig) as Hnsp.
  unfold relay_format, scan.
  destruct host as [|c host]; [done|]. unfold_app.
  rewrite <- string_app_cons.
  rewrite scan_set_stop;
    [| done | by rewrite no_colon_scanset | apply list_elem_of_here].
  rewrite bool_decide_eq_true_2 by done.
  rewrite skip_space_stop by done.
  destruct (sign +:+ digits +:+ rest) as [|x tail] eqn:Htail.
  { destruct Hsign as [-> | [-> | ->]]; unfold_app; try discriminate.
    destruct digits; [done | discriminate]. }
  rewrite <- Htail, scan_int_complete by done.
  by destruct (fits_int (signed sign digits)).
Qed.

(** Whatever the scan answers, the input was of the matching kind. *)
Lemma scan_relay_sound s :
  match scan relay_format s with
  | Undefined => ∃ host port, relay_syntax s host port ∧ fits_int port = false
  | Stopped [Chars host; Int port] f =>
      relay_syntax s host port ∧ fits_int port = true ∧ f = false
  | Stopped items _ => (length items < 2)%nat
  end.
Proof.
  unfold relay_format, scan.
  destruct s as [|c0 s0]; [simpl; lia|].
  destruct (scan_set 255 [":"%char] (String c0 s0)) as [host after] eqn:Hset.
  apply scan_set_sound in Hset as (Hs & Hlen & Hcol).
  rewrite no_colon_scanset in Hcol.
  destruct host as [|h0 host]; [simpl; lia|].
  destruct after as [|c after]; [simpl; lia|].
  case_bool_decide as Hc; [subst c | simpl; lia].
  destruct (skip_space_sound after) as (ws & Hafter & Hws & Hnsp).
  destruct (skip_space after) as [|x tail] eqn:Hskip; [simpl; lia|].
  destruct (scan_int (String x tail)) as [[z rest]|] eqn:Hint; [|simpl; lia].
  apply scan_int_sound in Hint
    as (sign & digits & Htail & Hsign & Hdne & Hdig & Hrest & ->).
  assert (relay_syntax (String c0 s0) (String h0 host) (signed sign digits)).
  { exists ws, sign, digits, rest. rewrite Hs, Hafter, Htail.
    repeat split; try done. }
  destruct (fits_int (signed sign digits)) eqn:Hfit; simpl; eauto.
Qed.

(** The three answers of the call, and the inputs that get them. *)
Lemma sscanf_host_port_cases s :
  (∃ host port, sscanf_host_port s = Some (2, host, port) ∧
                relay_syntax s host port ∧ fits_int port = true) ∨
  (sscanf_host_port s = None ∧
   ∃ host port, relay_syntax s host port ∧ fits_int port = false) ∨
  (∃ n host port, sscanf_host_port s = Some (n, host, port) ∧ n < 2 ∧
                  ¬ ∃ host' port', relay_syntax s host' port').
Proof.
  pose proof (scan_relay_sound s) as Hsound.
  unfold sscanf_host_port, sscanf.
  destruct (scan relay_format s) as [|items f] eqn:Hscan.
  { right. left. auto. }
  assert ((length items < 2)%nat → ¬ ∃ host' port', relay_syntax s host' port')
    as Hshort.
  { intros Hlen (host' & port' & Hsyn). apply scan_relay_complete in Hsyn.
    rewrite Hscan in Hsyn. destruct (fits_int port'); simplify_eq.
    simpl in Hlen. lia. }
  destruct items as [|i1 [|i2 rest]].
  - right; right. destruct f; do 3 eexists; (split; [reflexivity|]);
      (split; [unfold EOF; lia | apply Hshort; simpl; lia]).
  - right; right. do 3 eexists. split; [reflexivity|].
    split; [simpl; lia | apply Hshort; simpl; lia].
  - destruct i1 as [h|z], i2 as [h'|p], rest as [|i3 rest];
      simpl in Hsound; try lia.
    left. destruct Hsound as (? & ? & ->). eauto.
Qed.

Lemma sscanf_host_port_accepts s host port :
  sscanf_host_port s = Some (2, host, port) ↔
  relay_syntax s host port ∧ fits_int port = true.
Proof.
  split.
  - intros Hs.
    destruct (sscanf_host_port_cases s)
      as [(h & p & Hs' & ? & ?) | [[Hs' _] | (n & h & p & Hs' & ? & _)]];
      rewrite Hs in Hs'; simplify_eq; [done | lia].
  - intros [Hsyn Hfit]. apply scan_relay_complete in Hsyn.
    unfold sscanf_host_port, sscanf. by rewrite Hsyn, Hfit.
Qed.

Lemma sscanf_host_port_rejects s :
  (∃ n host port, sscanf_host_port s = Some (n, host, port) ∧ n ≠ 2) ↔
  ¬ ∃ host port, relay_syntax s host port.
Proof.
  destruct (sscanf_host_port_cases s)
    as [(h & p & Hs & Hsyn & ?) | [[Hs (h & p & Hsyn & ?)] | (n & h & p & Hs & ? & Hno)]];
    split; try (intros (n' & h' & p' & Hs' & Hn')); try intros Hnone.
  - rewrite Hs in Hs'. by simplify_eq.
  - destruct Hnone; eauto.
  - rewrite Hs in Hs'. by simplify_eq.
  - destruct Hnone; eauto.
  - done.
  - exists n, h, p. split; [done | lia].
Qed.

(** ** The outputs of the scan *)

Lemma scan_set_cons w ex c rest :
  scan_set (S w) ex (String c rest) =
    if bool_decide (c ∈ ex) then (EmptyString, String c rest)
    else let '(h, r) := scan_set w ex rest in (String c h, r).
Proof. reflexivity. Qed.

(** The items a scan of the relay format can leave. *)
Lemma scan_relay_shape s :
  match scan relay_format s with
  | Undefined => True
  | Stopped items f =>
      items = [] ∧ f = true ∧ s = "" ∨
      items = [] ∧ f = false ∧ starts_with is_colon s = true ∨
      ∃ host, host ≠ "" ∧ host_of s host ∧
        (items = [Chars host] ∨
         ∃ port, items = [Chars host; Int port] ∧ fits_int port = true)
  end.
Proof.
  unfold relay_format, scan.
  destruct s as [|c0 s0]; [by left|].
  destruct (scan_set 255 [":"%char] (String c0 s0)) as [h after] eqn:Hset.
  pose proof Hset as Hsound.
  apply scan_set_sound in Hsound as (Hs & Hlen & Hcol).
  rewrite no_colon_scanset in Hcol.
  destruct h as [|h0 h].
  { right; left. change 255%nat with (S 254) in Hset.
    rewrite scan_set_cons in Hset. case_bool_decide as Hc0.
    - apply list_elem_of_singleton in Hc0 as ->. done.
    - destruct (scan_set 254 [":"%char] s0); discriminate Hset. }
  assert (host_of (String c0 s0) (String h0 h)) as Hhost.
  { split; [done|]. split; [done|]. by exists after. }
  destruct after as [|c after];
    [by simpl; right; right; exists (String h0 h); auto|].
  case_bool_decide; [|by simpl; right; right; exists (String h0 h); auto].
  destruct (skip_space after) as [|x tail];
    [by simpl; right; right; exists (String h0 h); auto|].
  destruct (scan_int (String x tail)) as [[z rest]|];
    [|by simpl; right; right; exists (String h0 h); auto].
  destruct (fits_int z) eqn:Hfit; [|done].
  simpl. right; right. exists (String h0 h).
  split; [done|]. split; [done|]. right. by exists z.
Qed.

(** Whatever the input, a scan that is defined stores in [host] a beginning
    of the input of at most 255 bytes without a colon, so the array of 256
    bytes is never overrun, and in [port] a value of an [int].  It returns
    [EOF] for the empty input, 0 when the input starts with a colon, and 1
    or 2 otherwise; the port is assigned only when it returns 2. *)
Theorem sscanf_fills_host_within_bounds s n host port :
  sscanf_host_port s = Some (n, host, port) →
  host_of s host ∧ fits_int port = true ∧
  (n = EOF ∧ s = "" ∨
   n = 0 ∧ starts_with is_colon s = true ∧ host = "" ∨
   (n = 1 ∨ n = 2) ∧ host ≠ "") ∧
  (n ≠ 2 → port = 0).
Proof.
  pose proof (scan_relay_shape s) as Hshape.
  unfold sscanf_host_port, sscanf.
  destruct (scan relay_format s) as [|items f]; [done|].
  destruct Hshape as [(-> & -> & ->) | [(-> & -> & Hc) |
    (h & Hne & Hh & [-> | (p & -> & Hfit)])]]; intros [= <- <- <-].
  - split; [|split; [done|split; [by left|done]]].
    split; [simpl; lia|]. split; [done|]. by exists "".
  - split; [|split; [done|split; [by right; left|done]]].
    split; [simpl; lia|]. split; [done|]. by exists s.
  - split; [done|]. split; [done|]. split; [|done].
    right; right. split; [by left | done].
  - split; [done|]. split; [done|]. split; [|done].
    right; right. split; [by right | done].
Qed.

(** ** Running the operations *)

Ltac unfold_fn :=
  cbv beta iota zeta delta
    [mbind fn_bind mret fn_ret when bail fault read update call run run_as
     forward non_null is_null returned set_error throw void id
     GetEnv AttachCurrentThread ExceptionCheck ExceptionDescribe ExceptionClear
     FindClass NewGlobalRef DeleteGlobalRef DeleteLocalRef
     GetStringUTFChars ReleaseStringUTFChars NewStringUTF GetMethodID NewObject
     CallMethod CallVoidMethod CallIntMethod CallBooleanMethod malloc free
     load_client store_client load_host store_host assign_client assign_host
     sscanf_relay].

Ltac unfold_op :=
  cbv beta iota delta
    [exec get_jni_env JNI_OnLoad JNI_OnUnload
     Java_com_quietterminal_projectneon_jni_NeonClientJNI_neonClientNew Java_com_quietterminal_projectneon_jni_NeonClientJNI_neonClientConnect
     Java_com_quietterminal_projectneon_jni_NeonClientJNI_neonClientProcessPackets Java_com_quietterminal_projectneon_jni_NeonClientJNI_neonClientGetId
     Java_com_quietterminal_projectneon_jni_NeonClientJNI_neonClientGetSessionId Java_com_quietterminal_projectneon_jni_NeonClientJNI_neonClientIsConnected
     Java_com_quietterminal_projectneon_jni_NeonClientJNI_neonClientSendPing Java_com_quietterminal_projectneon_jni_NeonClientJNI_neonClientSetAutoPing
     Java_com_quietterminal_projectneon_jni_NeonClientJNI_neonClientSetPongCallback
     Java_com_quietterminal_projectneon_jni_NeonClientJNI_neonClientSetSessionConfigCallback
     Java_com_quietterminal_projectneon_jni_NeonClientJNI_neonClientSetPacketTypeRegistryCallback
     Java_com_quietterminal_projectneon_jni_NeonClientJNI_neonClientSetUnhandledPacketCallback
     Java_com_quietterminal_projectneon_jni_NeonClientJNI_neonClientSetWrongDestinationCallback
     Java_com_quietterminal_projectneon_jni_NeonClientJNI_neonClientFree Java_com_quietterminal_projectneon_jni_NeonClientJNI_neonGetLastError
     Java_com_quietterminal_projectneon_jni_NeonHostJNI_neonHostNew Java_com_quietterminal_projectneon_jni_NeonHostJNI_neonHostStart
     Java_com_quietterminal_projectneon_jni_NeonHostJNI_neonHostProcessPackets Java_com_quietterminal_projectneon_jni_NeonHostJNI_neonHostGetSessionId
     Java_com_quietterminal_projectneon_jni_NeonHostJNI_neonHostGetClientCount
     Java_com_quietterminal_projectneon_jni_NeonHostJNI_neonHostSetClientConnectCallback
     Java_com_quietterminal_projectneon_jni_NeonHostJNI_neonHostSetClientDenyCallback
     Java_com_quietterminal_projectneon_jni_NeonHostJNI_neonHostSetPingReceivedCallback
     Java_com_quietterminal_projectneon_jni_NeonHostJNI_neonHostSetUnhandledPacketCallback Java_com_quietterminal_projectneon_jni_NeonHostJNI_neonHostFree
     neon_client_new neon_client_connect neon_client_process_packets
     neon_client_get_id neon_client_get_session_id neon_client_is_connected
     neon_client_send_ping neon_client_set_auto_ping
     neon_client_set_pong_callback neon_client_set_session_config_callback
     neon_client_set_packet_type_registry_callback
     neon_client_set_unhandled_packet_callback
     neon_client_set_wrong_destination_callback neon_client_free
     neon_host_new neon_host_start neon_host_process_packets
     neon_host_get_session_id neon_host_get_client_count
     neon_host_set_client_connect_callback neon_host_set_client_deny_callback
     neon_host_set_ping_received_callback
     neon_host_set_unhandled_packet_callback neon_host_free
     neon_get_last_error].

(** One case split on a test of the body that contains no other test: the
    guards are met in the order in which the function runs through them. *)
Ltac split_innermost keep :=
  match goal with
  | |- context [match ?x with _ => _ end] =>
      lazymatch x with
      | context [match _ with _ => _ end] => fail
      | _ => lazymatch keep with
             | true => destruct x eqn:?
             | false => destruct x
             end
      end
  end.

(** Every path through a body, with and without the facts that select it. *)
Ltac walk := unfold_op; unfold_fn; repeat (split_innermost true; cbv beta iota zeta).
Ltac paths := unfold_op; unfold_fn; repeat (split_innermost false; cbv beta iota zeta).

Ltac fields :=
  cbn [outside g_jvm g_error_buffer g_neonClientClass g_neonHostClass pending
       heap invoked set_outside set_g_jvm set_g_error_buffer
       set_g_neonClientClass set_g_neonHostClass set_pending set_heap
       set_invoked].

(** The body of a function of the C API, the entry point it calls left
    folded. *)
Ltac unfold_wrapper :=
  cbv beta iota delta
    [exec get_jni_env
     neon_client_new neon_client_connect neon_client_process_packets
     neon_client_get_id neon_client_get_session_id neon_client_is_connected
     neon_client_send_ping neon_client_set_auto_ping
     neon_client_set_pong_callback neon_client_set_session_config_callback
     neon_client_set_packet_type_registry_callback
     neon_client_set_unhandled_packet_callback
     neon_client_set_wrong_destination_callback neon_client_free
     neon_host_new neon_host_start neon_host_process_packets
     neon_host_get_session_id neon_host_get_client_count
     neon_host_set_client_connect_callback neon_host_set_client_deny_callback
     neon_host_set_ping_received_callback
     neon_host_set_unhandled_packet_callback neon_host_free].

Section Operations.
Context {J : Type} {vm : Platform J}.
Implicit Types (t : tid) (w : world J) (msg : string).

(** *** [set_error] touches the caller's buffer and nothing else *)

Lemma error_written_frame t msg w :
  outside (error_written t msg w) = outside w ∧
  g_jvm (error_written t msg w) = g_jvm w ∧
  g_neonClientClass (error_written t msg w) = g_neonClientClass w ∧
  g_neonHostClass (error_written t msg w) = g_neonHostClass w ∧
  pending (error_written t msg w) = pending w ∧
  heap (error_written t msg w) = heap w ∧
  invoked (error_written t msg w) = invoked w.
Proof. repeat split. Qed.

Lemma error_written_other t t' msg w :
  t' ≠ t → error_buffer t' (error_written t msg w) = error_buffer t' w.
Proof.
  intros Hne. unfold error_buffer, error_written. fields.
  by rewrite lookup_insert_ne.
Qed.

Lemma written_congr t msg (w1 w2 : world J) :
  g_error_buffer w1 = g_error_buffer w2 →
  g_error_buffer (error_written t msg w1) = g_error_buffer (error_written t msg w2).
Proof. unfold error_written, error_buffer. fields. by intros ->. Qed.

Lemma c_str_terminated (l rest : list ascii) :
  Forall (λ c, c ≠ NUL) l →
  c_str (l ++ NUL :: rest) = string_of_list_ascii l.
Proof.
  induction 1 as [|c l Hc _ IH]; simpl.
  - reflexivity.
  - rewrite bool_decide_eq_false_2 by done. by rewrite IH.
Qed.

Lemma string_forall_Forall (P : ascii → bool) (s : string) :
  string_forall P s = true → Forall (λ c, P c = true) (list_ascii_of_string s).
Proof.
  induction s as [|c s IH]; simpl; [constructor|].
  intros [Hc Hs]%andb_prop. constructor; auto.
Qed.

Lemma length_list_ascii (s : string) :
  length (list_ascii_of_string s) = String.length s.
Proof. induction s; simpl; congruence. Qed.

(** The buffer after [set_error(msg)], for a message that fits: the message,
    a terminator, and bytes that no reader of the string gets to. *)
Lemma buffer_written msg (buf : list ascii) :
  diagnostic msg = true →
  ∃ rest, <[(512 - 1)%nat := NUL]> (strncpy buf msg (512 - 1)) =
          list_ascii_of_string msg ++ NUL :: rest.
Proof.
  unfold diagnostic. intros [[_ Hlen]%andb_prop _]%andb_prop.
  apply Nat.ltb_lt in Hlen. rewrite <- length_list_ascii in Hlen.
  unfold strncpy. change (512 - 1)%nat with 511%nat.
  generalize dependent (list_ascii_of_string msg). intros l Hlen.
  rewrite take_app, take_replicate, (take_ge l) by lia.
  rewrite Nat.min_l by lia. rewrite <- app_assoc.
  rewrite insert_app_r_alt by lia.
  destruct (511 - length l)%nat as [|k] eqn:Hk; [lia|].
  simpl. eauto.
Qed.

(** [neon_get_last_error] as a function of the caller's buffer. *)
Lemma last_error_eq t w :
  last_error t w =
    if bool_decide (first_byte (error_buffer t w) = NUL) then None
    else Some (c_str (error_buffer t w)).
Proof.
  unfold last_error, neon_get_last_error. unfold_fn.
  by case_bool_decide.
Qed.

Lemma get_last_error_runs t w :
  ∃ o, run (neon_get_last_error t) w = Some (o, w) ∧ returned o = last_error t w.
Proof.
  unfold last_error, neon_get_last_error. unfold_fn.
  case_bool_decide; eauto.
Qed.

Lemma error_buffer_written t msg w :
  error_buffer t (error_written t msg w) =
    <[(512 - 1)%nat := NUL]> (strncpy (error_buffer t w) msg (512 - 1)).
Proof.
  unfold error_buffer at 1. unfold error_written. fields.
  by rewrite lookup_insert_eq.
Qed.

Lemma last_error_written t msg w :
  diagnostic msg = true → last_error t (error_written t msg w) = Some msg.
Proof.
  intros Hd. destruct (buffer_written msg (error_buffer t w) Hd) as [rest Hbuf].
  rewrite last_error_eq, error_buffer_written, Hbuf.
  unfold diagnostic in Hd.
  apply andb_prop in Hd as [[Hne _]%andb_prop Hnul].
  apply negb_true_iff, bool_decide_eq_false in Hne.
  apply string_forall_Forall in Hnul.
  rewrite c_str_terminated, string_of_list_ascii_of_string.
  2:{ eapply Forall_impl; [exact Hnul|]. simpl. intros c Hc.
      by apply negb_true_iff, bool_decide_eq_false in Hc. }
  destruct msg as [|c msg]; [done|]. simpl in *.
  apply Forall_cons in Hnul as [Hc _].
  apply negb_true_iff in Hc. unfold first_byte. simpl. by rewrite Hc.
Qed.

Lemma last_error_of_buffer t w1 w2 :
  error_buffer t w1 = error_buffer t w2 → last_error t w1 = last_error t w2.
Proof. intros Hb. by rewrite !last_error_eq, Hb. Qed.

Lemma last_error_unwritten t w :
  g_error_buffer w !! t = None → last_error t w = None.
Proof.
  intros Hb. rewrite last_error_eq. unfold error_buffer. by rewrite Hb.
Qed.

(** The accessor hands out [NULL] or a string with a first byte. *)
Lemma last_error_not_empty t w : last_error t w ≠ Some "".
Proof.
  rewrite last_error_eq. case_bool_decide as Hb; [done|].
  intros [= Hs]. apply Hb. unfold first_byte.
  destruct (error_buffer t w) as [|c buf]; [done|]. simpl in *.
  by case_bool_decide.
Qed.

(** *** What an operation does to the error channel *)

Ltac channel_leaf :=
  first
    [ exact I
    | left; fields; reflexivity
    | right; split; [eexists; reflexivity|];
      eexists; split; cycle 1;
      [ fields; apply written_congr; fields; reflexivity
      | vm_compute; reflexivity ] ].

Lemma exec_channel_effect t op w :
  match exec t op w with
  | Some (o, w') => channel_effect t w o w'
  | None => True
  end.
Proof. unfold channel_effect. destruct op; paths; channel_leaf. Qed.

(** *** Null handles *)

(** C5: a query on the null handle does not fault and returns its sentinel:
    [is_connected] gives false, [process_packets] gives -1 and
    [get_client_count] gives 0, at the JNI entry points and in the C API. *)
Theorem null_handle_queries t w :
  run (Java_com_quietterminal_projectneon_jni_NeonClientJNI_neonClientIsConnected t 0) w = Some (Failed JNI_FALSE, w) ∧
  run (neon_client_is_connected t 0) w = Some (Failed false, w) ∧
  run (Java_com_quietterminal_projectneon_jni_NeonClientJNI_neonClientProcessPackets t 0) w =
    Some (Failed (-1), error_written t "Invalid client handle" w) ∧
  run (neon_client_process_packets t 0) w =
    Some (Failed (-1), error_written t "Invalid client handle" w) ∧
  run (Java_com_quietterminal_projectneon_jni_NeonHostJNI_neonHostProcessPackets t 0) w =
    Some (Failed (-1), error_written t "Invalid host handle" w) ∧
  run (neon_host_process_packets t 0) w =
    Some (Failed (-1), error_written t "Invalid host handle" w) ∧
  run (Java_com_quietterminal_projectneon_jni_NeonHostJNI_neonHostGetClientCount t 0) w =
    Some (Failed 0, error_written t "Invalid host handle" w) ∧
  run (neon_host_get_client_count t 0) w = Some (Failed 0, w).
Proof. repeat split. Qed.

(** C4, as amended: on the null handle the JNI entry points [neonClientGetId]
    and [neonClientGetSessionId] return -1 and record "Invalid client
    handle"; the C functions [neon_client_get_id] and
    [neon_client_get_session_id], whose results are unsigned, return 0 and
    leave the state alone. *)
Theorem null_handle_identifiers t w :
  run (Java_com_quietterminal_projectneon_jni_NeonClientJNI_neonClientGetId t 0) w =
    Some (Failed (-1), error_written t "Invalid client handle" w) ∧
  run (Java_com_quietterminal_projectneon_jni_NeonClientJNI_neonClientGetSessionId t 0) w =
    Some (Failed (-1), error_written t "Invalid client handle" w) ∧
  run (neon_client_get_id t 0) w = Some (Failed 0, w) ∧
  run (neon_client_get_session_id t 0) w = Some (Failed 0, w).
Proof. repeat split. Qed.

(** C3, as amended: on the null handle the C setters return at once and
    change nothing; the JNI entry points they forward to run nothing on the
    managed side and touch no handle either, but record "Invalid client
    handle" or "Invalid host handle" in the caller's error buffer. *)
Theorem null_handle_setters t w callback :
  (∀ enabled, run (neon_client_set_auto_ping t 0 enabled) w = Some (Failed tt, w)) ∧
  (∀ e, exec t (c_client_setter e 0 callback) w = Some (Failed VVoid, w)) ∧
  (∀ e, exec t (c_host_setter e 0 callback) w = Some (Failed VVoid, w)) ∧
  (∀ enabled, run (Java_com_quietterminal_projectneon_jni_NeonClientJNI_neonClientSetAutoPing t 0 enabled) w =
     Some (Failed tt, error_written t "Invalid client handle" w)) ∧
  (∀ e, exec t (jni_client_setter e 0 callback) w =
     Some (Failed VVoid, error_written t "Invalid client handle" w)) ∧
  (∀ e, exec t (jni_host_setter e 0 callback) w =
     Some (Failed VVoid, error_written t "Invalid host handle" w)) ∧
  (∀ msg, invoked (error_written t msg w) = invoked w ∧
          heap (error_written t msg w) = heap w ∧
          outside (error_written t msg w) = outside w) ∧
  last_error t (error_written t "Invalid client handle" w) =
    Some "Invalid client handle" ∧
  last_error t (error_written t "Invalid host handle" w) =
    Some "Invalid host handle".
Proof.
  repeat split; try (intros []; reflexivity);
    by apply last_error_written.
Qed.

(** *** Relay addresses at the two entry points *)

(** C2, as amended: the address check of [neonClientConnect] and
    [neonHostNew] accepts [s] exactly when [s] starts with a host of 1 to 255
    bytes without a colon, then a colon, then optional white space, an
    optional sign and at least one decimal digit whose signed value fits an
    [int]; the bytes after the last digit are not looked at and the port is
    not checked against 0-65535.  A string without that beginning is
    rejected, and then both entry points return their failure value with
    "Invalid relay address format (expected host:port)" recorded and
    nothing else changed. *)
Theorem relay_address_parse (s : string) t w clientPtr sessionId :
  (∀ host port, sscanf_host_port s = Some (2, host, port) ↔
                relay_syntax s host port ∧ fits_int port = true) ∧
  ((∃ n host port, sscanf_host_port s = Some (n, host, port) ∧ n ≠ 2) ↔
   ¬ ∃ host port, relay_syntax s host port) ∧
  (∀ n host port,
     sscanf_host_port s = Some (n, host, port) → n ≠ 2 →
     GetStringUTFChars_ok (outside w) s = true →
     (clientPtr ≠ 0 →
      run (Java_com_quietterminal_projectneon_jni_NeonClientJNI_neonClientConnect t clientPtr sessionId (Some s)) w =
        Some (Failed JNI_FALSE, error_written t format_error w)) ∧
     run (Java_com_quietterminal_projectneon_jni_NeonHostJNI_neonHostNew t sessionId (Some s)) w =
       Some (Failed 0, error_written t format_error w)).
Proof.
  split; [apply sscanf_host_port_accepts|].
  split; [apply sscanf_host_port_rejects|].
  intros n host port Hscan Hn%Z.eqb_neq Hchars. split.
  - intros Hp%Z.eqb_neq. unfold_op; unfold_fn.
    repeat (rewrite ?Hp, ?Hchars, ?Hscan, ?Hn; cbn [negb]; cbv beta iota zeta).
    reflexivity.
  - unfold_op; unfold_fn.
    repeat (rewrite ?Hchars, ?Hscan, ?Hn; cbn [negb]; cbv beta iota zeta).
    reflexivity.
Qed.

Ltac host_new_leaf t :=
  do 2 eexists; (split; [reflexivity|]);
  (split; [vm_compute; reflexivity|]); fields;
  do 6 (split; [reflexivity|]);
  (split;
     [first [ left; reflexivity
            | right; split; [by apply Z.eqb_eq | reflexivity] ]|]);
  (split; [first [left; reflexivity | right; split; reflexivity]|]);
  first
    [ intros [Hjvm Henv] Hs Hchars; split; reflexivity
    | intros [Hjvm Henv] Hs Hchars; exfalso;
      repeat match goal with
      | H : (_ =? _) = true |- _ => apply Z.eqb_eq in H
      | H : (_ =? _) = false |- _ => apply Z.eqb_neq in H
      | H : negb _ = true |- _ => apply negb_true_iff in H
      | H : negb _ = false |- _ => apply negb_false_iff in H
      end; unfold JNI_OK, JNI_EDETACHED in *; congruence ].


(** C6, as amended: for an address that the address check rejects, that is
    one without the beginning [host:digits] of [relay_syntax], [neonHostNew]
    returns the null handle and records an error, and the state is otherwise
    the one it started from: no constructor has run, the managed side is as
    it was, no handle has been allocated.  The C function [neon_host_new]
    returns [NULL] with an error recorded as well; before the check it may
    have attached the thread, and a failed [NewStringUTF] leaves its
    exception pending, and these are the only other differences: handles,
    invocations, the other buffers and the globals are as before, and for a
    thread that has its [JNIEnv] and a string that is created and read, the
    final state is the initial one with the format message recorded.  An
    address that the check takes is not stopped here, whatever follows its
    last digit and whatever the port. *)
Theorem host_new_fails_fast t w sessionId s :
  (¬ ∃ host port, relay_syntax s host port) →
  (∃ msg, diagnostic msg = true ∧
     run (Java_com_quietterminal_projectneon_jni_NeonHostJNI_neonHostNew t sessionId (Some s)) w =
       Some (Failed 0, error_written t msg w) ∧
     (GetStringUTFChars_ok (outside w) s = true → msg = format_error) ∧
     invoked (error_written t msg w) = invoked w ∧
     heap (error_written t msg w) = heap w ∧
     outside (error_written t msg w) = outside w ∧
     pending (error_written t msg w) = pending w) ∧
  (∃ msg w0,
     run (neon_host_new t sessionId s) w =
       Some (Failed 0, error_written t msg w0) ∧
     diagnostic msg = true ∧
     heap w0 = heap w ∧ invoked w0 = invoked w ∧
     g_error_buffer w0 = g_error_buffer w ∧ g_jvm w0 = g_jvm w ∧
     g_neonClientClass w0 = g_neonClientClass w ∧
     g_neonHostClass w0 = g_neonHostClass w ∧
     (outside w0 = outside w ∨
      GetEnv_answer (outside w) t = JNI_EDETACHED ∧
      outside w0 = fst (AttachCurrentThread_answer (outside w) t)) ∧
     (pending w0 = pending w ∨
      pending w0 = {[t]} ∪ pending w ∧
      msg = "Failed to create relay address string") ∧
     (attached t w → NewStringUTF_ok (outside w) s = true →
      GetStringUTFChars_ok (outside w) s = true →
      msg = format_error ∧ w0 = w)).
Proof.
  intros (n & host & port & Hscan & Hn%Z.eqb_neq)%sscanf_host_port_rejects.
  split.
  - unfold_op; unfold_fn.
    destruct (GetStringUTFChars_ok (outside w) s) eqn:Hchars;
      repeat (rewrite ?Hscan, ?Hn; cbn [negb]; cbv beta iota zeta);
      eexists; (split; [|split; [reflexivity|]]);
      [vm_compute; reflexivity | by repeat split
      | vm_compute; reflexivity | by repeat split].
  - unfold_op; unfold_fn.
    repeat (first [rewrite Hscan | rewrite Hn | split_innermost true];
            cbn [negb]; cbv beta iota zeta);
      host_new_leaf t.
Qed.

(** *** Callback slots *)

Lemma set_heap_frame (h : gmap Z block) w :
  invoked (set_heap h w) = invoked w ∧
  g_error_buffer (set_heap h w) = g_error_buffer w ∧
  pending (set_heap h w) = pending w ∧
  outside (set_heap h w) = outside w.
Proof. repeat split. Qed.

(** C9: on a valid handle, the setter of an event stores the pointer it is
    given, null included, in the slot of that event; the other slots and the
    reference to the managed object keep their values, the rest of the state
    is untouched, and nothing is run on the managed side.  The C function
    does the same for a thread that has its [JNIEnv]. *)
Theorem set_callback_stores t w p callback b :
  p ≠ 0 → heap w !! p = Some b →
  match b with
  | ClientBlock h => ∀ e, ∃ h',
      exec t (jni_client_setter e p callback) w =
        Some (Completed VVoid, set_heap (<[p := ClientBlock h']> (heap w)) w) ∧
      client_slot e h' = callback ∧
      (∀ e', e' ≠ e → client_slot e' h' = client_slot e' h) ∧
      client_javaObject h' = client_javaObject h ∧
      (attached t w →
       exec t (c_client_setter e p callback) w =
       exec t (jni_client_setter e p callback) w)
  | HostBlock h => ∀ e, ∃ h',
      exec t (jni_host_setter e p callback) w =
        Some (Completed VVoid, set_heap (<[p := HostBlock h']> (heap w)) w) ∧
      host_slot e h' = callback ∧
      (∀ e', e' ≠ e → host_slot e' h' = host_slot e' h) ∧
      host_javaObject h' = host_javaObject h ∧
      (attached t w →
       exec t (c_host_setter e p callback) w =
       exec t (jni_host_setter e p callback) w)
  end.
Proof.
  intros Hp%Z.eqb_neq Hb. unfold attached.
  destruct b as [h|h]; intros e; destruct e;
    cbn [jni_client_setter c_client_setter jni_host_setter c_host_setter];
    eexists;
    (split; [unfold_op; unfold_fn;
             repeat (rewrite ?Hp, ?Hb; cbv beta iota zeta); reflexivity|]);
    (split; [reflexivity|]);
    (split; [by intros []|]);
    (split; [reflexivity|]);
    intros [Hjvm Henv]; unfold_op; unfold_fn;
    repeat (rewrite ?Hp, ?Hjvm, ?Henv, ?Hb;
            change (JNI_OK =? JNI_EDETACHED) with false;
            change (JNI_OK =? JNI_OK) with true;
            cbn [negb]; cbv beta iota zeta);
    reflexivity.
Qed.
(** *** The error channel across threads and calls *)

Lemma exec_run_effect t op w o w' :
  exec t op w = Some (o, w') → channel_effect t w o w'.
Proof. intros H. pose proof (exec_channel_effect t op w) as He. by rewrite H in He. Qed.

(** C8: an operation that runs through to its last [return] leaves every
    error buffer as it found it, so [neon_get_last_error] still returns what
    an earlier failure recorded. *)
Theorem success_keeps_error_channel t op w v w' :
  exec t op w = Some (Completed v, w') →
  g_error_buffer w' = g_error_buffer w ∧
  ∀ t', last_error t' w' = last_error t' w.
Proof.
  intros [Hsame | [[v' [=]] _]]%exec_run_effect.
  split; [done|]. intros t'. apply last_error_of_buffer.
  unfold error_buffer. by rewrite Hsame.
Qed.

Lemma channel_effect_other t t' w o w' :
  channel_effect t w o w' → t' ≠ t → error_buffer t' w' = error_buffer t' w.
Proof.
  intros [Hsame | (_ & msg & _ & Hw)] Hne; unfold error_buffer.
  - by rewrite Hsame.
  - rewrite Hw. unfold error_written. fields. by rewrite lookup_insert_ne.
Qed.

Lemma channel_effect_own t w o w' :
  channel_effect t w o w' →
  error_buffer t w' = error_buffer t w ∨
  ∃ msg, diagnostic msg = true ∧ last_error t w' = Some msg.
Proof.
  intros [Hsame | (_ & msg & Hd & Hw)].
  - left. unfold error_buffer. by rewrite Hsame.
  - right. exists msg. split; [done|].
    rewrite <- (last_error_written t msg w Hd).
    apply last_error_of_buffer. unfold error_buffer. by rewrite Hw.
Qed.

Lemma diagnostic_not_empty msg : diagnostic msg = true → msg ≠ "".
Proof.
  unfold diagnostic. intros [[Hne _]%andb_prop _]%andb_prop.
  by apply negb_true_iff, bool_decide_eq_false in Hne.
Qed.

Lemma reached_without_failure_buffer (B : tid) (w0 w : world J) :
  reached_without_failure B w0 w → error_buffer B w = error_buffer B w0.
Proof.
  induction 1 as [|w t op o w1 w2 Hexec Hok _ IH]; [done|].
  rewrite IH. apply exec_run_effect in Hexec.
  destruct (decide (t = B)) as [->|Hne].
  - destruct (Hok eq_refl) as [v ->].
    destruct Hexec as [Hsame | [[v' [=]] _]].
    unfold error_buffer. by rewrite Hsame.
  - by eapply channel_effect_other.
Qed.

(** C10: in every state, [neon_get_last_error] and its JNI counterpart
    return [NULL] or a non-empty string, never the empty string; a thread
    whose buffer was never written reads [NULL]; and every operation keeps
    it so, since all it may do to the caller's buffer is to record a
    non-empty message. *)
Theorem get_last_error_never_empty t w :
  (∃ o, run (neon_get_last_error t) w = Some (o, w) ∧ returned o ≠ Some "") ∧
  (∀ o w', run (Java_com_quietterminal_projectneon_jni_NeonClientJNI_neonGetLastError t) w = Some (o, w') →
           returned o ≠ Some "") ∧
  (g_error_buffer w !! t = None → last_error t w = None) ∧
  (∀ op o w', exec t op w = Some (o, w') →
     last_error t w' = last_error t w ∨
     ∃ msg, msg ≠ "" ∧ last_error t w' = Some msg).
Proof.
  repeat split.
  - destruct (get_last_error_runs t w) as (o & Hrun & Hret).
    exists o. split; [done|]. rewrite Hret. apply last_error_not_empty.
  - intros o w'. pose proof (last_error_not_empty t w) as Hne.
    rewrite last_error_eq in Hne.
    unfold Java_com_quietterminal_projectneon_jni_NeonClientJNI_neonGetLastError. unfold_fn.
    case_bool_decide; [by intros [= <- <-]|].
    destruct (NewStringUTF_ok _ _); intros [= <- <-]; done.
  - apply last_error_unwritten.
  - intros op o w' Hexec%exec_run_effect.
    destruct (channel_effect_own _ _ _ _ Hexec) as [Hb | (msg & Hd & Hl)].
    + left. by apply last_error_of_buffer.
    + right. exists msg. split; [by apply diagnostic_not_empty | done].
Qed.
(** *** Exceptions of the managed side *)

Ltac pending_leaf t :=
  first
    [ exact I
    | intros Hinv; exfalso; apply Hinv; reflexivity
    | intros _; unfold error_written; fields;
      intros [_ Hn]%elem_of_difference; by apply Hn, elem_of_singleton
    | intros _; fields;
      match goal with
      | H : bool_decide (t ∈ _) = false |- _ =>
          apply bool_decide_eq_false in H; revert H; fields; exact id
      end ].

(** The five entry points that check for an exception leave none pending in
    the caller's [JNIEnv] once they have run a managed method. *)
Lemma checked_entry_points_clear_exceptions t op w :
  checks_exceptions op = true →
  match exec t op w with
  | Some (o, w') => invoked w' ≠ invoked w → t ∉ pending w'
  | None => True
  end.
Proof.
  destruct op; try discriminate; intros _; walk; pending_leaf t.
Qed.

(** Freeing the null handle does nothing. *)
Lemma free_null t w :
  run (Java_com_quietterminal_projectneon_jni_NeonClientJNI_neonClientFree t 0) w = Some (Failed tt, w) ∧
  run (Java_com_quietterminal_projectneon_jni_NeonHostJNI_neonHostFree t 0) w = Some (Failed tt, w) ∧
  run (neon_client_free t 0) w = Some (Failed tt, w) ∧
  run (neon_host_free t 0) w = Some (Failed tt, w).
Proof. repeat split. Qed.

(** *** New handles *)

Lemma fresh_address_spec (h : gmap Z block) :
  fresh_address h ≠ 0 ∧ h !! fresh_address h = None.
Proof.
  unfold fresh_address.
  pose proof (is_fresh ({[0]} ∪ dom h)) as Hfresh.
  split.
  - intros Heq. apply Hfresh. rewrite Heq.
    apply elem_of_union_l, elem_of_singleton. reflexivity.
  - apply not_elem_of_dom. intros Hin. apply Hfresh.
    by apply elem_of_union_r.
Qed.

Ltac fields_everywhere :=
  cbn [outside g_jvm g_error_buffer g_neonClientClass g_neonHostClass pending
       heap invoked set_outside set_g_jvm set_g_error_buffer
       set_g_neonClientClass set_g_neonHostClass set_pending set_heap
       set_invoked] in *.

Ltac built_leaf :=
  first
    [ exact I
    | discriminate
    | fields_everywhere; subst;
      unfold fresh_client, fresh_host, client_constructor, host_constructor in *;
      repeat match goal with
      | H : <[_:=_]> _ !! _ = Some _ |- _ =>
          rewrite lookup_insert_eq in H; injection H as H; simplify_eq
      | H : (_ =? 2) = true |- _ => apply Z.eqb_eq in H; subst
      | H : negb _ = false |- _ => apply negb_false_iff in H
      | H : (_ =? 0) = false |- _ => apply Z.eqb_neq in H
      end;
      match goal with
      | |- _ ∧ fresh_address ?h ≠ 0 ∧ _ =>
          destruct (fresh_address_spec h) as [? ?]
      end;
      split; [reflexivity|]; split; [done|]; split; [done|];
      repeat eexists; try eassumption;
      rewrite ?insert_insert_eq; reflexivity ].

(** Whenever [neonClientNew] completes, the constructor of [NeonClient] has
    been invoked once with the name and has returned an object, and the
    handle is the fresh, non-null address of a new block that holds the
    global reference to that object and five null callbacks; no other block
    has changed. *)
Lemma client_new_handle t name w :
  match run (Java_com_quietterminal_projectneon_jni_NeonClientJNI_neonClientNew t name) w with
  | Some (Completed p, w') =>
      p = fresh_address (heap w) ∧ p ≠ 0 ∧ heap w !! p = None ∧
      ∃ j obj,
        NewObject_answer (outside w) (g_neonClientClass w) client_constructor
          [JString name] = (j, obj) ∧
        obj ≠ 0 ∧
        invoked w' =
          invoked w ++
          [Construct (g_neonClientClass w) client_constructor [JString name]] ∧
        heap w' =
          <[p := ClientBlock
                   {| client_javaObject := NewGlobalRef_answer j obj;
                      pongCallback := 0; sessionConfigCallback := 0;
                      packetTypeRegistryCallback := 0;
                      client_unhandledPacketCallback := 0;
                      wrongDestinationCallback := 0 |}]> (heap w)
  | _ => True
  end.
Proof.
  walk; built_leaf.
Qed.

(** The same for [neonHostNew]: the address was taken by the check, the
    constructor of [NeonHost] has been invoked once with the session id, the
    host and the port, and the new block holds the global reference to the
    object it returned and four null callbacks. *)
Lemma host_new_handle t sessionId relayAddr w :
  match run (Java_com_quietterminal_projectneon_jni_NeonHostJNI_neonHostNew t sessionId relayAddr) w with
  | Some (Completed p, w') =>
      p = fresh_address (heap w) ∧ p ≠ 0 ∧ heap w !! p = None ∧
      ∃ s host port j obj,
        relayAddr = Some s ∧ sscanf_host_port s = Some (2, host, port) ∧
        NewObject_answer (outside w) (g_neonHostClass w) host_constructor
          [JInt sessionId; JString (Some host); JInt port] = (j, obj) ∧
        obj ≠ 0 ∧
        invoked w' =
          invoked w ++
          [Construct (g_neonHostClass w) host_constructor
             [JInt sessionId; JString (Some host); JInt port]] ∧
        heap w' =
          <[p := HostBlock
                   {| host_javaObject := NewGlobalRef_answer j obj;
                      clientConnectCallback := 0; clientDenyCallback := 0;
                      pingReceivedCallback := 0;
                      host_unhandledPacketCallback := 0 |}]> (heap w)
  | _ => True
  end.
Proof.
  walk; built_leaf.
Qed.
(** *** The error buffers stay well-formed *)

Lemma zero_buffer_ok : buffer_ok zero_buffer.
Proof. split; reflexivity. Qed.

Lemma error_buffer_ok t w : buffers_ok w → buffer_ok (error_buffer t w).
Proof.
  intros Hok. unfold error_buffer.
  destruct (g_error_buffer w !! t) as [buf|] eqn:Hb; simpl.
  - exact (Hok t buf Hb).
  - apply zero_buffer_ok.
Qed.

(** The bytes [set_error] leaves in a buffer of 512 bytes. *)
Lemma buffer_after_set_error msg (buf : list ascii) :
  length buf = 512%nat →
  <[(512 - 1)%nat := NUL]> (strncpy buf msg (512 - 1)) =
    take 511 (list_ascii_of_string msg) ++
    replicate (511 - length (list_ascii_of_string msg)) NUL ++ [NUL].
Proof.
  intros Hlen. unfold strncpy. change (512 - 1)%nat with 511%nat.
  generalize (list_ascii_of_string msg). intros l.
  rewrite take_app, take_replicate, Nat.min_l by lia.
  assert (length (take 511 l ++ replicate (511 - length l) NUL) = 511%nat)
    as Hpre.
  { rewrite length_app, length_take, length_replicate. lia. }
  rewrite insert_app_r_alt by (rewrite Hpre; lia). rewrite Hpre.
  replace (511 - 511)%nat with 0%nat by lia.
  destruct (drop 511 buf) as [|x rest] eqn:Hdrop.
  { apply (f_equal length) in Hdrop. rewrite length_drop in Hdrop.
    simpl in Hdrop. lia. }
  assert (rest = []) as ->.
  { apply (f_equal length) in Hdrop. rewrite length_drop in Hdrop.
    simpl in Hdrop. destruct rest; [done | simpl in Hdrop; lia]. }
  simpl. by rewrite <- app_assoc.
Qed.

Lemma written_buffer_ok msg (buf : list ascii) :
  length buf = 512%nat →
  buffer_ok (<[(512 - 1)%nat := NUL]> (strncpy buf msg (512 - 1))).
Proof.
  intros Hlen. rewrite buffer_after_set_error by done.
  generalize (list_ascii_of_string msg). intros l.
  assert (length (take 511 l ++ replicate (511 - length l) NUL) = 511%nat)
    as Hpre.
  { rewrite length_app, length_take, length_replicate. lia. }
  rewrite app_assoc. split.
  - rewrite length_app, Hpre. reflexivity.
  - rewrite lookup_app_r by lia. rewrite Hpre. reflexivity.
Qed.

Lemma error_written_ok t msg w : buffers_ok w → buffers_ok (error_written t msg w).
Proof.
  intros Hok. unfold buffers_ok, error_written. fields.
  apply map_Forall_insert_2; [|done].
  apply written_buffer_ok. by apply error_buffer_ok.
Qed.

Lemma exec_buffers_ok t op w o w' :
  buffers_ok w → exec t op w = Some (o, w') → buffers_ok w'.
Proof.
  intros Hok Hexec. pose proof (exec_channel_effect t op w) as He.
  rewrite Hexec in He. unfold buffers_ok.
  destruct He as [-> | (_ & msg & _ & ->)]; [done|].
  by apply error_written_ok.
Qed.

(** Every buffer keeps its 512 bytes and its final terminator, whatever the
    threads have run since the process started: what [neon_get_last_error]
    points at is a terminated string inside the buffer. *)
Theorem error_buffers_stay_terminated schedule (j : J) w :
  play schedule (initial j) = Some w →
  buffers_ok w ∧
  ∀ t, length (error_buffer t w) = 512%nat ∧
       error_buffer t w !! 511%nat = Some NUL ∧
       (String.length (c_str (error_buffer t w)) ≤ 511)%nat.
Proof.
  assert (∀ w0, buffers_ok w0 → play schedule w0 = Some w → buffers_ok w) as Hplay.
  { induction schedule as [|[t op] rest IH]; intros w0 Hok; simpl.
    - by intros [= <-].
    - destruct (exec t op w0) as [[o w1]|] eqn:Hexec; [|done].
      apply IH. by eapply exec_buffers_ok. }
  intros Hrun.
  assert (buffers_ok w) as Hok.
  { eapply Hplay; [|exact Hrun]. unfold buffers_ok, initial. fields.
    apply map_Forall_empty. }
  split; [done|]. intros t.
  destruct (error_buffer_ok t w Hok) as [Hlen Hlast].
  repeat split; try done.
  generalize dependent (error_buffer t w). intros buf.
  assert (∀ (l : list ascii) n, l !! n = Some NUL →
            (String.length (c_str l) ≤ n)%nat) as Hgen.
  { induction l as [|c l IH]; intros n Hn; [done|].
    simpl. case_bool_decide; simpl; [lia|].
    destruct n as [|n]; simpl in Hn; [congruence|].
    specialize (IH n Hn). lia. }
  intros _ Hlast. by apply Hgen.
Qed.

(** [set_error] stores the first 511 bytes of its message, terminated; the
    empty message empties the channel. *)
Theorem set_error_truncates t msg w :
  buffers_ok w →
  string_forall (λ c, negb (bool_decide (c = NUL))) msg = true →
  last_error t (error_written t msg w) =
    if bool_decide (msg = "") then None else Some (first_bytes 511 msg).
Proof.
  intros Hok Hnul. destruct (error_buffer_ok t w Hok) as [Hlen _].
  rewrite last_error_eq, error_buffer_written.
  rewrite buffer_after_set_error by done.
  unfold first_bytes.
  apply string_forall_Forall in Hnul.
  assert (Forall (λ c, c ≠ NUL) (take 511 (list_ascii_of_string msg))) as Hpre.
  { apply Forall_take. eapply Forall_impl; [exact Hnul|]. simpl. intros c Hc.
    by apply negb_true_iff, bool_decide_eq_false in Hc. }
  assert (∃ rest, replicate (511 - length (list_ascii_of_string msg)) NUL ++ [NUL]
                  = NUL :: rest) as [rest ->].
  { destruct (511 - length (list_ascii_of_string msg))%nat; simpl; eauto. }
  rewrite c_str_terminated by done.
  destruct msg as [|c msg]; [reflexivity|].
  rewrite (bool_decide_eq_false_2 (String c msg = "")) by done.
  simpl in *. apply Forall_cons in Hpre as [Hc _].
  unfold first_byte. simpl. by rewrite (bool_decide_eq_false_2 (c = NUL)).
Qed.

(** *** The null handle, and the library not loaded *)

(** The guard on the handle, operation by operation. *)
Lemma null_guard t op w :
  handle_of op = Some 0 →
  ∃ v said, null_exit op = Some (v, said) ∧
           exec t op w = Some (Failed v, after_null_exit t said w).
Proof.
  destruct op; intros [= ->]; do 2 eexists; split; reflexivity.
Qed.

Lemma null_exit_diagnostic op v m :
  null_exit op = Some (v, Some m) → diagnostic m = true.
Proof.
  destruct op; cbn [null_exit]; intros [= <- <-]; vm_compute; reflexivity.
Qed.

(** No operation does anything with the null handle: it leaves through the
    guard on its handle with the value and the message of [null_exit], and
    that message, when there is one, is the only change of the state: the
    managed side, the handles, the pending exceptions and the buffers of the
    other threads are as before. *)
Theorem null_handle_goes_nowhere t op w :
  handle_of op = Some 0 →
  ∃ v said, null_exit op = Some (v, said) ∧
    exec t op w = Some (Failed v, after_null_exit t said w) ∧
    invoked (after_null_exit t said w) = invoked w ∧
    heap (after_null_exit t said w) = heap w ∧
    outside (after_null_exit t said w) = outside w ∧
    pending (after_null_exit t said w) = pending w ∧
    g_jvm (after_null_exit t said w) = g_jvm w ∧
    (∀ t', t' ≠ t →
       error_buffer t' (after_null_exit t said w) = error_buffer t' w) ∧
    last_error t (after_null_exit t said w) =
      match said with Some m => Some m | None => last_error t w end.
Proof.
  intros Hz. destruct (null_guard t op w Hz) as (v & said & Hn & He).
  exists v, said. split; [done|]. split; [done|].
  destruct said as [m|]; cbn [after_null_exit].
  - do 5 (split; [reflexivity|]). split.
    + intros t' Hne. by apply error_written_other.
    + apply last_error_written. by eapply null_exit_diagnostic.
  - by repeat split.
Qed.

(** Before [JNI_OnLoad] has run, a function of the C API that is given a
    handle other than [NULL], or needs none, gives up with "JVM not
    initialized" and changes nothing else. *)
Theorem api_needs_the_library_loaded t op w v :
  g_jvm w = false → c_sentinel op = Some v → handle_of op ≠ Some 0 →
  exec t op w = Some (Failed v, error_written t "JVM not initialized" w).
Proof.
  intros Hjvm Hv Hp.
  destruct op; simpl in Hv, Hp; simplify_eq;
    try (assert ((client =? 0) = false) as Hz
           by (apply Z.eqb_neq; congruence));
    try (assert ((host =? 0) = false) as Hz
           by (apply Z.eqb_neq; congruence));
    unfold_op; unfold_fn; rewrite ?Hz; cbv beta iota zeta;
    rewrite Hjvm; reflexivity.
Qed.

(** [JNI_OnUnload] cannot fail.  It clears [g_jvm], and the two class
    references when it gets a [JNIEnv]; handles that exist stay allocated,
    and from then on the C API answers as before the load. *)
Theorem unload_closes_the_api t w :
  ∃ w', run (JNI_OnUnload t) w = Some (Completed tt, w') ∧
        g_jvm w' = false ∧ heap w' = heap w ∧
        g_error_buffer w' = g_error_buffer w ∧ invoked w' = invoked w ∧
        (GetEnv_answer (outside w) t = JNI_OK →
         g_neonClientClass w' = 0 ∧ g_neonHostClass w' = 0) ∧
        (∀ t' op v, c_sentinel op = Some v → handle_of op ≠ Some 0 →
           exec t' op w' =
             Some (Failed v, error_written t' "JVM not initialized" w')).
Proof.
  assert (∃ w', run (JNI_OnUnload t) w = Some (Completed tt, w') ∧
        g_jvm w' = false ∧ heap w' = heap w ∧
        g_error_buffer w' = g_error_buffer w ∧ invoked w' = invoked w ∧
        (GetEnv_answer (outside w) t = JNI_OK →
         g_neonClientClass w' = 0 ∧ g_neonHostClass w' = 0))
    as (w' & Hrun & Hjvm & Hrest).
  { unfold_op; unfold_fn.
    destruct (GetEnv_answer (outside w) t =? JNI_OK) eqn:Henv;
      cbv beta iota zeta; fields.
    - destruct (g_neonClientClass w =? 0) eqn:Hc,
               (g_neonHostClass w =? 0) eqn:Hh; cbn [negb]; cbv beta iota zeta;
        fields; rewrite ?Hh; cbn [negb]; cbv beta iota zeta;
        eexists; (split; [reflexivity|]); fields;
        repeat (split; [reflexivity|]); try (intros _; split);
        first [reflexivity | by apply Z.eqb_eq].
    - eexists; (split; [reflexivity|]); fields;
        do 4 (split; [reflexivity|]).
      intros Hok. rewrite Hok in Henv. discriminate. }
  exists w'. repeat split; try tauto.
  intros t' op v Hv Hp.
  destruct op; simpl in Hv, Hp; simplify_eq;
    try (assert ((client =? 0) = false) as Hz
           by (apply Z.eqb_neq; congruence));
    try (assert ((host =? 0) = false) as Hz
           by (apply Z.eqb_neq; congruence));
    unfold_op; unfold_fn; rewrite ?Hz; cbv beta iota zeta;
    rewrite Hjvm; reflexivity.
Qed.

(** *** Loading and unloading *)

(** [JNI_OnLoad] cannot fault and sets [g_jvm] whatever happens next.  It
    returns [JNI_VERSION_1_8] exactly when it gets a [JNIEnv] and finds
    both classes, and then holds a global reference to each; otherwise it
    returns [JNI_ERR], with [g_jvm] set all the same.  Handles, error
    buffers and the managed side are not touched. *)
Theorem load_sets_the_jvm t w :
  ∃ o w', run (JNI_OnLoad t) w = Some (o, w') ∧
    g_jvm w' = true ∧ heap w' = heap w ∧
    g_error_buffer w' = g_error_buffer w ∧ invoked w' = invoked w ∧
    outside w' = outside w ∧
    ((o = Completed JNI_VERSION_1_8 ∧
      GetEnv_answer (outside w) t = JNI_OK ∧
      FindClass_answer (outside w) client_class_name ≠ 0 ∧
      FindClass_answer (outside w) host_class_name ≠ 0 ∧
      g_neonClientClass w' =
        NewGlobalRef_answer (outside w)
          (FindClass_answer (outside w) client_class_name) ∧
      g_neonHostClass w' =
        NewGlobalRef_answer (outside w)
          (FindClass_answer (outside w) host_class_name) ∧
      pending w' = pending w) ∨
     (o = Failed JNI_ERR ∧
      (GetEnv_answer (outside w) t ≠ JNI_OK ∨
       FindClass_answer (outside w) client_class_name = 0 ∨
       FindClass_answer (outside w) host_class_name = 0))).
Proof.
  unfold client_class_name, host_class_name.
  walk; do 2 eexists; (split; [reflexivity|]); fields;
    do 5 (split; [reflexivity|]);
    repeat match goal with
    | H : (_ =? _) = true |- _ => apply Z.eqb_eq in H
    | H : (_ =? _) = false |- _ => apply Z.eqb_neq in H
    | H : negb _ = true |- _ => apply negb_true_iff in H
    | H : negb _ = false |- _ => apply negb_false_iff in H
    end;
    first [ left; by repeat split | right; split; [reflexivity|]; tauto ].
Qed.

Lemma load_completed t w v w1 :
  run (JNI_OnLoad t) w = Some (Completed v, w1) →
  w1 = set_g_neonHostClass
         (NewGlobalRef_answer (outside w)
            (FindClass_answer (outside w) host_class_name))
         (set_g_neonClientClass
            (NewGlobalRef_answer (outside w)
               (FindClass_answer (outside w) client_class_name))
            (set_g_jvm true w)).
Proof.
  unfold client_class_name, host_class_name.
  walk; intros [= <- <-]; try discriminate; reflexivity.
Qed.

(** Unloading after a successful load undoes it: the state is the one
    before the load, with [g_jvm] and the two classes cleared. *)
Theorem load_then_unload t t' w v w1 :
  run (JNI_OnLoad t) w = Some (Completed v, w1) →
  GetEnv_answer (outside w) t' = JNI_OK →
  run (JNI_OnUnload t') w1 =
    Some (Completed tt,
          set_g_jvm false (set_g_neonHostClass 0 (set_g_neonClientClass 0 w))).
Proof.
  intros ->%load_completed Henv.
  unfold_op; unfold_fn; fields. rewrite Henv.
  change (JNI_OK =? JNI_OK) with true. cbv beta iota zeta. fields.
  repeat (match goal with
          | |- context [negb (?x =? 0)] => destruct (x =? 0) eqn:?Hz
          end; cbn [negb]; cbv beta iota zeta; fields);
    repeat match goal with
    | H : (_ =? 0) = true |- _ => apply Z.eqb_eq in H; rewrite ?H
    end;
    reflexivity.
Qed.

(** [get_jni_env] cannot fault.  It returns the caller's [JNIEnv] with the
    error buffers untouched, or [NULL] with one of its three messages
    recorded; it asks the virtual machine to attach the thread only when
    [GetEnv] answers [JNI_EDETACHED], and never touches handles or runs
    managed code. *)
Theorem get_jni_env_contract t w :
  ∃ o w', run (get_jni_env t) w = Some (o, w') ∧
    heap w' = heap w ∧ invoked w' = invoked w ∧ pending w' = pending w ∧
    (GetEnv_answer (outside w) t ≠ JNI_EDETACHED ∨ g_jvm w = false →
     outside w' = outside w) ∧
    ((o = Completed (Some t) ∧ g_jvm w = true ∧
      g_error_buffer w' = g_error_buffer w) ∨
     (o = Failed None ∧
      ∃ msg, msg ∈ env_errors ∧ last_error t w' = Some msg ∧
             (g_jvm w = false → msg = "JVM not initialized"))).
Proof.
  assert (∀ msg (W : world J), msg ∈ env_errors →
            (g_jvm w = false → msg = "JVM not initialized") →
            ∃ m, m ∈ env_errors ∧ last_error t (error_written t msg W) = Some m ∧
                 (g_jvm w = false → m = "JVM not initialized")) as Hmsg.
  { intros msg W Hin Hfirst. exists msg. repeat split; try done.
    apply last_error_written.
    unfold env_errors in Hin.
    apply elem_of_cons in Hin as [-> | Hin]; [reflexivity|].
    apply elem_of_cons in Hin as [-> | Hin]; [reflexivity|].
    apply list_elem_of_singleton in Hin as ->. reflexivity. }
  unfold_op; unfold_fn.
  destruct (g_jvm w) eqn:Hjvm; cbn [negb]; cbv beta iota zeta.
  2:{ do 2 eexists. split; [reflexivity|]. do 4 (split; [reflexivity|]).
      right. split; [reflexivity|]. apply Hmsg; [|done].
      apply list_elem_of_here. }
  destruct (GetEnv_answer (outside w) t =? JNI_EDETACHED) eqn:Hdet;
    cbv beta iota zeta.
  - apply Z.eqb_eq in Hdet.
    destruct (AttachCurrentThread_answer (outside w) t) as [j r].
    cbv beta iota zeta.
    destruct (r =? JNI_OK) eqn:Hr; cbn [negb]; cbv beta iota zeta;
      do 2 eexists; (split; [reflexivity|]); do 3 (split; [reflexivity|]);
      (split; [intros [?|?]; congruence|]).
    + left. by repeat split.
    + right. split; [reflexivity|]. apply Hmsg; [|done].
      apply list_elem_of_further, list_elem_of_here.
  - destruct (GetEnv_answer (outside w) t =? JNI_OK) eqn:Hok;
      cbn [negb]; cbv beta iota zeta;
      do 2 eexists; (split; [reflexivity|]); do 4 (split; [reflexivity|]).
    + left. by repeat split.
    + right. split; [reflexivity|]. apply Hmsg; [|done].
      do 2 apply list_elem_of_further. apply list_elem_of_here.
Qed.

(** *** The C API over the JNI entry points *)

(** For a thread that has its [JNIEnv] and a handle that is not [NULL], a
    function of the C API is its JNI entry point followed by the conversion
    of the result: same faults, same exit, same final state. *)
Theorem c_api_forwards t op jop conv w :
  attached t w → handle_of op ≠ Some 0 → jni_of op = Some (jop, conv) →
  exec t op w =
    (λ '(o, w'), (map_outcome conv o, w')) <$> exec t jop w.
Proof.
  intros [Hjvm Henv] Hp Hj.
  destruct op; simpl in Hp, Hj; simplify_eq;
    try (assert ((client =? 0) = false) as Hz
           by (apply Z.eqb_neq; congruence));
    try (assert ((host =? 0) = false) as Hz
           by (apply Z.eqb_neq; congruence));
    unfold_wrapper; unfold_fn; rewrite Hz; cbv beta iota zeta;
    rewrite Hjvm; cbn [negb]; cbv beta iota zeta; rewrite Henv;
    change (JNI_OK =? JNI_EDETACHED) with false;
    change (JNI_OK =? JNI_OK) with true; cbn [negb]; cbv beta iota zeta;
    match goal with
    | |- context [match ?f w with _ => _ end] =>
        destruct (f w) as [[[?|?] ?]|]
    end; reflexivity.
Qed.

(** *** The life of a handle *)

(** Every operation reads or writes the block behind its handle before it
    completes: on a handle that is not allocated, for one that has been
    freed, an operation leaves through an error exit or its behaviour is
    undefined, and never runs to its last [return]. *)
Theorem dangling_handle_never_completes t op p w :
  handle_of op = Some p → heap w !! p = None →
  ∀ v w', exec t op w ≠ Some (Completed v, w').
Proof.
  intros Hop Hnone v w'.
  destruct op; try discriminate Hop; injection Hop as ->; walk;
    intros Hexec;
    first [ discriminate Hexec
          | fields_everywhere; unfold error_written in *; fields_everywhere;
            congruence ].
Qed.

(** [neonClientFree] and [neonHostFree] on a valid handle always complete
    and release the block, without a word in the error channel.  When the
    class has a [close] method it is invoked once on the managed object and
    an exception it throws is cleared; when [GetMethodID] finds none, the
    object is not closed and the [NoSuchMethodError] stays pending. *)
Theorem free_releases_the_handle t p b w :
  p ≠ 0 → heap w !! p = Some b →
  match b with
  | ClientBlock h =>
      g_neonClientClass w ≠ 0 → client_javaObject h ≠ 0 →
      ∃ w', exec t (JniClientFree p) w = Some (Completed VVoid, w') ∧
        heap w' = delete p (heap w) ∧
        g_error_buffer w' = g_error_buffer w ∧
        if GetMethodID_ok (outside w) (g_neonClientClass w) "close" "()V"
        then invoked w' =
               invoked w ++ [Invoke (client_javaObject h) close_method []] ∧
             t ∉ pending w'
        else invoked w' = invoked w ∧ t ∈ pending w'
  | HostBlock h =>
      g_neonHostClass w ≠ 0 → host_javaObject h ≠ 0 →
      ∃ w', exec t (JniHostFree p) w = Some (Completed VVoid, w') ∧
        heap w' = delete p (heap w) ∧
        g_error_buffer w' = g_error_buffer w ∧
        if GetMethodID_ok (outside w) (g_neonHostClass w) "close" "()V"
        then invoked w' =
               invoked w ++ [Invoke (host_javaObject h) close_method []] ∧
             t ∉ pending w'
        else invoked w' = invoked w ∧ t ∈ pending w'
  end.
Proof.
  intros Hp%Z.eqb_neq Hb.
  destruct b as [h|h]; intros Hcls%Z.eqb_neq Hobj%Z.eqb_neq;
    unfold_op; unfold_fn; rewrite Hp, Hcls; cbv beta iota zeta;
    match goal with
    | |- context [GetMethodID_ok ?j ?c ?n ?s] =>
        destruct (GetMethodID_ok j c n s)
    end; cbv beta iota zeta.
  all: repeat first
    [ progress (fields; rewrite ?Hb, ?Hobj; cbv beta iota zeta)
    | split_innermost true; cbv beta iota zeta ].
  all: eexists; (split; [reflexivity|]); fields;
    (split; [reflexivity|]); (split; [reflexivity|]);
    (split; [reflexivity|]);
    first
      [ intros [_ Hn]%elem_of_difference; by apply Hn, elem_of_singleton
      | match goal with
        | H : bool_decide (_ ∈ _) = false |- _ =>
            apply bool_decide_eq_false in H; revert H; fields; exact id
        end
      | apply elem_of_union_l, elem_of_singleton; reflexivity ].
Qed.

(** *** Relay addresses on their way to the managed side *)

(** [neon_client_connect] with an address of the form the scan takes, on a
    valid handle and with the managed side answering: [NeonClient.connect]
    is invoked exactly once, with the session id converted to [jint], the
    host as scanned and the port.  The call returns [true], unless the method
    threw or an exception was already pending; then it returns [false] with
    "Exception during connect" recorded.  Either way no exception is pending
    afterwards and the handle is as before. *)
Theorem connect_passes_the_address t p h w session_id s host port :
  attached t w → p ≠ 0 → heap w !! p = Some (ClientBlock h) →
  client_javaObject h ≠ 0 →
  marshals w (g_neonClientClass w) connect_method s host →
  relay_syntax s host port → fits_int port = true →
  let args := [JInt (to_jint session_id); JString (Some host); JInt port] in
  let threw :=
    snd (snd (CallMethod_answer (outside w) (client_javaObject h)
                connect_method args))
  in
  ∃ w', exec t (ClientConnect p session_id s) w =
          Some ((if threw || bool_decide (t ∈ pending w)
                 then Failed (VBool false) else Completed (VBool true)), w') ∧
    invoked w' =
      invoked w ++ [Invoke (client_javaObject h) connect_method args] ∧
    heap w' = heap w ∧ (t ∉ pending w') ∧
    (threw || bool_decide (t ∈ pending w) = true →
     last_error t w' = Some "Exception during connect").
Proof.
  intros [Hjvm Henv] Hp%Z.eqb_neq Hb Hobj%Z.eqb_neq
    (Hcls%Z.eqb_neq & Hs & Hchars & Hm & Hh) Hsyn Hfit.
  assert (sscanf_host_port s = Some (2, host, port)) as Hscan
    by by apply sscanf_host_port_accepts.
  unfold connect_method in *. cbn [method_name method_sig] in Hm.
  cbv zeta.
  unfold_op; unfold_fn.
  repeat (rewrite ?Hp, ?Hjvm, ?Henv, ?Hs, ?Hchars, ?Hscan, ?Hcls, ?Hm, ?Hh,
            ?Hb, ?Hobj;
          change (JNI_OK =? JNI_EDETACHED) with false;
          change (JNI_OK =? JNI_OK) with true;
          change (2 =? 2) with true;
          cbn [negb]; cbv beta iota zeta).
  destruct (CallMethod_answer _ _ _ _) as [j [result []]];
    cbn [fst snd orb]; cbv beta iota zeta; fields.
  - rewrite bool_decide_eq_true_2
      by (apply elem_of_union_l, elem_of_singleton; reflexivity).
    cbv beta iota zeta. eexists. split; [reflexivity|].
    unfold error_written at 1 2 3; fields.
    split; [reflexivity|]. split; [reflexivity|].
    split; [intros [_ Hn]%elem_of_difference; by apply Hn, elem_of_singleton|].
    intros _. by apply last_error_written.
  - destruct (bool_decide (t ∈ pending w)) eqn:Hpend; cbv beta iota zeta.
    + eexists. split; [reflexivity|].
      unfold error_written at 1 2 3; fields.
      split; [reflexivity|]. split; [reflexivity|].
      split; [intros [_ Hn]%elem_of_difference; by apply Hn, elem_of_singleton|].
      intros _. by apply last_error_written.
    + eexists. split; [reflexivity|]. fields.
      split; [reflexivity|]. split; [reflexivity|].
      split; [by apply bool_decide_eq_false in Hpend | discriminate].
Qed.

(** [neon_host_new] with such an address: the constructor of [NeonHost] is
    invoked once with the session id as [jint], the host and the port, and
    when it returns an object and [malloc] succeeds, the function returns a
    fresh handle that holds the global reference and four null callbacks. *)
Theorem host_new_passes_the_address t w session_id s host port j obj :
  attached t w →
  marshals w (g_neonHostClass w) host_constructor s host →
  relay_syntax s host port → fits_int port = true →
  NewObject_answer (outside w) (g_neonHostClass w) host_constructor
    [JInt (to_jint session_id); JString (Some host); JInt port] = (j, obj) →
  obj ≠ 0 → malloc_ok j = true →
  ∃ w', exec t (HostNew session_id s) w =
          Some (Completed (VInt (fresh_address (heap w))), w') ∧
    invoked w' =
      invoked w ++
      [Construct (g_neonHostClass w) host_constructor
         [JInt (to_jint session_id); JString (Some host); JInt port]] ∧
    heap w' = <[fresh_address (heap w) := HostBlock
                  {| host_javaObject := NewGlobalRef_answer j obj;
                     clientConnectCallback := 0; clientDenyCallback := 0;
                     pingReceivedCallback := 0;
                     host_unhandledPacketCallback := 0 |}]> (heap w) ∧
    g_error_buffer w' = g_error_buffer w ∧ pending w' = pending w.
Proof.
  intros [Hjvm Henv] (Hcls%Z.eqb_neq & Hs & Hchars & Hm & Hh) Hsyn Hfit
    Hnew Hobj%Z.eqb_neq Hmalloc.
  assert (sscanf_host_port s = Some (2, host, port)) as Hscan
    by by apply sscanf_host_port_accepts.
  unfold host_constructor in *. cbn [method_name method_sig] in Hm.
  unfold_op; unfold_fn.
  repeat (rewrite ?Hjvm, ?Henv, ?Hs, ?Hchars, ?Hscan, ?Hcls, ?Hm, ?Hh, ?Hnew,
            ?Hobj, ?Hmalloc;
          change (JNI_OK =? JNI_EDETACHED) with false;
          change (JNI_OK =? JNI_OK) with true;
          change (2 =? 2) with true;
          cbn [negb]; cbv beta iota zeta; fields).
  destruct (fresh_address_spec (heap w)) as [Hfresh%Z.eqb_neq _].
  unfold fresh_host.
  repeat (rewrite ?Hfresh, ?lookup_insert_eq, ?insert_insert_eq;
          cbv beta iota zeta; fields).
  cbv beta iota delta
    [with_host_javaObject with_clientConnectCallback with_clientDenyCallback
     with_pingReceivedCallback with_host_unhandledPacketCallback
     host_javaObject clientConnectCallback clientDenyCallback
     pingReceivedCallback host_unhandledPacketCallback].
  eexists. split; [reflexivity|]. fields.
  split; [reflexivity|]. split; [reflexivity|]. split; reflexivity.
Qed.

(** *** Identifiers through the C types *)

(** [uint32_t] to [jint] and back. *)
Lemma to_uint32_t_to_jint (s : Z) :
  0 ≤ s < 2 ^ 32 → to_uint32_t (to_jint (to_jint s)) = s.
Proof.
  intros Hs. unfold to_uint32_t, to_jint.
  rewrite (Z.add_comm _ (2 ^ 31)), Zplus_minus.
  rewrite Z.mod_mod by lia.
  rewrite <- Zminus_mod_idemp_l, Z.mod_mod, Zminus_mod_idemp_l by lia.
  rewrite Z.add_simpl_r. apply Z.mod_small. lia.
Qed.

(** When [GetMethodID] does not find the accessor, the JNI entry point
    returns [-1] and the C function converts it to its unsigned return type:
    [neon_client_get_id] returns 255, [neon_client_get_session_id] and
    [neon_host_get_session_id] return 4294967295; [neon_host_get_client_count]
    returns 0, the error value of its entry point.  The message names the
    method. *)
Theorem missing_method_wraps_the_sentinel t p w :
  attached t w → p ≠ 0 →
  (g_neonClientClass w ≠ 0 →
   GetMethodID_ok (outside w) (g_neonClientClass w) "getClientId" "()I" = false →
   ∃ w', exec t (ClientGetId p) w = Some (Failed (VInt UINT8_MAX), w') ∧
         last_error t w' = Some "Failed to find getClientId method") ∧
  (g_neonClientClass w ≠ 0 →
   GetMethodID_ok (outside w) (g_neonClientClass w) "getSessionId" "()I" = false →
   ∃ w', exec t (ClientGetSessionId p) w = Some (Failed (VInt UINT32_MAX), w') ∧
         last_error t w' = Some "Failed to find getSessionId method") ∧
  (g_neonHostClass w ≠ 0 →
   GetMethodID_ok (outside w) (g_neonHostClass w) "getSessionId" "()I" = false →
   ∃ w', exec t (HostGetSessionId p) w = Some (Failed (VInt UINT32_MAX), w') ∧
         last_error t w' = Some "Failed to find getSessionId method") ∧
  (g_neonHostClass w ≠ 0 →
   GetMethodID_ok (outside w) (g_neonHostClass w) "getClientCount" "()I" = false →
   ∃ w', exec t (HostGetClientCount p) w = Some (Failed (VInt 0), w') ∧
         last_error t w' = Some "Failed to find getClientCount method").
Proof.
  intros [Hjvm Henv] Hp%Z.eqb_neq.
  repeat split; intros Hcls%Z.eqb_neq Hm; unfold_op; unfold_fn;
    repeat (rewrite ?Hp, ?Hjvm, ?Henv, ?Hcls, ?Hm;
            change (JNI_OK =? JNI_EDETACHED) with false;
            change (JNI_OK =? JNI_OK) with true;
            cbn [negb]; cbv beta iota zeta);
    (eexists; split; [reflexivity|]; by apply last_error_written).
Qed.

(** A session id of the full [uint32_t] range survives the two conversions:
    when the managed side answers with the [jint] that [neon_client_connect]
    passes for [s], [neon_client_get_session_id] returns [s]. *)
Theorem session_id_round_trip t p h w s j threw :
  attached t w → p ≠ 0 → heap w !! p = Some (ClientBlock h) →
  client_javaObject h ≠ 0 → g_neonClientClass w ≠ 0 →
  GetMethodID_ok (outside w) (g_neonClientClass w) "getSessionId" "()I" = true →
  CallMethod_answer (outside w) (client_javaObject h) getSessionId_method [] =
    (j, (to_jint s, threw)) →
  0 ≤ s < 2 ^ 32 →
  ∃ w', exec t (ClientGetSessionId p) w = Some (Completed (VInt s), w') ∧
        heap w' = heap w ∧ g_error_buffer w' = g_error_buffer w.
Proof.
  intros [Hjvm Henv] Hp%Z.eqb_neq Hb Hobj%Z.eqb_neq Hcls%Z.eqb_neq Hm Hcall Hs.
  unfold getSessionId_method in Hcall.
  unfold_op; unfold_fn;
    repeat (rewrite ?Hp, ?Hjvm, ?Henv, ?Hcls, ?Hm, ?Hb, ?Hobj, ?Hcall;
            change (JNI_OK =? JNI_EDETACHED) with false;
            change (JNI_OK =? JNI_OK) with true;
            cbn [negb]; cbv beta iota zeta; fields).
  destruct threw; cbv beta iota zeta;
    rewrite to_uint32_t_to_jint by done;
    (eexists; split; [reflexivity|]; split; reflexivity).
Qed.

(** *** Error exits *)

Ltac recorded_leaf :=
  first
    [ exact I
    | eexists; split;
      [ fields; apply written_congr; fields; reflexivity
      | split; [apply last_error_written|]; vm_compute; reflexivity ] ].

Lemma error_exits_record t op w :
  handle_of op ≠ Some 0 → quiet op = false →
  match exec t op w with
  | Some (Failed _, w') =>
      ∃ msg, g_error_buffer w' = g_error_buffer (error_written t msg w) ∧
             last_error t w' = Some msg ∧ diagnostic msg = true
  | _ => True
  end.
Proof.
  intros Hp Hq.
  destruct op; try discriminate Hq; cbn [handle_of] in Hp;
    try match type of Hp with
        | Some ?p ≠ Some 0 =>
            assert ((p =? 0) = false) as Hz by (apply Z.eqb_neq; congruence)
        end;
    unfold_op; unfold_fn; rewrite ?Hz; cbv beta iota zeta;
    repeat (split_innermost false; cbv beta iota zeta);
    recorded_leaf.
Qed.

(** Apart from [JNI_OnLoad], [isConnected] and the accessor of the message,
    an operation that is given a handle other than null and leaves through
    an error exit has recorded a diagnostic on its way: the caller's buffer
    holds that message, and [neon_get_last_error] returns it. *)
Theorem failures_are_recorded t op w v w' :
  handle_of op ≠ Some 0 → quiet op = false →
  exec t op w = Some (Failed v, w') →
  ∃ msg, g_error_buffer w' = g_error_buffer (error_written t msg w) ∧
         last_error t w' = Some msg ∧ diagnostic msg = true.
Proof.
  intros Hp Hq Hexec. pose proof (error_exits_record t op w Hp Hq) as H.
  by rewrite Hexec in H.
Qed.

(** C7, as amended: the error channel is per thread.  An operation run by
    thread [A] leaves the buffer of every other thread alone, so a thread [B]
    none of whose operations has failed since the process started reads
    [NULL] from [neon_get_last_error], also right after a failure of [A];
    and when the operation of [A] fails, [A] reads a non-empty message,
    unless the call is one of the [silent] ones, whose error exit records
    nothing. *)
Theorem error_channel_per_thread (A B : tid) (j : J) w op o w' :
  A ≠ B →
  reached_without_failure B (initial j) w →
  exec A op w = Some (o, w') →
  (∀ t, t ≠ A → error_buffer t w' = error_buffer t w) ∧
  last_error B w' = None ∧
  (∀ v, o = Failed v → silent op = false →
     ∃ msg, msg ≠ "" ∧ last_error A w' = Some msg).
Proof.
  intros Hne Hreach Hexec. pose proof Hexec as Heff%exec_run_effect.
  split; [|split].
  - intros t Ht. by eapply channel_effect_other.
  - rewrite (last_error_of_buffer B w' (initial j)); [reflexivity|].
    rewrite (channel_effect_other _ _ _ _ _ Heff) by done.
    by apply reached_without_failure_buffer.
  - intros v -> [Hq Hnull]%orb_false_elim.
    destruct (decide (handle_of op = Some 0)) as [Hz|Hnz].
    + destruct (null_guard A op w Hz) as (v0 & said & Hn & He).
      rewrite Hz, Hn in Hnull. destruct said as [m|]; [|discriminate].
      rewrite Hexec in He. injection He as -> ->.
      pose proof (null_exit_diagnostic _ _ _ Hn) as Hd.
      exists m. split; [by apply diagnostic_not_empty|].
      by apply last_error_written.
    + pose proof (error_exits_record A op w Hnz Hq) as Hrec.
      rewrite Hexec in Hrec. destruct Hrec as (msg & _ & Hl & Hd).
      exists msg. split; [by apply diagnostic_not_empty | done].
Qed.

(** *** The footprint of an operation *)

Ltac footprint_leaf :=
  first
    [ exact I
    | unfold error_written; fields;
      split; [first [discriminate | intros _; repeat split]|];
      split; [first [left; reflexivity | right; eexists; reflexivity]|];
      split;
        [intros t' Hne;
         rewrite ?elem_of_difference, ?elem_of_union, ?elem_of_singleton;
         intuition congruence|];
      split;
        [intros q Hq;
         rewrite ?lookup_insert_ne, ?lookup_delete_ne by congruence;
         reflexivity|];
      first [discriminate | intros _; reflexivity] ].

Lemma exec_footprint t op w :
  match exec t op w with
  | Some (_, w') => footprint t op w w'
  | None => True
  end.
Proof.
  unfold footprint.
  destruct op; cbn [startup touches_heap handle_of default from_option];
    unfold_op; unfold_fn;
    repeat (first [progress change (0 =? 0) with true | split_innermost false];
            cbv beta iota zeta);
    footprint_leaf.
Qed.

(** What no operation does.  Outside [JNI_OnLoad] and [JNI_OnUnload],
    [g_jvm] and the two class references are never assigned; the managed
    side is entered at most once per call; an exception of another thread is
    neither raised nor cleared; no block other than the one behind the
    handle, or the one just allocated, is changed; and only constructors,
    callback setters and the [free] functions change the heap at all. *)
Theorem operations_stay_in_their_lane t op w o w' :
  exec t op w = Some (o, w') → footprint t op w w'.
Proof.
  intros Hexec. pose proof (exec_footprint t op w) as H.
  by rewrite Hexec in H.
Qed.

(** *** Callback setters, one after the other *)

Ltac run_setters Hp Hb :=
  cbn [play jni_client_setter jni_host_setter];
  unfold_op; unfold_fn;
  repeat (rewrite ?Hp, ?Hb, ?lookup_insert_eq, ?insert_insert_eq;
          cbv beta iota zeta; fields);
  reflexivity.

(** Callback setters on a valid handle compose as assignments do, whichever
    threads call them: setting the same event twice is the same as setting
    it to the second value, and setters of different events commute. *)
Theorem setters_compose t t' p b w c c' :
  p ≠ 0 → heap w !! p = Some b →
  match b with
  | ClientBlock _ => ∀ e e',
      play [(t, jni_client_setter e p c); (t', jni_client_setter e p c')] w =
        play [(t', jni_client_setter e p c')] w ∧
      (e ≠ e' →
       play [(t, jni_client_setter e p c); (t', jni_client_setter e' p c')] w =
         play [(t', jni_client_setter e' p c'); (t, jni_client_setter e p c)] w)
  | HostBlock _ => ∀ e e',
      play [(t, jni_host_setter e p c); (t', jni_host_setter e p c')] w =
        play [(t', jni_host_setter e p c')] w ∧
      (e ≠ e' →
       play [(t, jni_host_setter e p c); (t', jni_host_setter e' p c')] w =
         play [(t', jni_host_setter e' p c'); (t, jni_host_setter e p c)] w)
  end.
Proof.
  intros Hp%Z.eqb_neq Hb.
  destruct b as [h|h]; intros e e'; split.
  - destruct e; run_setters Hp Hb.
  - intros Hne. destruct e, e'; try (by destruct Hne); run_setters Hp Hb.
  - destruct e; run_setters Hp Hb.
  - intros Hne. destruct e, e'; try (by destruct Hne); run_setters Hp Hb.
Qed.
End Operations.

(** ** Runs on the two small platforms *)

(** C1: the entry points [neonClientGetId], [neonClientGetSessionId],
    [neonClientIsConnected], [neonClientSetAutoPing] and
    [neonHostGetClientCount], run on a valid handle whose managed method
    throws, return what the call gave them, record nothing and leave the
    exception pending.  [neonClientConnect], in the same situation, clears
    it, records "Exception during connect" and returns [JNI_FALSE]. *)
Theorem unchecked_calls_leave_exception_pending :
  pending one_client = ∅ ∧ pending one_host = ∅ ∧
  (∃ w', run (Java_com_quietterminal_projectneon_jni_NeonClientJNI_neonClientGetId (vm := throwing) 0%nat 1) one_client =
           Some (Completed 0, w') ∧
         pending w' = {[0%nat]} ∧ last_error 0%nat w' = None) ∧
  (∃ w', run (Java_com_quietterminal_projectneon_jni_NeonClientJNI_neonClientGetSessionId (vm := throwing) 0%nat 1) one_client =
           Some (Completed 0, w') ∧
         pending w' = {[0%nat]} ∧ last_error 0%nat w' = None) ∧
  (∃ w', run (Java_com_quietterminal_projectneon_jni_NeonClientJNI_neonClientIsConnected (vm := throwing) 0%nat 1) one_client =
           Some (Completed 0, w') ∧
         pending w' = {[0%nat]} ∧ last_error 0%nat w' = None) ∧
  (∃ w', run (Java_com_quietterminal_projectneon_jni_NeonClientJNI_neonClientSetAutoPing (vm := throwing) 0%nat 1 JNI_TRUE) one_client =
           Some (Completed tt, w') ∧
         pending w' = {[0%nat]} ∧ last_error 0%nat w' = None) ∧
  (∃ w', run (Java_com_quietterminal_projectneon_jni_NeonHostJNI_neonHostGetClientCount (vm := throwing) 0%nat 1) one_host =
           Some (Completed 0, w') ∧
         pending w' = {[0%nat]} ∧ last_error 0%nat w' = None) ∧
  (∃ w', run (Java_com_quietterminal_projectneon_jni_NeonClientJNI_neonClientConnect (vm := throwing) 0%nat 1 42 (Some "127.0.0.1:7777")) one_client =
           Some (Failed JNI_FALSE, w') ∧
         pending w' = ∅ ∧ last_error 0%nat w' = Some "Exception during connect").
Proof.
  repeat split; try (vm_compute; reflexivity);
    eexists; (split; [vm_compute; reflexivity|]); split; vm_compute; reflexivity.
Qed.

(** Against C2 as stated: "h:80x", "h:70000" and "h: -7" are not of the form
    the specification describes, and the check takes each of them; a
    connect to "h:80x" goes through. *)
Lemma trailing_bytes_and_large_ports_accepted :
  spec_relay_address "h:80x" = false ∧
  sscanf_host_port "h:80x" = Some (2, "h", 80) ∧
  (∃ w', run (Java_com_quietterminal_projectneon_jni_NeonClientJNI_neonClientConnect (vm := obliging) 0%nat 1 42 (Some "h:80x")) one_client =
           Some (Completed JNI_TRUE, w') ∧ last_error 0%nat w' = None) ∧
  spec_relay_address "h:70000" = false ∧
  sscanf_host_port "h:70000" = Some (2, "h", 70000) ∧
  spec_relay_address "h: -7" = false ∧
  sscanf_host_port "h: -7" = Some (2, "h", -7).
Proof.
  repeat split; try (vm_compute; reflexivity).
  eexists; split; vm_compute; reflexivity.
Qed.

(** Against C3 as stated: [neonClientSetAutoPing] on the null handle writes
    the caller's error buffer. *)
Lemma jni_setter_on_null_records_error :
  last_error 0%nat (initial tt) = None ∧
  ∃ w', run (Java_com_quietterminal_projectneon_jni_NeonClientJNI_neonClientSetAutoPing (vm := obliging) 0%nat 0 JNI_TRUE)
          (initial tt) = Some (Failed tt, w') ∧
        last_error 0%nat w' = Some "Invalid client handle" ∧
        g_error_buffer w' ≠ g_error_buffer (initial tt).
Proof.
  split; [reflexivity|]. eexists. split; [vm_compute; reflexivity|].
  split; [vm_compute; reflexivity|].
  intros Heq. apply (f_equal (λ m, m !! 0%nat)) in Heq.
  vm_compute in Heq. discriminate.
Qed.

(** Against C4 as stated: [neon_client_get_id] and
    [neon_client_get_session_id] return 0, not -1, on the null handle. *)
Lemma c_identifiers_on_null_return_zero :
  (returned ∘ fst) <$> run (neon_client_get_id (vm := obliging) 0%nat 0) (initial tt)
    = Some 0 ∧
  (returned ∘ fst) <$> run (neon_client_get_id (vm := obliging) 0%nat 0) (initial tt)
    ≠ Some (-1) ∧
  (returned ∘ fst) <$> run (neon_client_get_session_id (vm := obliging) 0%nat 0)
                         (initial tt)
    = Some 0 ∧
  (returned ∘ fst) <$> run (neon_client_get_session_id (vm := obliging) 0%nat 0)
                         (initial tt)
    ≠ Some (-1).
Proof. repeat split; discriminate. Qed.

(** Against C6 as stated: "h:80x", "h:70000" and "h: -7" are malformed in
    the words of the specification, and host creation does not fail on
    them: the constructor is invoked and a handle is allocated. *)
Lemma host_new_constructs_on_malformed :
  spec_relay_address "h:80x" = false ∧
  spec_relay_address "h:70000" = false ∧
  spec_relay_address "h: -7" = false ∧
  (∃ p w', run (Java_com_quietterminal_projectneon_jni_NeonHostJNI_neonHostNew (vm := obliging) 1%nat 42 (Some "h:80x")) loaded =
             Some (Completed p, w') ∧ p ≠ 0 ∧
           invoked w' =
             [Construct 100 host_constructor
                [JInt 42; JString (Some "h"); JInt 80]] ∧
           heap loaded !! p = None ∧ is_Some (heap w' !! p)) ∧
  (∃ p w', run (Java_com_quietterminal_projectneon_jni_NeonHostJNI_neonHostNew (vm := obliging) 1%nat 42 (Some "h:70000")) loaded =
             Some (Completed p, w') ∧ p ≠ 0 ∧
           invoked w' =
             [Construct 100 host_constructor
                [JInt 42; JString (Some "h"); JInt 70000]] ∧
           heap loaded !! p = None ∧ is_Some (heap w' !! p)) ∧
  (∃ p w', run (neon_host_new (vm := obliging) 1%nat 42 "h: -7") loaded =
             Some (Completed p, w') ∧ p ≠ 0 ∧
           invoked w' =
             [Construct 100 host_constructor
                [JInt 42; JString (Some "h"); JInt (-7)]] ∧
           heap loaded !! p = None ∧ is_Some (heap w' !! p)).
Proof.
  do 3 (split; [vm_compute; reflexivity|]).
  repeat split;
    (do 2 eexists; split; [vm_compute; reflexivity|];
     split; [discriminate|]; split; [vm_compute; reflexivity|];
     split; [vm_compute; reflexivity|]; vm_compute; eexists; reflexivity).
Qed.

(** Against C7 as stated: [isConnected] on the null handle, or on a class
    without the method, and [neon_client_get_id] on the null handle fail
    without a message, and the caller still reads [NULL]. *)
Lemma silent_failure_leaves_channel_empty :
  exec (vm := obliging) 0%nat (ClientIsConnected 0) (initial tt) =
    Some (Failed (VBool false), initial tt) ∧
  last_error 0%nat (initial tt) = None ∧
  exec (vm := obliging) 0%nat (JniClientIsConnected 0) loaded =
    Some (Failed (VInt JNI_FALSE), loaded) ∧
  last_error 0%nat loaded = None ∧
  exec (vm := obliging) 0%nat (ClientGetId 0) loaded =
    Some (Failed (VInt 0), loaded) ∧
  exec (vm := methodless) 0%nat (JniClientIsConnected 1) one_client =
    Some (Failed (VInt JNI_FALSE),
          set_pending {[0%nat]} one_client) ∧
  last_error 0%nat (set_pending {[0%nat]} one_client) = None.
Proof. repeat split; vm_compute; reflexivity. Qed.

Lemma set_callback_stores_witness :
  (1 ≠ 0 ∧ heap one_client !! 1 =
     Some (ClientBlock {| client_javaObject := 7; pongCallback := 0;
            sessionConfigCallback := 0; packetTypeRegistryCallback := 0;
            client_unhandledPacketCallback := 0; wrongDestinationCallback := 0 |})) ∧
  ∃ h', exec (vm := obliging) 0%nat (JniClientSetPongCallback 1 4096) one_client =
          Some (Completed VVoid, set_heap (<[1 := ClientBlock h']> (heap one_client)) one_client) ∧
        pongCallback h' = 4096 ∧
        (∀ e', e' ≠ EvPong → client_slot e' h' = 0) ∧
        client_javaObject h' = 7.
Proof.
  assert (1 ≠ 0) as H1 by lia.
  assert (heap one_client !! 1 =
     Some (ClientBlock {| client_javaObject := 7; pongCallback := 0;
            sessionConfigCallback := 0; packetTypeRegistryCallback := 0;
            client_unhandledPacketCallback := 0; wrongDestinationCallback := 0 |}))
    as H2 by (vm_compute; reflexivity).
  split; [by split|].
  destruct (set_callback_stores (vm := obliging) 0%nat one_client 1 4096 _ H1 H2 EvPong)
    as (h' & He & Hs & Ho & Hj & _).
  exists h'. repeat split; try done.
  intros e' He'. rewrite (Ho e' He'). by destruct e'.
Defined.

Lemma host_new_fails_fast_witness :
  (¬ ∃ host port, relay_syntax "bad-address" host port) ∧
  (∃ msg, diagnostic msg = true ∧
     run (Java_com_quietterminal_projectneon_jni_NeonHostJNI_neonHostNew (vm := obliging) 0%nat 42 (Some "bad-address")) one_client =
       Some (Failed 0, error_written 0%nat msg one_client) ∧
     (GetStringUTFChars_ok (Platform := obliging) (outside one_client) "bad-address" = true →
      msg = format_error)) ∧
  run (neon_host_new (vm := obliging) 0%nat 42 "bad-address") one_client =
    Some (Failed 0, error_written 0%nat format_error one_client).
Proof.
  assert (¬ ∃ host port, relay_syntax "bad-address" host port) as H1.
  { apply sscanf_host_port_rejects. exists 1, "bad-address", 0.
    split; [reflexivity | lia]. }
  split; [exact H1|].
  destruct (host_new_fails_fast (vm := obliging) 0%nat one_client 42 _ H1)
    as [(msg & Hd & Hrun & Hmsg & _) (msg' & w0 & Hrun' & _ & _ & _ & _ & _ & _
          & _ & _ & _ & Hatt)].
  split; [exists msg; split; [exact Hd|split; [exact Hrun|exact Hmsg]]|].
  assert (attached (vm := obliging) 0%nat one_client) as Ha
    by (split; vm_compute; reflexivity).
  destruct (Hatt Ha eq_refl eq_refl) as [-> ->]. exact Hrun'.
Defined.

Lemma relay_address_parse_witness :
  (sscanf_host_port "bad-address" = Some (1, "bad-address", 0) ∧ 1 ≠ 2 ∧
   GetStringUTFChars_ok (Platform := obliging) (outside one_client) "bad-address"
     = true) ∧
  run (Java_com_quietterminal_projectneon_jni_NeonClientJNI_neonClientConnect (vm := obliging) 0%nat 1 42
         (Some "bad-address")) one_client =
    Some (Failed JNI_FALSE, error_written 0%nat format_error one_client) ∧
  run (Java_com_quietterminal_projectneon_jni_NeonHostJNI_neonHostNew (vm := obliging) 0%nat 42 (Some "bad-address"))
      one_client =
    Some (Failed 0, error_written 0%nat format_error one_client).
Proof.
  assert (sscanf_host_port "bad-address" = Some (1, "bad-address", 0)) as H1
    by reflexivity.
  assert (1 ≠ 2) as H2 by lia.
  assert (GetStringUTFChars_ok (Platform := obliging) (outside one_client)
            "bad-address" = true) as H3 by reflexivity.
  split; [done|].
  destruct (relay_address_parse (vm := obliging) "bad-address" 0%nat one_client 1 42)
    as (_ & _ & Hops).
  destruct (Hops _ _ _ H1 H2 H3) as [Hconnect Hnew].
  split; [apply Hconnect; lia | exact Hnew].
Defined.

Lemma success_keeps_error_channel_witness :
  ∃ w', exec (vm := obliging) 0%nat (JniClientIsConnected 1)
          (error_written 0%nat "Invalid client handle" one_client) =
          Some (Completed (VInt 0), w') ∧
        last_error 0%nat w' = Some "Invalid client handle" ∧
        g_error_buffer w' =
          g_error_buffer (error_written 0%nat "Invalid client handle" one_client).
Proof.
  eexists. split; [vm_compute; reflexivity|].
  edestruct (success_keeps_error_channel (vm := obliging) 0%nat
               (JniClientIsConnected 1)
               (error_written 0%nat "Invalid client handle" one_client)
               (VInt 0)) as [Hmap Hlast].
  { vm_compute; reflexivity. }
  split; [|exact Hmap].
  rewrite Hlast. vm_compute; reflexivity.
Defined.

Lemma error_channel_per_thread_witness :
  ((0 ≠ 1)%nat ∧
   reached_without_failure (vm := obliging) 1%nat (initial tt) loaded ∧
   exec (vm := obliging) 0%nat (JniClientGetId 0) loaded =
     Some (Failed (VInt (-1)), error_written 0%nat "Invalid client handle" loaded) ∧
   silent (JniClientGetId 0) = false) ∧
  last_error 1%nat (error_written 0%nat "Invalid client handle" loaded) = None ∧
  ∃ msg, msg ≠ "" ∧
         last_error 0%nat (error_written 0%nat "Invalid client handle" loaded)
           = Some msg.
Proof.
  assert ((0 ≠ 1)%nat) as H1 by lia.
  assert (exec (vm := obliging) 1%nat OnLoad (initial tt) =
            Some (Completed (VInt JNI_VERSION_1_8), loaded)) as H2
    by (vm_compute; reflexivity).
  assert (exec (vm := obliging) 0%nat (JniClientGetId 0) loaded =
            Some (Failed (VInt (-1)),
                  error_written 0%nat "Invalid client handle" loaded)) as H3
    by reflexivity.
  assert (silent (JniClientGetId 0) = false) as H4 by reflexivity.
  assert (reached_without_failure (vm := obliging) 1%nat (initial tt) loaded)
    as Hreach.
  { eapply reached_step; [exact H2 | eauto | apply reached_here]. }
  split; [repeat (first [assumption | split])|].
  destruct (error_channel_per_thread (vm := obliging) 0%nat 1%nat tt loaded
              _ _ _ H1 Hreach H3) as (_ & HB & HA).
  split; [exact HB|]. exact (HA _ eq_refl H4).
Defined.

Lemma get_last_error_never_empty_witness :
  exec (vm := obliging) 0%nat (JniClientGetId 0) (initial tt) =
    Some (Failed (VInt (-1)),
          error_written 0%nat "Invalid client handle" (initial tt)) ∧
  (last_error 0%nat (error_written 0%nat "Invalid client handle" (initial tt)) =
     last_error 0%nat (initial tt) ∨
   ∃ msg, msg ≠ "" ∧
     last_error 0%nat (error_written 0%nat "Invalid client handle" (initial tt))
       = Some msg).
Proof.
  assert (exec (vm := obliging) 0%nat (JniClientGetId 0) (initial tt) =
            Some (Failed (VInt (-1)),
                  error_written 0%nat "Invalid client handle" (initial tt)))
    as H1 by reflexivity.
  split; [exact H1|].
  destruct (get_last_error_never_empty (vm := obliging) 0%nat (initial tt))
    as (_ & _ & _ & Hstep).
  exact (Hstep _ _ _ H1).
Defined.

Lemma checked_entry_points_clear_exceptions_witness :
  checks_exceptions (JniClientConnect 1 42 (Some "127.0.0.1:7777")) = true ∧
  match exec (vm := throwing) 0%nat
          (JniClientConnect 1 42 (Some "127.0.0.1:7777")) one_client with
  | Some (o, w') => invoked w' ≠ invoked one_client → (0%nat) ∉ pending w'
  | None => True
  end.
Proof.
  assert (checks_exceptions (JniClientConnect 1 42 (Some "127.0.0.1:7777")) = true)
    as H1 by reflexivity.
  split; [exact H1|].
  exact (checked_entry_points_clear_exceptions (vm := throwing) 0%nat _ one_client H1).
Defined.

(** ** More runs *)

Lemma error_buffers_stay_terminated_witness :
  play (vm := obliging) [(1%nat, OnLoad); (0%nat, JniClientGetId 0)] (initial tt) =
    Some (error_written 0%nat "Invalid client handle" loaded) ∧
  buffers_ok (error_written 0%nat "Invalid client handle" loaded) ∧
  ∀ t, length (error_buffer t (error_written 0%nat "Invalid client handle" loaded))
         = 512%nat ∧
       error_buffer t (error_written 0%nat "Invalid client handle" loaded)
         !! 511%nat = Some NUL ∧
       (String.length
          (c_str (error_buffer t
                    (error_written 0%nat "Invalid client handle" loaded)))
        ≤ 511)%nat.
Proof.
  assert (play (vm := obliging) [(1%nat, OnLoad); (0%nat, JniClientGetId 0)]
            (initial tt) =
          Some (error_written 0%nat "Invalid client handle" loaded)) as H1
    by (vm_compute; reflexivity).
  split; [exact H1|].
  exact (error_buffers_stay_terminated (vm := obliging) _ tt _ H1).
Defined.

Lemma set_error_truncates_witness :
  (buffers_ok (initial tt) ∧
   string_forall (λ c, negb (bool_decide (c = NUL))) long_message = true) ∧
  last_error 0%nat (error_written 0%nat long_message (initial tt)) =
    Some (first_bytes 511 long_message).
Proof.
  assert (buffers_ok (initial tt)) as H1 by apply map_Forall_empty.
  assert (string_forall (λ c, negb (bool_decide (c = NUL))) long_message = true)
    as H2 by (vm_compute; reflexivity).
  split; [repeat (first [assumption | split])|].
  exact (set_error_truncates 0%nat long_message (initial tt) H1 H2).
Defined.

Lemma null_handle_goes_nowhere_witness :
  handle_of (ClientSendPing 0) = Some 0 ∧
  exec (vm := obliging) 0%nat (ClientSendPing 0) one_client =
    Some (Failed (VBool false),
          error_written 0%nat "Invalid client handle" one_client) ∧
  last_error 0%nat (error_written 0%nat "Invalid client handle" one_client) =
    Some "Invalid client handle".
Proof.
  assert (handle_of (ClientSendPing 0) = Some 0) as H1 by reflexivity.
  split; [exact H1|].
  destruct (null_handle_goes_nowhere (vm := obliging) 0%nat _ one_client H1)
    as (v & said & Hn & He & _ & _ & _ & _ & _ & _ & Hl).
  cbn [null_exit] in Hn. injection Hn as <- <-.
  split; [exact He | exact Hl].
Defined.

Lemma api_needs_the_library_loaded_witness :
  (g_jvm (initial tt) = false ∧ c_sentinel (ClientNew "Alice") = Some (VInt 0) ∧
   handle_of (ClientNew "Alice") ≠ Some 0) ∧
  exec (vm := obliging) 0%nat (ClientNew "Alice") (initial tt) =
    Some (Failed (VInt 0), error_written 0%nat "JVM not initialized" (initial tt)).
Proof.
  assert (g_jvm (initial tt) = false) as H1 by reflexivity.
  assert (c_sentinel (ClientNew "Alice") = Some (VInt 0)) as H2 by reflexivity.
  assert (handle_of (ClientNew "Alice") ≠ Some 0) as H3 by discriminate.
  split; [repeat (first [assumption | split])|].
  exact (api_needs_the_library_loaded (vm := obliging) 0%nat _ _ _ H1 H2 H3).
Defined.

Lemma load_then_unload_witness :
  (run (JNI_OnLoad (vm := obliging) 1%nat) (initial tt) =
     Some (Completed JNI_VERSION_1_8, loaded) ∧
   GetEnv_answer (Platform := obliging) (outside (initial tt)) 0%nat = JNI_OK) ∧
  run (JNI_OnUnload (vm := obliging) 0%nat) loaded =
    Some (Completed tt,
          set_g_jvm false
            (set_g_neonHostClass 0 (set_g_neonClientClass 0 (initial tt)))).
Proof.
  assert (run (JNI_OnLoad (vm := obliging) 1%nat) (initial tt) =
            Some (Completed JNI_VERSION_1_8, loaded)) as H1
    by (vm_compute; reflexivity).
  assert (GetEnv_answer (Platform := obliging) (outside (initial tt)) 0%nat
            = JNI_OK) as H2 by reflexivity.
  split; [repeat (first [assumption | split])|].
  exact (load_then_unload (vm := obliging) 1%nat 0%nat _ _ _ H1 H2).
Defined.

Lemma c_api_forwards_witness :
  (attached (vm := obliging) 0%nat one_client ∧
   handle_of (ClientGetId 1) ≠ Some 0 ∧
   jni_of (ClientGetId 1) = Some (JniClientGetId 1, cast to_uint8_t)) ∧
  exec (vm := obliging) 0%nat (ClientGetId 1) one_client =
    (λ '(o, w'), (map_outcome (cast to_uint8_t) o, w')) <$>
      exec (vm := obliging) 0%nat (JniClientGetId 1) one_client.
Proof.
  assert (attached (vm := obliging) 0%nat one_client) as H1
    by (split; vm_compute; reflexivity).
  assert (handle_of (ClientGetId 1) ≠ Some 0) as H2 by discriminate.
  assert (jni_of (ClientGetId 1) = Some (JniClientGetId 1, cast to_uint8_t))
    as H3 by reflexivity.
  split; [repeat (first [assumption | split])|].
  exact (c_api_forwards (vm := obliging) 0%nat _ _ _ one_client H1 H2 H3).
Defined.

Lemma dangling_handle_never_completes_witness :
  (handle_of (JniClientGetId 5) = Some 5 ∧ heap one_client !! 5 = None) ∧
  ∀ v w', exec (vm := obliging) 0%nat (JniClientGetId 5) one_client ≠
            Some (Completed v, w').
Proof.
  assert (handle_of (JniClientGetId 5) = Some 5) as H1 by reflexivity.
  assert (heap one_client !! 5 = None) as H2 by (vm_compute; reflexivity).
  split; [repeat (first [assumption | split])|].
  exact (dangling_handle_never_completes (vm := obliging) 0%nat _ 5
           one_client H1 H2).
Defined.

Lemma free_releases_the_handle_witness :
  (1 ≠ 0 ∧ heap one_client !! 1 = Some (ClientBlock alice) ∧
   g_neonClientClass one_client ≠ 0 ∧ client_javaObject alice ≠ 0) ∧
  ∃ w', exec (vm := obliging) 0%nat (JniClientFree 1) one_client =
          Some (Completed VVoid, w') ∧
        heap w' = delete 1 (heap one_client) ∧
        g_error_buffer w' = g_error_buffer one_client ∧
        invoked w' = invoked one_client ++ [Invoke 7 close_method []] ∧
        (0%nat) ∉ pending w'.
Proof.
  assert (1 ≠ 0) as H1 by lia.
  assert (heap one_client !! 1 = Some (ClientBlock alice)) as H2
    by (vm_compute; reflexivity).
  assert (g_neonClientClass one_client ≠ 0) as H3 by (vm_compute; discriminate).
  assert (client_javaObject alice ≠ 0) as H4 by (vm_compute; discriminate).
  split; [repeat (first [assumption | split])|].
  exact (free_releases_the_handle (vm := obliging) 0%nat 1 _ one_client
           H1 H2 H3 H4).
Defined.

Lemma connect_passes_the_address_witness :
  (attached (vm := obliging) 0%nat one_client ∧ 1 ≠ 0 ∧
   heap one_client !! 1 = Some (ClientBlock alice) ∧
   client_javaObject alice ≠ 0 ∧
   marshals (vm := obliging) one_client (g_neonClientClass one_client)
     connect_method "127.0.0.1:7777" "127.0.0.1" ∧
   relay_syntax "127.0.0.1:7777" "127.0.0.1" 7777 ∧ fits_int 7777 = true) ∧
  ∃ w', exec (vm := obliging) 0%nat
          (ClientConnect 1 4000000000 "127.0.0.1:7777") one_client =
          Some (Completed (VBool true), w') ∧
        invoked w' =
          invoked one_client ++
          [Invoke 7 connect_method
             [JInt (-294967296); JString (Some "127.0.0.1"); JInt 7777]] ∧
        heap w' = heap one_client ∧ (0%nat) ∉ pending w'.
Proof.
  assert (attached (vm := obliging) 0%nat one_client) as H1
    by (split; vm_compute; reflexivity).
  assert (1 ≠ 0) as H2 by lia.
  assert (heap one_client !! 1 = Some (ClientBlock alice)) as H3
    by (vm_compute; reflexivity).
  assert (client_javaObject alice ≠ 0) as H4 by (vm_compute; discriminate).
  assert (marshals (vm := obliging) one_client (g_neonClientClass one_client)
            connect_method "127.0.0.1:7777" "127.0.0.1") as H5
    by (repeat split; vm_compute; discriminate).
  assert (sscanf_host_port "127.0.0.1:7777" = Some (2, "127.0.0.1", 7777))
    as [H6 H7]%sscanf_host_port_accepts by (vm_compute; reflexivity).
  split; [repeat (first [assumption | split])|].
  destruct (connect_passes_the_address (vm := obliging) 0%nat 1 alice
              one_client 4000000000 _ _ _ H1 H2 H3 H4 H5 H6 H7)
    as (w' & Hexec & Hinv & Hheap & Hpend & _).
  exists w'. split; [exact Hexec|]. split; [exact Hinv|]. by split.
Defined.

Lemma host_new_passes_the_address_witness :
  (attached (vm := obliging) 1%nat loaded ∧
   marshals (vm := obliging) loaded (g_neonHostClass loaded) host_constructor
     "0.0.0.0:7777" "0.0.0.0" ∧
   relay_syntax "0.0.0.0:7777" "0.0.0.0" 7777 ∧ fits_int 7777 = true ∧
   NewObject_answer (Platform := obliging) (outside loaded)
     (g_neonHostClass loaded) host_constructor
     [JInt 42; JString (Some "0.0.0.0"); JInt 7777] = (tt, 7) ∧
   7 ≠ 0 ∧ malloc_ok (Platform := obliging) tt = true) ∧
  ∃ w', exec (vm := obliging) 1%nat (HostNew 42 "0.0.0.0:7777") loaded =
          Some (Completed (VInt (fresh_address (heap loaded))), w') ∧
        invoked w' =
          invoked loaded ++
          [Construct (g_neonHostClass loaded) host_constructor
             [JInt 42; JString (Some "0.0.0.0"); JInt 7777]].
Proof.
  assert (attached (vm := obliging) 1%nat loaded) as H1
    by (split; vm_compute; reflexivity).
  assert (marshals (vm := obliging) loaded (g_neonHostClass loaded)
            host_constructor "0.0.0.0:7777" "0.0.0.0") as H2
    by (repeat split; vm_compute; discriminate).
  assert (sscanf_host_port "0.0.0.0:7777" = Some (2, "0.0.0.0", 7777))
    as [H3 H4]%sscanf_host_port_accepts by (vm_compute; reflexivity).
  assert (NewObject_answer (Platform := obliging) (outside loaded)
            (g_neonHostClass loaded) host_constructor
            [JInt 42; JString (Some "0.0.0.0"); JInt 7777] = (tt, 7)) as H5
    by reflexivity.
  assert (7 ≠ 0) as H6 by lia.
  assert (malloc_ok (Platform := obliging) tt = true) as H7 by reflexivity.
  split; [repeat (first [assumption | split])|].
  destruct (host_new_passes_the_address (vm := obliging) 1%nat loaded 42
              _ _ _ tt 7 H1 H2 H3 H4 H5 H6 H7)
    as (w' & Hexec & Hinv & _).
  exists w'. by split.
Defined.

Lemma missing_method_wraps_the_sentinel_witness :
  (attached (vm := methodless) 0%nat one_client ∧ 1 ≠ 0 ∧
   g_neonClientClass one_client ≠ 0 ∧
   GetMethodID_ok (Platform := methodless) (outside one_client)
     (g_neonClientClass one_client) "getClientId" "()I" = false) ∧
  ∃ w', exec (vm := methodless) 0%nat (ClientGetId 1) one_client =
          Some (Failed (VInt 255), w') ∧
        last_error 0%nat w' = Some "Failed to find getClientId method".
Proof.
  assert (attached (vm := methodless) 0%nat one_client) as H1
    by (split; vm_compute; reflexivity).
  assert (1 ≠ 0) as H2 by lia.
  assert (g_neonClientClass one_client ≠ 0) as H3 by (vm_compute; discriminate).
  assert (GetMethodID_ok (Platform := methodless) (outside one_client)
            (g_neonClientClass one_client) "getClientId" "()I" = false) as H4
    by reflexivity.
  split; [repeat (first [assumption | split])|].
  destruct (missing_method_wraps_the_sentinel (vm := methodless) 0%nat 1
              one_client H1 H2) as (Hid & _).
  exact (Hid H3 H4).
Defined.

Lemma session_id_round_trip_witness :
  (attached (vm := scripted (-294967296) false) 0%nat one_client ∧ 1 ≠ 0 ∧
   heap one_client !! 1 = Some (ClientBlock alice) ∧
   client_javaObject alice ≠ 0 ∧ g_neonClientClass one_client ≠ 0 ∧
   GetMethodID_ok (Platform := scripted (-294967296) false) (outside one_client)
     (g_neonClientClass one_client) "getSessionId" "()I" = true ∧
   CallMethod_answer (Platform := scripted (-294967296) false)
     (outside one_client) (client_javaObject alice) getSessionId_method [] =
     (tt, (to_jint 4000000000, false)) ∧
   0 ≤ 4000000000 < 2 ^ 32) ∧
  ∃ w', exec (vm := scripted (-294967296) false) 0%nat (ClientGetSessionId 1)
          one_client = Some (Completed (VInt 4000000000), w') ∧
        heap w' = heap one_client ∧
        g_error_buffer w' = g_error_buffer one_client.
Proof.
  assert (attached (vm := scripted (-294967296) false) 0%nat one_client) as H1
    by (split; vm_compute; reflexivity).
  assert (1 ≠ 0) as H2 by lia.
  assert (heap one_client !! 1 = Some (ClientBlock alice)) as H3
    by (vm_compute; reflexivity).
  assert (client_javaObject alice ≠ 0) as H4 by (vm_compute; discriminate).
  assert (g_neonClientClass one_client ≠ 0) as H5 by (vm_compute; discriminate).
  assert (GetMethodID_ok (Platform := scripted (-294967296) false)
            (outside one_client) (g_neonClientClass one_client)
            "getSessionId" "()I" = true) as H6 by reflexivity.
  assert (CallMethod_answer (Platform := scripted (-294967296) false)
            (outside one_client) (client_javaObject alice)
            getSessionId_method [] = (tt, (to_jint 4000000000, false))) as H7
    by (vm_compute; reflexivity).
  assert (0 ≤ 4000000000 < 2 ^ 32) as H8 by lia.
  split; [repeat (first [assumption | split])|].
  exact (session_id_round_trip (vm := scripted (-294967296) false) 0%nat 1
           alice one_client 4000000000 tt false H1 H2 H3 H4 H5 H6 H7 H8).
Defined.

Lemma failures_are_recorded_witness :
  (handle_of (JniClientConnect 1 42 (Some "bad-address")) ≠ Some 0 ∧
   quiet (JniClientConnect 1 42 (Some "bad-address")) = false ∧
   exec (vm := obliging) 0%nat (JniClientConnect 1 42 (Some "bad-address"))
     one_client =
     Some (Failed (VInt JNI_FALSE), error_written 0%nat format_error one_client)) ∧
  ∃ msg, g_error_buffer (error_written 0%nat format_error one_client) =
           g_error_buffer (error_written 0%nat msg one_client) ∧
         last_error 0%nat (error_written 0%nat format_error one_client) =
           Some msg ∧
         diagnostic msg = true.
Proof.
  assert (handle_of (JniClientConnect 1 42 (Some "bad-address")) ≠ Some 0)
    as H1 by discriminate.
  assert (quiet (JniClientConnect 1 42 (Some "bad-address")) = false) as H2
    by reflexivity.
  assert (exec (vm := obliging) 0%nat
            (JniClientConnect 1 42 (Some "bad-address")) one_client =
          Some (Failed (VInt JNI_FALSE),
                error_written 0%nat format_error one_client)) as H3
    by (vm_compute; reflexivity).
  split; [repeat (first [assumption | split])|].
  exact (failures_are_recorded (vm := obliging) 0%nat _ one_client _ _ H1 H2 H3).
Defined.

Lemma operations_stay_in_their_lane_witness :
  ∃ o w', exec (vm := throwing) 0%nat (JniClientSendPing 1) one_client =
            Some (o, w') ∧
          footprint 0%nat (JniClientSendPing 1) one_client w'.
Proof.
  destruct (exec (vm := throwing) 0%nat (JniClientSendPing 1) one_client)
    as [[o w']|] eqn:H1; [|vm_compute in H1; discriminate].
  exists o, w'. split; [reflexivity|].
  exact (operations_stay_in_their_lane (vm := throwing) 0%nat _ one_client
           o w' H1).
Defined.

Lemma setters_compose_witness :
  (1 ≠ 0 ∧ heap one_client !! 1 = Some (ClientBlock alice)) ∧
  play (vm := obliging)
    [(0%nat, JniClientSetPongCallback 1 4096);
     (1%nat, JniClientSetPongCallback 1 8192)] one_client =
  play (vm := obliging) [(1%nat, JniClientSetPongCallback 1 8192)] one_client ∧
  play (vm := obliging)
    [(0%nat, JniClientSetPongCallback 1 4096);
     (1%nat, JniClientSetSessionConfigCallback 1 8192)] one_client =
  play (vm := obliging)
    [(1%nat, JniClientSetSessionConfigCallback 1 8192);
     (0%nat, JniClientSetPongCallback 1 4096)] one_client.
Proof.
  assert (1 ≠ 0) as H1 by lia.
  assert (heap one_client !! 1 = Some (ClientBlock alice)) as H2
    by (vm_compute; reflexivity).
  split; [repeat (first [assumption | split])|].
  pose proof (setters_compose (vm := obliging) 0%nat 1%nat 1 _ one_client
                4096 8192 H1 H2) as H.
  cbv beta iota in H. split.
  - exact (proj1 (H EvPong EvPong)).
  - exact (proj2 (H EvPong EvSessionConfig) ltac:(discriminate)).
Defined.

Lemma sscanf_fills_host_within_bounds_witness :
  sscanf_host_port "h:80x" = Some (2, "h", 80) ∧
  host_of "h:80x" "h" ∧ fits_int 80 = true.
Proof.
  assert (sscanf_host_port "h:80x" = Some (2, "h", 80)) as H1 by reflexivity.
  split; [exact H1|].
  destruct (sscanf_fills_host_within_bounds _ _ _ _ H1) as (Hh & Hf & _).
  by split.
Defined.
